(** * taskmanager-tools: the paper intake and filing pipeline

    A shallow embedding of [src/papers/research_paper_util.py],
    [src/papers/arxiv_fetcher.py], [src/remarkable/rmapi.py] and
    [src/papers/upload.py], and the properties of the pipeline that the
    specification states about them.

    Python [str] values are modelled as lists of characters whose code points
    are below 256 (the Latin-1 range), with Python's own classification of
    those code points ([str.isalnum], [str.isspace], [str.lower]; the regular
    expression classes [\w], [\s] and [\d] agree with them on that range).

    What lies outside the program, the environment, the local files, the
    bridge [./bin/rmapi], the oracle and the network, is the class
    [Externals]; a computation is a function from the state of that world
    and the trace of what was done so far to a result or an exception, the
    new state and the longer trace.  What the program prints is left out,
    and the bridge is taken to be installed, so that the constructor of
    [RMAPI] has nothing to do.  A call of the bridge with an argument that
    holds a NUL character starts no process and raises [ValueError], as
    [subprocess.run] does.  The members of the JSON object that the oracle
    answers with are taken to be strings, as the prompt asks for them: what
    is stated of the exceptions of the pipeline leaves open what an answer
    with other members makes of it. *)

From Stdlib Require Import Ascii String List ZArith NArith Lia Bool Arith.
Import ListNotations.
Open Scope string_scope.
Open Scope list_scope.

Set Implicit Arguments.

(* ================================================================= *)
(** ** Python strings *)

Definition str := list ascii.

Coercion list_ascii_of_string : string >-> list.

Definition ord (c : ascii) : N := N_of_ascii c.

Definition between (lo hi n : N) : bool := ((lo <=? n) && (n <=? hi))%N.

(** [c.isalnum()] on code points 0..255. *)
Definition isalnum (c : ascii) : bool :=
  let n := ord c in
  between 48 57 n || between 65 90 n || between 97 122 n
  || (n =? 170)%N || between 178 179 n || (n =? 181)%N
  || between 185 186 n || between 188 190 n
  || between 192 214 n || between 216 246 n || between 248 255 n.

(** [c.isspace()] on code points 0..255; [str.split()], [str.strip()] and the
    class [\s] use the same set. *)
Definition isspace (c : ascii) : bool :=
  let n := ord c in
  between 9 13 n || between 28 32 n || (n =? 133)%N || (n =? 160)%N.

(** [\d]: decimal digits; on this range the ASCII digits only. *)
Definition isdigit (c : ascii) : bool := between 48 57 (ord c).

(** [c.lower()] on code points 0..255. *)
Definition lower_char (c : ascii) : ascii :=
  let n := ord c in
  if between 65 90 n || between 192 214 n || between 216 222 n
  then ascii_of_N (n + 32) else c.

Definition str_lower (s : str) : str := map lower_char s.

Fixpoint str_eqb (a b : str) : bool :=
  match a, b with
  | [], [] => true
  | x :: a', y :: b' => Ascii.eqb x y && str_eqb a' b'
  | _, _ => false
  end.

(** [x in l] for a list or a set of strings. *)
Definition str_mem (x : str) (l : list str) : bool := existsb (str_eqb x) l.

(** Truth value of a string: the empty string is false. *)
Definition truthy (s : str) : bool :=
  match s with [] => false | _ :: _ => true end.

(** Truth value of [str | None]. *)
Definition truthy_opt (s : option str) : bool :=
  match s with None => false | Some s => truthy s end.

Fixpoint startswith (p s : str) : bool :=
  match p, s with
  | [], _ => true
  | x :: p', y :: s' => Ascii.eqb x y && startswith p' s'
  | _ :: _, [] => false
  end.

(** [sub in s]: substring test. *)
Fixpoint str_in (sub s : str) : bool :=
  startswith sub s ||
  match s with
  | [] => false
  | _ :: s' => str_in sub s'
  end.

Fixpoint lstrip (s : str) : str :=
  match s with
  | [] => []
  | c :: s' => if isspace c then lstrip s' else s
  end.

Definition rstrip (s : str) : str := rev (lstrip (rev s)).

(** [s.strip()] *)
Definition str_strip (s : str) : str := rstrip (lstrip s).

(** [s.split()] without a separator: the maximal runs of characters that are
    not whitespace.  [cur] holds the run being read, last character first. *)
Fixpoint split_ws (cur : str) (s : str) : list str :=
  match s with
  | [] => match cur with [] => [] | _ :: _ => [rev cur] end
  | c :: s' =>
      if isspace c then
        match cur with
        | [] => split_ws [] s'
        | _ :: _ => rev cur :: split_ws [] s'
        end
      else split_ws (c :: cur) s'
  end.

Definition str_split (s : str) : list str := split_ws [] s.

(** [s.split(sep)] for a one-character separator: every separator ends a
    field, so the result is never empty. *)
Fixpoint split_on (sep : ascii) (cur : str) (s : str) : list str :=
  match s with
  | [] => [rev cur]
  | c :: s' =>
      if Ascii.eqb c sep then rev cur :: split_on sep [] s'
      else split_on sep (c :: cur) s'
  end.

(** [sep.join(l)] *)
Fixpoint str_join (sep : str) (l : list str) : str :=
  match l with
  | [] => []
  | [w] => w
  | w :: l' => w ++ sep ++ str_join sep l'
  end.

(** [s.replace(old, new)] for a non-empty [old]: occurrences are replaced
    from the left and do not overlap.  [skip] counts the characters of the
    occurrence just replaced that are still to be passed over. *)
Fixpoint replace_from (old new : str) (skip : nat) (s : str) : str :=
  match s with
  | [] => []
  | c :: s' =>
      match skip with
      | S k => replace_from old new k s'
      | O =>
          if startswith old s
          then new ++ replace_from old new (List.length old - 1) s'
          else c :: replace_from old new 0 s'
      end
  end.

(** With an empty [old] Python puts [new] before every character and at the
    end. *)
Definition str_replace (old new s : str) : str :=
  match old with
  | [] => new ++ flat_map (fun c => c :: new) s
  | _ :: _ => replace_from old new 0 s
  end.

(** [s.rfind(".")]: the index of the last dot, if there is one. *)
Fixpoint rfind_dot (s : str) : option nat :=
  match s with
  | [] => None
  | c :: s' =>
      match rfind_dot s' with
      | Some i => Some (S i)
      | None => if Ascii.eqb c "." then Some 0 else None
      end
  end.

(** A word, as [str.split] yields them: not empty, and without whitespace. *)
Definition no_space (w : str) : Prop := Forall (fun c => isspace c = false) w.

Definition is_word (w : str) : Prop := w <> [] /\ no_space w.

(* ================================================================= *)
(** ** pathlib: [Path(p).name] and [Path(p).stem] (POSIX flavour) *)

(** The components of a path: empty components and single dots are dropped
    when the path is parsed. *)
Definition path_parts (p : str) : list str :=
  filter (fun part => truthy part && negb (str_eqb part "."))
         (split_on "/" [] p).

(** [Path(p).name]: the last component, or the empty string. *)
Definition path_name (p : str) : str := last (path_parts p) [].

(** [Path(p).stem]: the name without its last suffix; a leading or a
    trailing dot does not start a suffix. *)
Definition path_stem (p : str) : str :=
  let name := path_name p in
  match rfind_dot name with
  | Some i => if ((0 <? i) && (i <? List.length name - 1))%nat then firstn i name else name
  | None => name
  end.

(* ================================================================= *)
(** ** research_paper_util.py: the filename normalizer *)

(** [generate_formatted_filename(title)] *)
Definition filename_char (c : ascii) : bool :=
  isalnum c || Ascii.eqb c " " || Ascii.eqb c "-" || Ascii.eqb c "_".

Definition generate_formatted_filename (title : str) : str :=
  let safe_title := str_strip (filter filename_char title) in
  let safe_title := str_join " " (str_split safe_title) in
  safe_title ++ ".pdf".

(** The name without its extension: the title made safe. *)
Definition safe_title_of (title : str) : str :=
  str_join " " (str_split (str_strip (filter filename_char title))).

Definition stop_words : list str :=
  [ "a" : str; "an" : str; "the" : str; "of" : str; "for" : str; "and" : str;
    "or" : str; "but" : str; "in" : str; "on" : str; "at" : str; "to" : str;
    "from" : str; "by" : str; "with" : str; "via" : str; "using" : str;
    "through" : str ].

(** [re.sub(r"[^\w\s-]", "", word)]: every character outside the class is
    removed. *)
Definition word_char (c : ascii) : bool :=
  isalnum c || Ascii.eqb c "_" || isspace c || Ascii.eqb c "-".

Definition clean (word : str) : str := filter word_char word.

Definition len (l : list str) : Z := Z.of_nat (List.length l).

(** The first loop of [shorten_title_for_filename]: keep the words that are
    not stop words, and leave the loop as soon as [max_words] are kept. *)
Fixpoint keep_key_words (max_words : Z) (words key_words : list str) : list str :=
  match words with
  | [] => key_words
  | word :: rest =>
      let clean_word := clean word in
      if negb (str_mem (str_lower clean_word) stop_words) && truthy clean_word
      then
        let key_words := key_words ++ [clean_word] in
        if (len key_words >=? max_words)%Z then key_words
        else keep_key_words max_words rest key_words
      else keep_key_words max_words rest key_words
  end.

(** The second loop: add words back, skipping the ones already kept, and
    leave the loop as soon as four are kept. *)
Fixpoint add_words_back (words key_words : list str) : list str :=
  match words with
  | [] => key_words
  | word :: rest =>
      let clean_word := clean word in
      if truthy clean_word && negb (str_mem clean_word key_words)
      then
        let key_words := key_words ++ [clean_word] in
        if (len key_words >=? 4)%Z then key_words
        else add_words_back rest key_words
      else add_words_back rest key_words
  end.

Definition shorten_key_words (title : str) (max_words : Z) : list str :=
  let words := str_split title in
  let key_words := keep_key_words max_words words [] in
  if (len key_words <? 3)%Z && (len words >? len key_words)%Z
  then add_words_back words key_words
  else key_words.

(** [shorten_title_for_filename(title, max_words)] *)
Definition shorten_title_for_filename (title : str) (max_words : Z) : str :=
  str_join " " (shorten_key_words title max_words).

(* ================================================================= *)
(** ** Exceptions, external collaborators and the effect monad *)

(** The exception classes that the pipeline raises or catches.  All of them
    derive from [Exception] except [SystemExit]. *)
Inductive exn : Type :=
| InvalidArxivId
| ValueError (msg : str)
| JSONDecodeError
| KeyError
| IndexError
| TypeError
| AttributeError
| OSError
| CalledProcessError
| SystemExit (code : Z).

Definition is_Exception (e : exn) : bool :=
  match e with SystemExit _ => false | _ => true end.

Definition is_CalledProcessError (e : exn) : bool :=
  match e with CalledProcessError => true | _ => false end.

Definition is_InvalidArxivId (e : exn) : bool :=
  match e with InvalidArxivId => true | _ => false end.

Inductive outcome (A : Type) : Type :=
| Ret (a : A)
| Raise (e : exn).
Arguments Raise {A} e.

(** [subprocess.CompletedProcess] with captured text output. *)
Record CompletedProcess : Type := {
  returncode : Z;
  stdout : str;
  stderr : str
}.

Definition bytes := list Byte.byte.

(** A block of the oracle's message: [anthropic.types.TextBlock] or any
    other block type. *)
Inductive ContentBlock : Type :=
| TextBlock (text : str)
| OtherBlock.

(** What [json.loads] returns: a dict, whose members are taken to hold
    strings as the prompt asks, or any other JSON value. *)
Inductive json : Type :=
| JObject (members : list (str * str))
| JOther.

(** The entry of the metadata feed as [xml.etree.ElementTree] shows it:
    the text of [atom:title] ([None] inside when the element is empty) and
    the [term] attribute of [arxiv:primary_category], each absent when the
    element is. *)
Record Entry : Type := {
  title_elem : option (option str);
  primary_category : option (option str)
}.

(** The parsed feed: [root.find("atom:entry", ns)]. *)
Record Feed : Type := { feed_entry : option Entry }.

(** The collaborators outside the pipeline.  An [option] result that is
    [None] stands for a call that raised. *)
Class Externals : Type := {
  World : Type;
  (** [os.getenv(name)] *)
  ext_getenv : str -> World -> option str;
  (** [os.path.exists(path)] *)
  ext_path_exists : str -> World -> bool;
  (** running the bridge with [argv]; [None] when it cannot be started *)
  ext_subprocess : list str -> World -> option CompletedProcess * World;
  (** [extract_first_page(path)] *)
  ext_extract_first_page : str -> World -> option bytes;
  (** [open(path, "rb").read()] *)
  ext_read_file : str -> World -> option bytes;
  (** [client.messages.create(...)] with the document as payload: the
      [content] of the message *)
  ext_messages_create : bytes -> World -> option (list ContentBlock) * World;
  (** [json.loads(text)] *)
  ext_json_loads : str -> option json;
  (** [urlopen(api_url)] read, decoded and parsed *)
  ext_arxiv_query : str -> World -> option Feed;
  (** [urlretrieve(url, filename)]: [false] when it raised *)
  ext_urlretrieve : str -> option str -> World -> bool * World
}.

(** What a run does to the outside, in order: a bridge command with what
    came of it, a call of the classifier adapter, a request to the oracle, a
    metadata query, a download. *)
Inductive event : Type :=
| Subprocess (argv : list str) (result : option CompletedProcess)
| Analyze (paper_path : str)
| Oracle (payload : bytes)
| Query (url : str)
| Download (url : str) (filename : option str).

Section Monad.
Context {E : Externals}.

Record state : Type := { world : World; trace : list event }.

Definition M (A : Type) : Type := state -> outcome A * state.

Definition ret {A} (a : A) : M A := fun s => (Ret a, s).

Definition raise {A} (e : exn) : M A := fun s => (Raise e, s).

Definition bind {A B} (m : M A) (k : A -> M B) : M B :=
  fun s =>
    match m s with
    | (Ret a, s') => k a s'
    | (Raise e, s') => (Raise e, s')
    end.

(** [try: body  except <class>: handler] *)
Definition try_except {A} (body : M A) (catches : exn -> bool) (handler : M A) : M A :=
  fun s =>
    match body s with
    | (Ret a, s') => (Ret a, s')
    | (Raise e, s') => if catches e then handler s' else (Raise e, s')
    end.

Definition emit (e : event) : M unit :=
  fun s => (Ret tt, {| world := world s; trace := trace s ++ [e] |}).

Definition read {A} (f : World -> A) : M A := fun s => (Ret (f (world s)), s).

Definition act {A} (f : World -> A * World) : M A :=
  fun s => let (a, w) := f (world s) in (Ret a, {| world := w; trace := trace s |}).

(** The events that a computation adds to the trace. *)
Definition extends (s s' : state) (t : list event) : Prop :=
  trace s' = trace s ++ t.

End Monad.

Notation "x <- m ;; k" := (bind m (fun x => k))
  (at level 61, m at next level, right associativity).
Notation "m ;;; k" := (bind m (fun _ => k))
  (at level 61, right associativity).

Section Pipeline.
Context {E : Externals}.

(** An argument that holds the character of code point 0: no process can
    be given it. *)
Definition has_nul (argv : list str) : bool :=
  existsb (existsb (Ascii.eqb "000"%char)) argv.

(** [subprocess.run(argv, capture_output=True, text=True, check=check)].
    With an argument that holds a NUL character the call raises
    [ValueError] before a process is started; the trace keeps the call, as
    one that gave no completed process. *)
Definition subprocess_run (argv : list str) (check : bool) : M CompletedProcess :=
  if has_nul argv
  then emit (Subprocess argv None) ;;; raise (ValueError "embedded null byte")
  else
    r <- act (ext_subprocess argv) ;;
    emit (Subprocess argv r) ;;;
    match r with
    | None => raise OSError
    | Some result =>
        if check && negb (returncode result =? 0)%Z then raise CalledProcessError
        else ret result
    end.

(** What comes of a call of the bridge: nothing, with the world as it was,
    when an argument holds a NUL character; what the bridge does
    otherwise. *)
Definition bridge (argv : list str) (w : World) : option CompletedProcess * World :=
  if has_nul argv then (None, w) else ext_subprocess argv w.

(** The exception of a call that started no process: [ValueError] for an
    argument that holds a NUL character, [OSError] when the bridge could
    not be started. *)
Definition start_error (argv : list str) : exn :=
  if has_nul argv then ValueError "embedded null byte" else OSError.

(** What [subprocess.run] makes of what came of the call: the exception of
    a call that started no process, [CalledProcessError] for a status other
    than zero under [check=True], the completed process otherwise. *)
Definition completion (argv : list str) (check : bool)
    (result : option CompletedProcess) : outcome CompletedProcess :=
  match result with
  | None => Raise (start_error argv)
  | Some p =>
      if check && negb (returncode p =? 0)%Z then Raise CalledProcessError
      else Ret p
  end.

(* ----------------------------------------------------------------- *)
(** *** research_paper_util.py: the classifier adapter *)

(** [d.get(key)] for a dict given by its items. *)
Fixpoint dict_get (key : str) (members : list (str * str)) : option str :=
  match members with
  | [] => None
  | (k, v) :: rest => if str_eqb k key then Some v else dict_get key rest
  end.

(** [result[key]]: [KeyError] for a dict without the key, [TypeError] for a
    value that is not a dict. *)
Definition getitem (result : json) (key : str) : M str :=
  match result with
  | JObject members =>
      match dict_get key members with
      | Some v => ret v
      | None => raise KeyError
      end
  | JOther => raise TypeError
  end.

(** [analyze_paper_with_claude(paper_path)].  The event [Analyze] marks the
    call and the event [Oracle] the request.  A collaborator that raises
    inside a [try] is given the class [OSError]; the handlers there catch
    every [Exception], so the class does not matter. *)
Definition analyze_paper_with_claude (paper_path : str) : M (str * str) :=
  emit (Analyze paper_path) ;;;
  api_key <- read (ext_getenv "ANTHROPIC_API_KEY") ;;
  if negb (truthy_opt api_key) then raise (ValueError "Missing ANTHROPIC_API_KEY")
  else
    pdf_content <-
      try_except
        (r <- read (ext_extract_first_page paper_path) ;;
         match r with Some b => ret b | None => raise OSError end)
        is_Exception
        (r <- read (ext_read_file paper_path) ;;
         match r with Some b => ret b | None => raise OSError end) ;;
    try_except
      (emit (Oracle pdf_content) ;;;
       message <- act (ext_messages_create pdf_content) ;;
       match message with
       | None => raise OSError
       | Some content =>
           match content with
           | [] => raise IndexError
           | TextBlock text :: _ =>
               let response_text := str_strip text in
               match ext_json_loads response_text with
               | None => raise JSONDecodeError
               | Some result =>
                   c <- getitem result "classification" ;;
                   t <- getitem result "title" ;;
                   ret (c, t)
               end
           | OtherBlock :: _ => ret ([], [])
           end
       end)
      is_Exception
      (ret ("Uncategorized" : str, path_stem paper_path)).

(* ----------------------------------------------------------------- *)
(** *** rmapi.py: the remote filing engine *)

Definition rmapi : str := "./bin/rmapi".

(** [RMAPI.ensure_directory(classification)] *)
Definition ensure_directory (classification : str) : M bool :=
  try_except
    (result <- subprocess_run [rmapi; "ls" : str; "/" : str] false ;;
     (if negb (str_in "papers" (stdout result))
      then subprocess_run [rmapi; "mkdir" : str; "/papers" : str] true ;;; ret tt
      else ret tt) ;;;
     result <- subprocess_run [rmapi; "ls" : str; "/papers" : str] false ;;
     (if negb (str_in classification (stdout result))
      then subprocess_run [rmapi; "mkdir" : str; "/papers/" ++ classification] true ;;; ret tt
      else ret tt) ;;;
     ret true)
    is_CalledProcessError
    (ret false).

(** The four commands of [ensure_directory]. *)
Definition ls_root : list str := [rmapi; "ls" : str; "/" : str].

Definition mkdir_papers : list str := [rmapi; "mkdir" : str; "/papers" : str].

Definition ls_papers : list str := [rmapi; "ls" : str; "/papers" : str].

Definition mkdir_category (classification : str) : list str :=
  [rmapi; "mkdir" : str; "/papers/" ++ classification].



(** The string of a [str | None] that is known to hold one. *)
Definition value (s : option str) : str :=
  match s with Some s => s | None => [] end.

(** [upload_paper(paper_path, title, classification, output_file_name,
    dry_run)].  [paper_path] is [None] when the caller passes the result of
    a download that failed; [os.path.exists(None)] raises [TypeError]. *)
Definition upload_paper (paper_path : option str)
    (title classification output_file_name : option str) (dry_run : bool) : M bool :=
  match paper_path with
  | None => raise TypeError
  | Some paper_path =>
      found <- read (ext_path_exists paper_path) ;;
      if negb found then ret false
      else
        tc <- (if negb (truthy_opt title) || negb (truthy_opt classification)
               then
                 ct <- analyze_paper_with_claude paper_path ;;
                 ret (if truthy_opt title then value title else snd ct,
                      if truthy_opt classification then value classification else fst ct)
               else ret (value title, value classification)) ;;
        let title := fst tc in
        let classification := snd tc in
        let output_file_name :=
          if truthy_opt output_file_name then value output_file_name
          else generate_formatted_filename title in
        ok <- ensure_directory classification ;;
        if negb ok then ret false
        else
          try_except
            (uploaded <-
               (if negb dry_run
                then
                  result <- subprocess_run
                    [rmapi; "put" : str; paper_path; "/papers/" ++ classification ++ "/"]
                    false ;;
                  ret (returncode result =? 0)%Z
                else ret true) ;;
             if negb uploaded then ret false
             else
               let original_name := path_name paper_path in
               (if negb (str_eqb original_name output_file_name)
                then
                  if negb dry_run
                  then
                    subprocess_run
                      [rmapi; "mv" : str;
                       "/papers/" ++ classification ++ "/"
                         ++ str_replace ".pdf" "" original_name;
                       "/papers/" ++ classification ++ "/"
                         ++ str_replace ".pdf" "" output_file_name]
                      true ;;; ret tt
                  else ret tt
                else ret tt) ;;;
               ret true)
            is_CalledProcessError
            (ret false)
  end.

(** The two halves of [upload_paper]: everything up to the directories,
    which settles the classification and the file name or gives up, and the
    [try] statement that puts the file and renames it. *)
Definition upload_prepare (paper_path : str)
    (title classification output_file_name : option str) : M (option (str * str)) :=
  found <- read (ext_path_exists paper_path) ;;
  if negb found then ret None
  else
    tc <- (if negb (truthy_opt title) || negb (truthy_opt classification)
           then
             ct <- analyze_paper_with_claude paper_path ;;
             ret (if truthy_opt title then value title else snd ct,
                  if truthy_opt classification then value classification else fst ct)
           else ret (value title, value classification)) ;;
    let title := fst tc in
    let classification := snd tc in
    let output_file_name :=
      if truthy_opt output_file_name then value output_file_name
      else generate_formatted_filename title in
    ok <- ensure_directory classification ;;
    if negb ok then ret None else ret (Some (classification, output_file_name)).

(** The two commands of the [try] statement. *)
Definition put_argv (paper_path classification : str) : list str :=
  [rmapi; "put" : str; paper_path; "/papers/" ++ classification ++ "/"].

Definition mv_argv (classification original_name output_file_name : str) : list str :=
  [rmapi; "mv" : str;
   "/papers/" ++ classification ++ "/" ++ str_replace ".pdf" "" original_name;
   "/papers/" ++ classification ++ "/" ++ str_replace ".pdf" "" output_file_name].

Definition upload_transfer (paper_path classification output_file_name : str)
    (dry_run : bool) : M bool :=
  try_except
    (uploaded <-
       (if negb dry_run
        then
          result <- subprocess_run (put_argv paper_path classification) false ;;
          ret (returncode result =? 0)%Z
        else ret true) ;;
     if negb uploaded then ret false
     else
       let original_name := path_name paper_path in
       (if negb (str_eqb original_name output_file_name)
        then
          if negb dry_run
          then
            subprocess_run (mv_argv classification original_name output_file_name)
              true ;;; ret tt
          else ret tt
        else ret tt) ;;;
       ret true)
    is_CalledProcessError
    (ret false).

(** The document that [analyze_paper_with_claude] sends: the first page,
    or the whole file when the first page cannot be taken. *)
Definition payload_of (paper_path : str) (w : World) : option bytes :=
  match ext_extract_first_page paper_path w with
  | Some b => Some b
  | None => ext_read_file paper_path w
  end.

(** An answer of the oracle that gives no classification and title: the
    call raised, the message has no block, or its first block is text that
    is not a JSON object with both members. *)
Definition unusable (answer : option (list ContentBlock)) : Prop :=
  answer = None \/ answer = Some []
  \/ exists text rest, answer = Some (TextBlock text :: rest)
       /\ (ext_json_loads (str_strip text) = None
           \/ ext_json_loads (str_strip text) = Some JOther
           \/ exists members,
                ext_json_loads (str_strip text) = Some (JObject members)
                /\ (dict_get "classification" members = None
                    \/ dict_get "title" members = None)).

(** The fallback of the adapter. *)
Definition fallback (paper_path : str) : str * str :=
  ("Uncategorized" : str, path_stem paper_path).

(** What the adapter makes of an answer. *)
Definition interpret (paper_path : str) (answer : option (list ContentBlock)) : str * str :=
  match answer with
  | Some (TextBlock text :: _) =>
      match ext_json_loads (str_strip text) with
      | Some (JObject members) =>
          match dict_get "classification" members, dict_get "title" members with
          | Some c, Some t => (c, t)
          | _, _ => fallback paper_path
          end
      | _ => fallback paper_path
      end
  | Some (OtherBlock :: _) => ([], [])
  | _ => fallback paper_path
  end.

(** A bridge call that did not succeed. *)
Definition failed_call (e : event) : Prop :=
  match e with
  | Subprocess _ None => True
  | Subprocess _ (Some result) => returncode result <> 0%Z
  | _ => False
  end.

(** The bridge calls that file [paper_path] under [classification] as
    [output_file_name]. *)
Definition files_under (paper_path classification output_file_name : str)
    (e : event) : Prop :=
  exists m,
    e = Subprocess mkdir_papers m
    \/ e = Subprocess ls_papers m
    \/ e = Subprocess (mkdir_category classification) m
    \/ e = Subprocess (put_argv paper_path classification) m
    \/ e = Subprocess
             (mv_argv classification (path_name paper_path) output_file_name) m.

(** What [upload_paper] can raise: never [InvalidArxivId], never
    [SystemExit]. *)
Definition may_escape (e : exn) : Prop :=
  e = TypeError \/ e = ValueError "Missing ANTHROPIC_API_KEY" \/ e = OSError
  \/ e = ValueError "embedded null byte".

End Pipeline.

(* ================================================================= *)
(** ** arxiv_fetcher.py: the identifier resolver *)

(** Exactly [n] characters of [[0-9]] at the head of [s]: the characters and
    what follows them. *)
Fixpoint take_digits (n : nat) (s : str) : option (str * str) :=
  match n with
  | O => Some ([], s)
  | S k =>
      match s with
      | c :: s' =>
          if isdigit c then
            match take_digits k s' with
            | Some (ds, rest) => Some (c :: ds, rest)
            | None => None
            end
          else None
      | [] => None
      end
  end.

(** The longest run of [\d] at the head of [s]. *)
Fixpoint span_digits (s : str) : str * str :=
  match s with
  | c :: s' =>
      if isdigit c then let (ds, rest) := span_digits s' in (c :: ds, rest)
      else ([], s)
  | [] => ([], [])
  end.

(** [[0-9]{4}\.[0-9]{4,5}(?:v\d+)?] at the head of [s], greedy: the text
    matched and what follows it.  Everything after the first eight digits is
    optional, so the greedy choice is the match. *)
Definition match_id (s : str) : option (str * str) :=
  match take_digits 4 s with
  | Some (year_month, c :: s1) =>
      if Ascii.eqb c "." then
        match take_digits 4 s1 with
        | Some (number, s2) =>
            let (fifth, s3) :=
              match take_digits 1 s2 with
              | Some (d, rest) => (d, rest)
              | None => ([], s2)
              end in
            let (version, s4) :=
              match s3 with
              | v :: s' =>
                  if Ascii.eqb v "v" then
                    match span_digits s' with
                    | ([], _) => ([], s3)
                    | (ds, rest) => (v :: ds, rest)
                    end
                  else ([], s3)
              | [] => ([], s3)
              end in
            Some (year_month ++ "." ++ number ++ fifth ++ version, s4)
        | None => None
        end
      else None
  | _ => None
  end.

Definition strip_prefix (p s : str) : option str :=
  if startswith p s then Some (skipn (List.length p) s) else None.

(** An optional group [(?:p)?] before [rest]: first with it, then without. *)
Definition optional {A} (p : str -> option str) (rest : str -> option A) (s : str) : option A :=
  match p s with
  | Some s' =>
      match rest s' with
      | Some a => Some a
      | None => rest s
      end
  | None => rest s
  end.

Definition literal {A} (p : str) (rest : str -> option A) (s : str) : option A :=
  match strip_prefix p s with
  | Some s' => rest s'
  | None => None
  end.

Definition group_id (s : str) : option str := option_map fst (match_id s).

(** [(?:https?://)?(?:www\.)?arxiv\.org/(?:abs|pdf)/(ID)] at the head of
    [s]: group 1. *)
Definition pattern_url (s : str) : option str :=
  optional
    (fun s => literal "http" (optional (strip_prefix "s") (strip_prefix "://")) s)
    (optional (strip_prefix "www.")
       (literal "arxiv.org/"
          (fun s =>
             match literal "abs" (literal "/" group_id) s with
             | Some g => Some g
             | None => literal "pdf" (literal "/" group_id) s
             end)))
    s.

(** [(?:arxiv:)?(ID)] at the head of [s]: group 1. *)
Definition pattern_prefixed (s : str) : option str :=
  optional (strip_prefix "arxiv:") group_id s.

(** [^(ID)$]: the end of the string, or the newline that ends it. *)
Definition pattern_bare (s : str) : option str :=
  match match_id s with
  | Some (g, []) => Some g
  | Some (g, [c]) => if Ascii.eqb c "010" then Some g else None
  | _ => None
  end.

(** [re.search(pattern, s)]: the match that starts leftmost. *)
Fixpoint re_search (at_head : str -> option str) (s : str) : option str :=
  match at_head s with
  | Some g => Some g
  | None =>
      match s with
      | [] => None
      | _ :: s' => re_search at_head s'
      end
  end.

Definition parse_id (input_str : str) : option str :=
  let s := str_lower input_str in
  match re_search pattern_url s with
  | Some g => Some g
  | None =>
      match re_search pattern_prefixed s with
      | Some g => Some g
      | None => pattern_bare s
      end
  end.

Definition category_map : list (str * str) :=
  [ ("cs" : str, "ComputerScience" : str);
    ("math" : str, "Mathematics" : str);
    ("physics" : str, "Physics" : str);
    ("q-bio" : str, "QuantumBiology" : str);
    ("q-fin" : str, "QuantumFinance" : str);
    ("stat" : str, "Statistics" : str);
    ("eess" : str, "Engineering" : str);
    ("econ" : str, "Economics" : str);
    ("astro-ph" : str, "Astrophysics" : str);
    ("cond-mat" : str, "CondensedMatter" : str);
    ("gr-qc" : str, "GeneralRelativity" : str);
    ("hep-ex" : str, "HighEnergyPhysics" : str);
    ("hep-lat" : str, "HighEnergyPhysics" : str);
    ("hep-ph" : str, "HighEnergyPhysics" : str);
    ("hep-th" : str, "HighEnergyPhysics" : str);
    ("math-ph" : str, "MathematicalPhysics" : str);
    ("nlin" : str, "NonlinearSciences" : str);
    ("nucl-ex" : str, "NuclearPhysics" : str);
    ("nucl-th" : str, "NuclearPhysics" : str);
    ("quant-ph" : str, "QuantumPhysics" : str) ].

Section Resolver.
Context {E : Externals}.

(** [ArxivFetcher(input_str)]: the fetcher is its [document_id]. *)
Definition ArxivFetcher (input_str : str) : M str :=
  match parse_id input_str with
  | None => raise InvalidArxivId
  | Some document_id => ret document_id
  end.

Definition api_url (document_id : str) : str :=
  "http://export.arxiv.org/api/query?id_list=" ++ document_id.

Definition get_metadata (document_id : str) : M (option str * option str) :=
  let api_url := "http://export.arxiv.org/api/query?id_list=" ++ document_id in
  try_except
    (emit (Query api_url) ;;;
     root <- read (ext_arxiv_query api_url) ;;
     match root with
     | None => raise OSError
     | Some root =>
         match feed_entry root with
         | None => ret (None, None)
         | Some entry =>
             title <-
               match title_elem entry with
               | Some (Some text) => ret (Some (str_strip text))
               | Some None => raise AttributeError
               | None => ret None
               end ;;
             let title :=
               if truthy_opt title
               then Some (str_join " " (str_split (value title)))
               else title in
             let category :=
               match primary_category entry with
               | Some term =>
                   let category := hd [] (split_on "." [] (value term)) in
                   match dict_get category category_map with
                   | Some name => Some name
                   | None => Some (str_replace "-" "" category)
                   end
               | None => None
               end in
             ret (title, category)
         end
     end)
    is_Exception
    (ret (None, None)).

Definition download_paper (document_id : str) (output_path : option str) : M (option str) :=
  let output_path :=
    if negb (truthy_opt output_path) && truthy document_id
    then Some ("/tmp/arxiv_" ++ str_replace "/" "_" document_id ++ ".pdf")
    else output_path in
  let pdf_url := "https://arxiv.org/pdf/" ++ document_id ++ ".pdf" in
  emit (Download pdf_url output_path) ;;;
  ok <- act (ext_urlretrieve pdf_url output_path) ;;
  if ok then ret output_path else ret None.

(* ----------------------------------------------------------------- *)
(** *** upload.py: the intake dispatcher *)

(** [handle_arxiv_paper(handler, rmapi, dry_run)].  The result is what the
    Python function returns: [None] when its body ends without a [return]. *)
Definition handle_arxiv_paper (handler : str) (dry_run : bool) : M (option bool) :=
  tc <- get_metadata handler ;;
  let title := fst tc in
  let category := snd tc in
  if negb (truthy_opt title) then ret (Some false)
  else
    output_path <- download_paper handler None ;;
    let short_title := shorten_title_for_filename (value title) 6 in
    upload_paper output_path title category None dry_run ;;;
    ret None.

(** Truth value of [bool | None]. *)
Definition truthy_result (r : option bool) : bool :=
  match r with Some b => b | None => false end.

Definition sys_exit {A} (code : Z) : M A := raise (SystemExit code).

(** [main()] after the arguments are parsed: [paper] is [args.paper] and
    [dry_run] is [args.dry_run].  The bridge is taken to be installed, so
    that [RMAPI()] has nothing to set up. *)
Definition main (paper : option str) (dry_run : bool) : M unit :=
  if truthy_opt paper then
    success <-
      try_except
        (handler <- ArxivFetcher (value paper) ;;
         handle_arxiv_paper handler dry_run)
        is_InvalidArxivId
        (ok <- upload_paper paper None None None dry_run ;; ret (Some ok)) ;;
    sys_exit (if truthy_result success then 0 else 1)%Z
  else ret tt.

(** The exit status of the interpreter: what [sys.exit] was given, 1 for an
    exception that nothing caught, 0 when [main] returns. *)
Definition exit_code (r : outcome unit) : Z :=
  match r with
  | Ret _ => 0
  | Raise (SystemExit code) => code
  | Raise _ => 1
  end%Z.

End Resolver.

(* ================================================================= *)
(** ** The vocabulary of the statements *)

(** The number of whitespace-separated tokens of a string. *)
Definition tokens (s : str) : nat := List.length (str_split s).

(** The two bounds of the specification on the shortener, as it words
    them: "shorten never returns more than maxWords tokens", *)
Definition at_most_max_words (title : str) (max_words : Z) : Prop :=
  (Z.of_nat (tokens (shorten_title_for_filename title max_words)) <= max_words)%Z.

(** "and returns at least min(3, totalRawTokens) tokens when raw tokens are
    available". *)
Definition at_least_three_or_all (title : str) (max_words : Z) : Prop :=
  0 < tokens title ->
  Nat.min 3 (tokens title) <= tokens (shorten_title_for_filename title max_words).

Definition str_eq_dec : forall a b : str, {a = b} + {a <> b} :=
  list_eq_dec ascii_dec.

(** The distinct non-empty words that remain of the raw tokens once their
    punctuation is removed. *)
Definition distinct_clean_words (title : str) : list str :=
  nodup str_eq_dec (filter truthy (map clean (str_split title))).

(** The fixed extension taken off a file name: [name.removesuffix(".pdf")]. *)
Definition removesuffix (suffix s : str) : str :=
  if startswith (rev suffix) (rev s)
  then firstn (List.length s - List.length suffix) s
  else s.

Definition strip_extension (name : str) : str := removesuffix ".pdf" name.

(** The bridge calls of a trace: those of one command, and the argument
    lists of all of them. *)
Definition is_call (command : str) (e : event) : bool :=
  match e with
  | Subprocess (_ :: c :: _) _ => str_eqb c command
  | _ => false
  end.

Definition calls (command : str) (t : list event) : list event :=
  filter (is_call command) t.

Definition argvs (t : list event) : list (list str) :=
  flat_map (fun e => match e with Subprocess argv _ => [argv] | _ => [] end) t.

Definition is_analyze (e : event) : bool :=
  match e with Analyze _ => true | _ => false end.

Definition is_oracle (e : event) : bool :=
  match e with Oracle _ => true | _ => false end.

(* ================================================================= *)
(** ** A simulated outside world, to run the pipeline on *)

Definition newline : str := ["010"%char].

Definition quote : str := ["034"%char].

(** The one document that the simulated [json.loads] reads as a dict with
    both members; it reads the text [[]] as a list and rejects the rest. *)
Definition physics_json : str :=
  "{" ++ quote ++ "classification" ++ quote ++ ": " ++ quote ++ "Physics" ++ quote
  ++ ", " ++ quote ++ "title" ++ quote ++ ": " ++ quote ++ "Dark Matter Survey"
  ++ quote ++ "}".

Record Sim : Type := {
  sim_api_key : option str;
  sim_files : list str;            (* the local paths that exist *)
  sim_root : str;                  (* what [ls /] prints *)
  sim_papers : str;                (* what [ls /papers] prints *)
  sim_ls_returncode : Z;
  sim_mkdir_returncode : Z;
  sim_put_returncode : Z;
  sim_mv_returncode : Z;
  sim_content : option (list ContentBlock);
  sim_feed : option Feed;
  sim_download : bool
}.

Definition completed (rc : Z) (out : str) : option CompletedProcess :=
  Some {| returncode := rc; stdout := out; stderr := [] |}.

Definition sim_mkdir (path : str) (w : Sim) : Sim :=
  {| sim_api_key := sim_api_key w;
     sim_files := sim_files w;
     sim_root :=
       if str_eqb path "/papers" then sim_root w ++ "papers" ++ newline
       else sim_root w;
     sim_papers :=
       match strip_prefix "/papers/" path with
       | Some name => sim_papers w ++ name ++ newline
       | None => sim_papers w
       end;
     sim_ls_returncode := sim_ls_returncode w;
     sim_mkdir_returncode := sim_mkdir_returncode w;
     sim_put_returncode := sim_put_returncode w;
     sim_mv_returncode := sim_mv_returncode w;
     sim_content := sim_content w;
     sim_feed := sim_feed w;
     sim_download := sim_download w |}.

Definition sim_add_file (path : str) (w : Sim) : Sim :=
  {| sim_api_key := sim_api_key w;
     sim_files := path :: sim_files w;
     sim_root := sim_root w;
     sim_papers := sim_papers w;
     sim_ls_returncode := sim_ls_returncode w;
     sim_mkdir_returncode := sim_mkdir_returncode w;
     sim_put_returncode := sim_put_returncode w;
     sim_mv_returncode := sim_mv_returncode w;
     sim_content := sim_content w;
     sim_feed := sim_feed w;
     sim_download := sim_download w |}.

Definition sim_subprocess (argv : list str) (w : Sim) : option CompletedProcess * Sim :=
  match argv with
  | [_; command; path] =>
      if str_eqb command "ls" then
        if str_eqb path "/" then (completed (sim_ls_returncode w) (sim_root w), w)
        else if str_eqb path "/papers"
             then (completed (sim_ls_returncode w) (sim_papers w), w)
             else (completed 1 [], w)
      else if str_eqb command "mkdir" then
        if (sim_mkdir_returncode w =? 0)%Z
        then (completed 0 [], sim_mkdir path w)
        else (completed (sim_mkdir_returncode w) [], w)
      else (None, w)
  | [_; command; _; _] =>
      if str_eqb command "put" then (completed (sim_put_returncode w) [], w)
      else if str_eqb command "mv" then (completed (sim_mv_returncode w) [], w)
      else (None, w)
  | _ => (None, w)
  end.

Definition sim_json_loads (text : str) : option json :=
  if str_eqb text physics_json
  then Some (JObject [("classification" : str, "Physics" : str);
                      ("title" : str, "Dark Matter Survey" : str)])
  else if str_eqb text "[]" then Some JOther
  else None.

#[local] Instance sim_externals : Externals := {|
  World := Sim;
  ext_getenv := fun name w =>
    if str_eqb name "ANTHROPIC_API_KEY" then sim_api_key w else None;
  ext_path_exists := fun path w => str_mem path (sim_files w);
  ext_subprocess := sim_subprocess;
  ext_extract_first_page := fun path w =>
    if str_mem path (sim_files w) then Some [] else None;
  ext_read_file := fun path w =>
    if str_mem path (sim_files w) then Some [] else None;
  ext_messages_create := fun _ w => (sim_content w, w);
  ext_json_loads := sim_json_loads;
  ext_arxiv_query := fun _ w => sim_feed w;
  ext_urlretrieve := fun _ filename w =>
    if sim_download w
    then (true, match filename with Some f => sim_add_file f w | None => w end)
    else (false, w)
|}.

(** A world with credentials, an empty remote store, a bridge whose every
    command succeeds, an oracle that answers [physics_json] and a metadata
    feed with a title and a category. *)
Definition sim0 : Sim := {|
  sim_api_key := Some ("sk-test" : str);
  sim_files := [];
  sim_root := [];
  sim_papers := [];
  sim_ls_returncode := 0;
  sim_mkdir_returncode := 0;
  sim_put_returncode := 0;
  sim_mv_returncode := 0;
  sim_content := Some [TextBlock physics_json];
  sim_feed := Some {| feed_entry := Some {|
    title_elem := Some (Some ("Attention Is All You Need" : str));
    primary_category := Some (Some ("cs.CL" : str)) |} |};
  sim_download := true
|}.

(** Runs in the simulated world, from an empty trace. *)
Definition sim_init (w : Sim) : @state sim_externals := @Build_state sim_externals w [].

Definition sim_run {A : Type} (m : @M sim_externals A) (w : Sim)
  : outcome A * @state sim_externals :=
  m (sim_init w).

Definition sim_set_put_returncode (rc : Z) (w : Sim) : Sim :=
  {| sim_api_key := sim_api_key w;
     sim_files := sim_files w;
     sim_root := sim_root w;
     sim_papers := sim_papers w;
     sim_ls_returncode := sim_ls_returncode w;
     sim_mkdir_returncode := sim_mkdir_returncode w;
     sim_put_returncode := rc;
     sim_mv_returncode := sim_mv_returncode w;
     sim_content := sim_content w;
     sim_feed := sim_feed w;
     sim_download := sim_download w |}.

Definition sim_set_api_key (key : option str) (w : Sim) : Sim :=
  {| sim_api_key := key;
     sim_files := sim_files w;
     sim_root := sim_root w;
     sim_papers := sim_papers w;
     sim_ls_returncode := sim_ls_returncode w;
     sim_mkdir_returncode := sim_mkdir_returncode w;
     sim_put_returncode := sim_put_returncode w;
     sim_mv_returncode := sim_mv_returncode w;
     sim_content := sim_content w;
     sim_feed := sim_feed w;
     sim_download := sim_download w |}.

Definition sim_set_content (content : option (list ContentBlock)) (w : Sim) : Sim :=
  {| sim_api_key := sim_api_key w;
     sim_files := sim_files w;
     sim_root := sim_root w;
     sim_papers := sim_papers w;
     sim_ls_returncode := sim_ls_returncode w;
     sim_mkdir_returncode := sim_mkdir_returncode w;
     sim_put_returncode := sim_put_returncode w;
     sim_mv_returncode := sim_mv_returncode w;
     sim_content := content;
     sim_feed := sim_feed w;
     sim_download := sim_download w |}.

Definition sim_set_feed (feed : option Feed) (w : Sim) : Sim :=
  {| sim_api_key := sim_api_key w;
     sim_files := sim_files w;
     sim_root := sim_root w;
     sim_papers := sim_papers w;
     sim_ls_returncode := sim_ls_returncode w;
     sim_mkdir_returncode := sim_mkdir_returncode w;
     sim_put_returncode := sim_put_returncode w;
     sim_mv_returncode := sim_mv_returncode w;
     sim_content := sim_content w;
     sim_feed := feed;
     sim_download := sim_download w |}.

(** A local file without an extension. *)
Definition sim_notes : Sim := sim_add_file "notes" sim0.

(** A local file, and a bridge whose put fails. *)
Definition sim_put_fails : Sim :=
  sim_set_put_returncode 1 (sim_add_file "paper.pdf" sim0).

(** A local file, and an oracle whose call raises. *)
Definition sim_oracle_down : Sim :=
  sim_set_content None (sim_add_file "/home/u/survey.v2.pdf" sim0).

(** A local file, and an oracle whose message starts with a block that is
    not text. *)
Definition sim_other_block : Sim :=
  sim_set_content (Some [OtherBlock]) (sim_add_file "paper.pdf" sim0).

(** A local file, and no credentials. *)
Definition sim_no_key : Sim :=
  sim_set_api_key None (sim_add_file "paper.pdf" sim0).

(** A metadata feed that cannot be fetched, and a local file whose name is
    the identifier. *)
Definition sim_no_metadata : Sim :=
  sim_set_feed None (sim_add_file "2301.12345" sim0).

(** A metadata entry with a title and no primary category. *)
Definition sim_no_category : Sim :=
  sim_set_feed
    (Some {| feed_entry := Some {|
       title_elem := Some (Some ("Attention Is All You Need" : str));
       primary_category := None |} |})
    sim0.


(** A remote store where [/papers/Physics] is there already. *)
Definition sim_physics : Sim := sim_mkdir "/papers/Physics" (sim_mkdir "/papers" sim0).

(* ================================================================= *)
(** ** The vocabulary of the further properties *)

(** *** The identifier resolver *)

(** A run of decimal digits. *)
Definition digits (s : str) : Prop := Forall (fun c => isdigit c = true) s.

(** The shape of an identifier: four digits, a dot, four or five digits,
    and maybe a version, [v] and at least one digit. *)
Definition is_arxiv_id (g : str) : Prop :=
  exists year_month number version,
    g = year_month ++ "." ++ number ++ version
    /\ digits year_month /\ List.length year_month = 4
    /\ digits number /\ (List.length number = 4 \/ List.length number = 5)
    /\ (version = []
        \/ exists ds, version = "v"%char :: ds /\ ds <> [] /\ digits ds).

(** The least that makes a text hold an identifier: four digits, a dot and
    four digits somewhere in it. *)
Definition holds_id_core (s : str) : Prop :=
  exists pre year_month number post,
    s = pre ++ year_month ++ "." ++ number ++ post
    /\ digits year_month /\ List.length year_month = 4
    /\ digits number /\ List.length number = 4.

(** [g] occurs in [s]. *)
Definition occurs_in (g s : str) : Prop := exists pre post, s = pre ++ g ++ post.

(** The forms of input that the docstring of [parse_id] names, as what
    comes before the identifier, in lower case: nothing, [arxiv:], and the
    addresses of an abstract or of a document, with or without the scheme
    and with or without [www.]. *)
Definition accepted_prefixes : list str :=
  [ [] : str; "arxiv:" : str;
    "arxiv.org/abs/" : str; "arxiv.org/pdf/" : str;
    "www.arxiv.org/abs/" : str; "www.arxiv.org/pdf/" : str;
    "http://arxiv.org/abs/" : str; "http://arxiv.org/pdf/" : str;
    "http://www.arxiv.org/abs/" : str; "http://www.arxiv.org/pdf/" : str;
    "https://arxiv.org/abs/" : str; "https://arxiv.org/pdf/" : str;
    "https://www.arxiv.org/abs/" : str; "https://www.arxiv.org/pdf/" : str ].

(** A matcher [m] gives only results that [R] relates to the text. *)
Definition yields (A : Type) (R : str -> A -> Prop) (m : str -> option A) : Prop :=
  forall s a, m s = Some a -> R s a.

(** What a pattern matches somewhere in a text is an identifier of the
    text. *)
Definition finds_id (s g : str) : Prop := is_arxiv_id g /\ occurs_in g s.

(** What is left of a text after a prefix was matched. *)
Definition is_suffix (s s' : str) : Prop := exists q, s = q ++ s'.

(** The characters of an identifier. *)
Definition id_char (c : ascii) : Prop := isdigit c = true \/ c = "."%char \/ c = "v"%char.

Section MetadataVocabulary.
Context {E : Externals}.

(** The title that [get_metadata] makes of the text of the title element:
    stripped, and its whitespace runs made single spaces. *)
Definition normalize_title (text : str) : str :=
  let title := str_strip text in
  if truthy title then str_join " " (str_split title) else title.

(** The category that [get_metadata] makes of the entry: the part of the
    term before the first dot, looked up in [category_map], or with its
    hyphens taken out. *)
Definition entry_category (entry : Entry) : option str :=
  match primary_category entry with
  | Some term =>
      let category := hd [] (split_on "." [] (value term)) in
      match dict_get category category_map with
      | Some name => Some name
      | None => Some (str_replace "-" "" category)
      end
  | None => None
  end.

(** The entry that the metadata query gives, when it gives one. *)
Definition queried_entry (document_id : str) (w : World) : option Entry :=
  match ext_arxiv_query (api_url document_id) w with
  | Some root => feed_entry root
  | None => None
  end.

End MetadataVocabulary.

(** A metadata entry whose title runs over two lines, with a subject of
    high-energy theory. *)
Definition sim_two_line_title : Sim :=
  sim_set_feed
    (Some {| feed_entry := Some {|
       title_elem := Some (Some ("  Attention Is" ++ newline ++ "   All You  Need " : str));
       primary_category := Some (Some ("hep-th" : str)) |} |})
    sim0.

(** A metadata entry with a subject that the table does not know. *)
Definition sim_unknown_subject : Sim :=
  sim_set_feed
    (Some {| feed_entry := Some {|
       title_elem := Some (Some ("Untitled" : str));
       primary_category := Some (Some ("x-ray.optics-new" : str)) |} |})
    sim0.

(** A download that fails. *)
Definition sim_download_fails : Sim :=
  {| sim_api_key := sim_api_key sim0;
     sim_files := sim_files sim0;
     sim_root := sim_root sim0;
     sim_papers := sim_papers sim0;
     sim_ls_returncode := sim_ls_returncode sim0;
     sim_mkdir_returncode := sim_mkdir_returncode sim0;
     sim_put_returncode := sim_put_returncode sim0;
     sim_mv_returncode := sim_mv_returncode sim0;
     sim_content := sim_content sim0;
     sim_feed := sim_feed sim0;
     sim_download := false |}.

(** *** The filename normalizer and the title shortener *)

(** A character that a file name keeps and that is not a space. *)
Definition safe_char (c : ascii) : Prop :=
  isalnum c = true \/ c = "-"%char \/ c = "_"%char.

(** A word of a file name: not empty, of letters, digits, hyphens and
    underscores. *)
Definition safe_word (w : str) : Prop := w <> [] /\ Forall safe_char w.

(** A title that is already clean: safe words with single spaces between
    them. *)
Definition clean_title (title : str) : Prop :=
  exists ws, title = str_join " " ws /\ Forall safe_word ws.

(** A cleaned word that the first loop of the shortener keeps. *)
Definition is_key_word (clean_word : str) : bool :=
  negb (str_mem (str_lower clean_word) stop_words) && truthy clean_word.

(** The key words of a title, in their order: the cleaned tokens that are
    not empty and are no stop words. *)
Definition key_words_of (title : str) : list str :=
  filter is_key_word (map clean (str_split title)).

(** *** The pipeline *)

(** A bridge call that was started and did what it was asked: a listing
    may return any status, every other command returned status 0. *)
Definition completed_call (e : event) : Prop :=
  match e with
  | Subprocess argv (Some result) =>
      nth_error argv 1 = Some ("ls" : str) \/ returncode result = 0%Z
  | Subprocess _ None => False
  | _ => True
  end.


(** The document of an identifier, downloaded already. *)
Definition sim_downloaded : Sim := sim_add_file "/tmp/arxiv_2301.12345v2.pdf" sim0.

(* ================================================================= *)
(** ** Python strings: lemmas *)

Arguments isspace : simpl never.
Arguments isalnum : simpl never.
Arguments filename_char : simpl never.
Arguments word_char : simpl never.

Lemma str_eqb_spec (a b : str) : str_eqb a b = true <-> a = b.
Proof.
  revert b; induction a as [|x a IH]; intros [|y b]; simpl; try (split; congruence).
  rewrite andb_true_iff, Ascii.eqb_eq, IH. split.
  - intros [-> ->]; reflexivity.
  - intros H; inversion H; auto.
Qed.

Lemma str_eqb_refl (a : str) : str_eqb a a = true.
Proof. apply str_eqb_spec; reflexivity. Qed.

Lemma str_mem_In (x : str) (l : list str) : str_mem x l = true <-> In x l.
Proof.
  unfold str_mem. rewrite existsb_exists. split.
  - intros [y [Hy Heq]]. apply str_eqb_spec in Heq. subst; assumption.
  - intros H. exists x. split; [assumption | apply str_eqb_refl].
Qed.

Lemma alnum_not_space (c : ascii) : isalnum c = true -> isspace c = false.
Proof.
  destruct c as [[] [] [] [] [] [] [] []]; vm_compute; congruence.
Qed.

Lemma no_space_rev (w : str) : no_space w -> no_space (rev w).
Proof. unfold no_space. apply Forall_rev. Qed.

Lemma split_ws_word (w cur s : str) :
  no_space w -> split_ws cur (w ++ s) = split_ws (rev w ++ cur) s.
Proof.
  revert cur. induction w as [|c w IH]; intros cur Hw; simpl.
  - reflexivity.
  - inversion Hw as [|? ? Hc Hw']; subst. rewrite Hc, IH by assumption.
    rewrite <- app_assoc. reflexivity.
Qed.

Lemma split_ws_end (w : str) : is_word w -> split_ws [] w = [w].
Proof.
  intros [Hne Hw]. rewrite <- (app_nil_r w) at 1.
  rewrite split_ws_word by assumption. rewrite app_nil_r. simpl.
  destruct (rev w) eqn:Hr.
  - apply (f_equal (@rev ascii)) in Hr. rewrite rev_involutive in Hr. contradiction.
  - rewrite <- Hr, rev_involutive. reflexivity.
Qed.

Lemma split_ws_sep (w s : str) :
  is_word w -> split_ws [] (w ++ " "%char :: s) = w :: split_ws [] s.
Proof.
  intros [Hne Hw]. rewrite split_ws_word by assumption. rewrite app_nil_r. simpl.
  destruct (rev w) eqn:Hr.
  - apply (f_equal (@rev ascii)) in Hr. rewrite rev_involutive in Hr. contradiction.
  - rewrite <- Hr, rev_involutive. reflexivity.
Qed.

(** Splitting what was joined with single spaces gives the words back. *)
Lemma split_join (ws : list str) :
  Forall is_word ws -> str_split (str_join " " ws) = ws.
Proof.
  unfold str_split. induction ws as [|w ws IH]; intros H.
  - reflexivity.
  - inversion H as [|? ? Hw Hws]; subst. destruct ws as [|w' ws].
    + simpl. apply split_ws_end; assumption.
    + change (str_join " " (w :: w' :: ws))
        with (w ++ " "%char :: str_join " " (w' :: ws)).
      rewrite split_ws_sep by assumption. rewrite IH by assumption. reflexivity.
Qed.

Lemma split_ws_words (s cur : str) :
  no_space cur -> Forall is_word (split_ws cur s).
Proof.
  revert cur. induction s as [|c s IH]; intros cur Hcur; simpl.
  - destruct cur as [|x cur]; constructor; [|constructor].
    split.
    + intros Hr. apply (f_equal (@List.length ascii)) in Hr.
      rewrite length_rev in Hr. discriminate Hr.
    + apply no_space_rev; assumption.
  - destruct (isspace c) eqn:Hc.
    + destruct cur as [|x cur].
      * apply IH. constructor.
      * constructor; [|apply IH; constructor].
        split.
        -- intros Hr. apply (f_equal (@List.length ascii)) in Hr.
           rewrite length_rev in Hr. discriminate Hr.
        -- apply no_space_rev; assumption.
    + apply IH. constructor; assumption.
Qed.

Lemma split_words (s : str) : Forall is_word (str_split s).
Proof. apply split_ws_words. constructor. Qed.

Lemma split_ws_chars (P : ascii -> Prop) (s cur : str) :
  Forall P cur -> Forall P s -> Forall (Forall P) (split_ws cur s).
Proof.
  revert cur. induction s as [|c s IH]; intros cur Hcur Hs; simpl.
  - destruct cur; constructor; [apply Forall_rev; assumption | constructor].
  - inversion Hs as [|? ? Hc Hs']; subst.
    destruct (isspace c).
    + destruct cur.
      * apply IH; [constructor | assumption].
      * constructor; [apply Forall_rev; assumption | apply IH; [constructor | assumption]].
    + apply IH; [constructor; assumption | assumption].
Qed.

Lemma split_chars (P : ascii -> Prop) (s : str) :
  Forall P s -> Forall (Forall P) (str_split s).
Proof. apply split_ws_chars. constructor. Qed.

Lemma lstrip_chars (P : ascii -> Prop) (s : str) : Forall P s -> Forall P (lstrip s).
Proof.
  induction s as [|c s IH]; intros H; simpl; [constructor|].
  inversion H; subst. destruct (isspace c); auto.
Qed.

Lemma strip_chars (P : ascii -> Prop) (s : str) : Forall P s -> Forall P (str_strip s).
Proof.
  intros H. unfold str_strip, rstrip.
  apply Forall_rev, lstrip_chars, Forall_rev, lstrip_chars, H.
Qed.

Lemma join_chars (P : ascii -> Prop) (ws : list str) :
  P " "%char -> Forall (Forall P) ws -> Forall P (str_join " " ws).
Proof.
  intros Hsp. induction ws as [|w ws IH]; intros H.
  - constructor.
  - inversion H as [|? ? Hw Hws]; subst. destruct ws as [|w' ws].
    + exact Hw.
    + change (str_join " " (w :: w' :: ws))
        with (w ++ " "%char :: str_join " " (w' :: ws)).
      apply Forall_app. split; [assumption|]. constructor; [assumption | auto].
Qed.

Lemma filter_all (A : Type) (f : A -> bool) (l : list A) :
  Forall (fun x => f x = true) l -> filter f l = l.
Proof.
  induction 1 as [|x l Hx Hl IH]; simpl; [reflexivity|]. rewrite Hx, IH. reflexivity.
Qed.

Lemma lstrip_word (w s : str) : is_word w -> lstrip (w ++ s) = w ++ s.
Proof.
  intros [Hne Hw]. destruct w as [|c w]; [contradiction|].
  inversion Hw as [|? ? Hc ?]; subst. simpl. rewrite Hc. reflexivity.
Qed.

(** A join of words is empty or ends with a word. *)
Lemma join_ends_with_word (ws : list str) :
  Forall is_word ws -> ws <> [] ->
  exists a w, is_word w /\ str_join " " ws = a ++ w.
Proof.
  induction ws as [|w ws IH]; intros H Hne; [contradiction|].
  inversion H as [|? ? Hw Hws]; subst. destruct ws as [|w' ws].
  - exists [], w. split; [assumption | reflexivity].
  - destruct (IH Hws) as [a [w0 [Hw0 Heq]]]; [discriminate|].
    exists (w ++ " "%char :: a), w0. split; [assumption|].
    change (str_join " " (w :: w' :: ws))
      with (w ++ " "%char :: str_join " " (w' :: ws)).
    rewrite Heq, <- app_assoc. reflexivity.
Qed.

Lemma strip_join (ws : list str) :
  Forall is_word ws -> str_strip (str_join " " ws) = str_join " " ws.
Proof.
  intros H. destruct ws as [|w ws]; [reflexivity|].
  assert (Hl : lstrip (str_join " " (w :: ws)) = str_join " " (w :: ws)).
  { inversion H as [|? ? Hw Hws]; subst. destruct ws as [|w' ws].
    - simpl. rewrite <- (app_nil_r w). apply lstrip_word; assumption.
    - change (str_join " " (w :: w' :: ws))
        with (w ++ " "%char :: str_join " " (w' :: ws)).
      apply lstrip_word; assumption. }
  unfold str_strip, rstrip. rewrite Hl.
  destruct (join_ends_with_word H) as [a [w0 [[Hne Hw0] Heq]]]; [discriminate|].
  rewrite Heq, rev_app_distr, lstrip_word, <- rev_app_distr, rev_involutive.
  - reflexivity.
  - split.
    + intros Hr. apply (f_equal (@rev ascii)) in Hr. rewrite rev_involutive in Hr.
      contradiction.
    + apply no_space_rev; assumption.
Qed.

(* ================================================================= *)
(** ** The filename normalizer *)

Lemma generate_formatted_filename_eq (title : str) :
  generate_formatted_filename title = safe_title_of title ++ ".pdf".
Proof. reflexivity. Qed.

Lemma safe_title_words (title : str) :
  let ws := str_split (str_strip (filter filename_char title)) in
  Forall is_word ws /\ Forall (Forall (fun c => filename_char c = true)) ws.
Proof.
  split; [apply split_words|].
  apply split_chars, strip_chars. apply Forall_forall. intros c Hc.
  apply filter_In in Hc. tauto.
Qed.

(** Normalizing a normalized title changes nothing. *)
Lemma safe_title_fixpoint (title : str) :
  safe_title_of (safe_title_of title) = safe_title_of title.
Proof.
  destruct (safe_title_words title) as [Hw Hc].
  unfold safe_title_of at 1. fold (safe_title_of title).
  assert (Hf : filter filename_char (safe_title_of title) = safe_title_of title).
  { apply filter_all. unfold safe_title_of.
    apply (@join_chars (fun c => filename_char c = true)); [reflexivity | assumption]. }
  rewrite Hf. unfold safe_title_of at 1.
  rewrite strip_join by assumption. rewrite split_join by assumption. reflexivity.
Qed.

Lemma startswith_app (p s : str) : startswith p (p ++ s) = true.
Proof.
  induction p as [|c p IH]; simpl; [reflexivity|].
  rewrite Ascii.eqb_refl, IH. reflexivity.
Qed.

Lemma removesuffix_app (suffix s : str) : removesuffix suffix (s ++ suffix) = s.
Proof.
  unfold removesuffix. rewrite rev_app_distr, startswith_app, length_app.
  replace (List.length s + List.length suffix - List.length suffix)
    with (List.length s + 0) by lia.
  rewrite firstn_app_2. simpl. apply app_nil_r.
Qed.

Lemma filename_char_not_dot (c : ascii) : filename_char c = true -> c <> "."%char.
Proof. intros H ->. discriminate H. Qed.

(** The bridge's own way of taking the extension off, [replace(".pdf", "")],
    agrees on a formatted filename: its only dot is the extension's. *)
Lemma replace_pdf_suffix (s : str) :
  Forall (fun c => c <> "."%char) s ->
  str_replace ".pdf" "" (s ++ ".pdf") = s.
Proof.
  unfold str_replace. simpl list_ascii_of_string.
  induction 1 as [|c s Hc Hs IH].
  - reflexivity.
  - cbn [app replace_from startswith].
    destruct (Ascii.eqb "." c) eqn:Heq.
    + apply Ascii.eqb_eq in Heq. congruence.
    + cbn [andb]. f_equal. exact IH.
Qed.

Lemma safe_title_no_dot (title : str) :
  Forall (fun c => c <> "."%char) (safe_title_of title).
Proof.
  destruct (safe_title_words title) as [_ Hc].
  apply (@join_chars (fun c => c <> "."%char)); [discriminate|].
  eapply Forall_impl; [|exact Hc]. intros w Hw.
  eapply Forall_impl; [|exact Hw]. apply filename_char_not_dot.
Qed.

(** C8. [generate_formatted_filename] returns a name for every string: the
    empty string, and any string none of whose characters is kept, give the
    bare extension.  Applied to its own result with the extension taken off,
    it returns that result again; this holds whether the extension is taken
    off as a suffix or the way [upload_paper] does it, with
    [replace(".pdf", "")]. *)
Theorem generate_formatted_filename_total_idempotent (s : str) :
  (exists name, generate_formatted_filename s = name ++ ".pdf")
  /\ generate_formatted_filename [] = ".pdf"
  /\ generate_formatted_filename (filter (fun c => negb (filename_char c)) s) = ".pdf"
  /\ generate_formatted_filename (strip_extension (generate_formatted_filename s))
     = generate_formatted_filename s
  /\ generate_formatted_filename (str_replace ".pdf" "" (generate_formatted_filename s))
     = generate_formatted_filename s.
Proof.
  split; [exists (safe_title_of s); reflexivity|].
  split; [reflexivity|].
  split.
  { unfold generate_formatted_filename.
    replace (filter filename_char (filter (fun c => negb (filename_char c)) s))
      with (@nil ascii); [reflexivity|].
    induction s as [|c s IH]; simpl; [reflexivity|].
    destruct (filename_char c) eqn:Hc; simpl; [assumption|].
    rewrite Hc. assumption. }
  rewrite !generate_formatted_filename_eq.
  unfold strip_extension. rewrite removesuffix_app.
  rewrite (replace_pdf_suffix (safe_title_no_dot s)).
  rewrite safe_title_fixpoint. split; reflexivity.
Qed.

(** The claim needs its extension taken off: applied twice as it is, the
    function keeps the letters of the first extension. *)
Example generate_formatted_filename_twice :
  generate_formatted_filename (generate_formatted_filename "Dark Matter")
  = "Dark Matterpdf.pdf".
Proof. reflexivity. Qed.

(* ================================================================= *)
(** ** The title shortener *)

Lemma len_snoc (l : list str) (x : str) : (len (l ++ [x]) = len l + 1)%Z.
Proof. unfold len. rewrite length_app. simpl. lia. Qed.

Lemma clean_no_space (w : str) : no_space w -> no_space (clean w).
Proof.
  unfold no_space, clean. intros H. apply Forall_forall. intros c Hc.
  apply filter_In in Hc. rewrite Forall_forall in H. apply H. tauto.
Qed.

Lemma truthy_nonempty (w : str) : truthy w = true -> w <> [].
Proof. destruct w; [discriminate | discriminate]. Qed.

Lemma clean_word_is_word (w : str) :
  no_space w -> truthy (clean w) = true -> is_word (clean w).
Proof. intros Hw Ht. split; [apply truthy_nonempty, Ht | apply clean_no_space, Hw]. Qed.

Lemma snoc_words (l : list str) (w : str) :
  Forall is_word l -> is_word w -> Forall is_word (l ++ [w]).
Proof. intros Hl Hw. apply Forall_app. split; [assumption | constructor; [assumption | constructor]]. Qed.

Section Loops.
Variable max_words : Z.

Lemma keep_key_words_words (words key_words : list str) :
  Forall no_space words -> Forall is_word key_words ->
  Forall is_word (keep_key_words max_words words key_words).
Proof.
  revert key_words. induction words as [|word rest IH]; intros kw Hws Hkw; cbn [keep_key_words add_words_back].
  - assumption.
  - inversion Hws as [|? ? Hw Hrest]; subst.
    destruct (negb (str_mem (str_lower (clean word)) stop_words)); cbn [andb];
      [|apply IH; assumption].
    destruct (truthy (clean word)) eqn:Ht; [|apply IH; assumption].
    assert (Hkw' : Forall is_word (kw ++ [clean word]))
      by (apply snoc_words; [assumption | apply clean_word_is_word; assumption]).
    destruct (len (kw ++ [clean word]) >=? max_words)%Z; [assumption | apply IH; assumption].
Qed.

(** The first loop stops at [max_words], but not before it has kept a
    word. *)
Lemma keep_key_words_len (words key_words : list str) :
  (len (keep_key_words max_words words key_words)
   <= Z.max (len key_words + 1) max_words)%Z.
Proof.
  revert key_words. induction words as [|word rest IH]; intros kw; cbn [keep_key_words add_words_back].
  - lia.
  - destruct (negb (str_mem (str_lower (clean word)) stop_words) && truthy (clean word));
      [|apply IH].
    rewrite Z.geb_leb.
    destruct (Z.leb_spec max_words (len (kw ++ [clean word]))) as [Hle | Hlt].
    + rewrite len_snoc. lia.
    + specialize (IH (kw ++ [clean word])). rewrite len_snoc in *. lia.
Qed.

Lemma keep_key_words_short (words key_words : list str) :
  (len (keep_key_words max_words words key_words) <= len key_words + len words)%Z.
Proof.
  revert key_words. induction words as [|word rest IH]; intros kw; cbn [keep_key_words add_words_back].
  - unfold len; simpl; lia.
  - assert (Hcons : (len (word :: rest) = len rest + 1)%Z) by (unfold len; simpl; lia).
    destruct (negb (str_mem (str_lower (clean word)) stop_words) && truthy (clean word)).
    + destruct (len (kw ++ [clean word]) >=? max_words)%Z.
      * rewrite len_snoc, Hcons. unfold len; lia.
      * specialize (IH (kw ++ [clean word])). rewrite len_snoc in IH. lia.
    + specialize (IH kw). lia.
Qed.

End Loops.

Lemma add_words_back_words (words key_words : list str) :
  Forall no_space words -> Forall is_word key_words ->
  Forall is_word (add_words_back words key_words).
Proof.
  revert key_words. induction words as [|word rest IH]; intros kw Hws Hkw; cbn [keep_key_words add_words_back].
  - assumption.
  - inversion Hws as [|? ? Hw Hrest]; subst.
    destruct (truthy (clean word)) eqn:Ht; cbn [andb]; [|apply IH; assumption].
    destruct (negb (str_mem (clean word) kw)); [|apply IH; assumption].
    assert (Hkw' : Forall is_word (kw ++ [clean word]))
      by (apply snoc_words; [assumption | apply clean_word_is_word; assumption]).
    destruct (len (kw ++ [clean word]) >=? 4)%Z; [assumption | apply IH; assumption].
Qed.

Lemma add_words_back_len (words key_words : list str) :
  (len (add_words_back words key_words) <= Z.max (len key_words + 1) 4)%Z.
Proof.
  revert key_words. induction words as [|word rest IH]; intros kw; cbn [keep_key_words add_words_back].
  - lia.
  - destruct (truthy (clean word) && negb (str_mem (clean word) kw)); [|apply IH].
    rewrite Z.geb_leb.
    destruct (Z.leb_spec 4 (len (kw ++ [clean word]))) as [Hle | Hlt].
    + rewrite len_snoc. lia.
    + specialize (IH (kw ++ [clean word])). rewrite len_snoc in *. lia.
Qed.

(** The second loop ends with four words kept, or with every non-empty
    cleaned word among the kept ones. *)
Lemma add_words_back_covers (words key_words : list str) :
  let r := add_words_back words key_words in
  incl key_words r
  /\ ((4 <= len r)%Z
      \/ forall w, In w words -> truthy (clean w) = true -> In (clean w) r).
Proof.
  revert key_words. induction words as [|word rest IH]; intros kw; cbn [keep_key_words add_words_back].
  - split; [apply incl_refl | right; intros w []].
  - destruct (truthy (clean word)) eqn:Ht; cbn [andb negb].
    + destruct (str_mem (clean word) kw) eqn:Hmem; cbn [andb negb].
      * destruct (IH kw) as [Hincl Hcov]. split; [assumption|].
        destruct Hcov as [H4 | Hall]; [left; assumption | right].
        intros w [<- | Hin] Hw; [|auto].
        apply Hincl, str_mem_In, Hmem.
      * rewrite Z.geb_leb.
        destruct (Z.leb_spec 4 (len (kw ++ [clean word]))) as [Hle | Hlt].
        -- split; [apply incl_appl, incl_refl | left; assumption].
        -- destruct (IH (kw ++ [clean word])) as [Hincl Hcov]. split.
           ++ intros x Hx. apply Hincl, in_or_app. left; assumption.
           ++ destruct Hcov as [H4 | Hall]; [left; assumption | right].
              intros w [<- | Hin] Hw; [|auto].
              apply Hincl, in_or_app. right; left; reflexivity.
    + destruct (IH kw) as [Hincl Hcov]. split; [assumption|].
      destruct Hcov as [H4 | Hall]; [left; assumption | right].
      intros w [<- | Hin] Hw; [congruence | auto].
Qed.

Lemma distinct_clean_words_short (title : str) :
  List.length (distinct_clean_words title) <= List.length (str_split title).
Proof.
  unfold distinct_clean_words.
  etransitivity; [apply NoDup_incl_length; [apply NoDup_nodup|]|].
  - intros x Hx. apply nodup_In in Hx. exact Hx.
  - etransitivity; [apply filter_length_le|]. rewrite length_map. constructor.
Qed.

Lemma shorten_key_words_words (title : str) (max_words : Z) :
  Forall is_word (shorten_key_words title max_words).
Proof.
  assert (Hws : Forall no_space (str_split title)).
  { eapply Forall_impl; [|apply split_words]. intros w [_ Hw]; exact Hw. }
  assert (Hk : Forall is_word (keep_key_words max_words (str_split title) []))
    by (apply keep_key_words_words; [assumption | constructor]).
  unfold shorten_key_words.
  destruct (_ && _); [apply add_words_back_words; assumption | assumption].
Qed.

(** The tokens of the result are the key words. *)
Lemma shorten_tokens (title : str) (max_words : Z) :
  str_split (shorten_title_for_filename title max_words)
  = shorten_key_words title max_words.
Proof. apply split_join, shorten_key_words_words. Qed.

(** C7, as the code has it.  The result has at most [max(max_words, 4)]
    tokens, so at most [max_words] of them when [max_words] is four or
    more; and it has at least three tokens, or as many as the raw tokens
    leave distinct non-empty words once their punctuation is removed. *)
Theorem shorten_title_token_bounds (title : str) (max_words : Z) :
  let out := shorten_title_for_filename title max_words in
  (Z.of_nat (tokens out) <= Z.max max_words 4)%Z
  /\ Nat.min 3 (List.length (distinct_clean_words title)) <= tokens out.
Proof.
  cbv zeta. unfold tokens. rewrite shorten_tokens. unfold shorten_key_words.
  pose proof (keep_key_words_len max_words (str_split title) []) as Hkeep.
  pose proof (keep_key_words_short max_words (str_split title) []) as Hshort.
  pose proof (distinct_clean_words_short title) as Hd.
  pose proof (add_words_back_len (str_split title)
                (keep_key_words max_words (str_split title) [])) as Hlen.
  destruct (add_words_back_covers (str_split title)
              (keep_key_words max_words (str_split title) [])) as [_ Hcov].
  assert (Hall : (forall w, In w (str_split title) -> truthy (clean w) = true ->
                  In (clean w) (add_words_back (str_split title)
                                  (keep_key_words max_words (str_split title) []))) ->
                 List.length (distinct_clean_words title)
                 <= List.length (add_words_back (str_split title)
                                   (keep_key_words max_words (str_split title) []))).
  { intros Hall. apply NoDup_incl_length; [apply NoDup_nodup|].
    intros x Hx. apply nodup_In, filter_In in Hx. destruct Hx as [Hx Ht].
    apply in_map_iff in Hx. destruct Hx as [w [<- Hw]]. apply Hall; assumption. }
  change (len []) with 0%Z in *.
  destruct (Z.ltb_spec (len (keep_key_words max_words (str_split title) [])) 3)
    as [Hlt | Hge];
    destruct (Z.gtb_spec (len (str_split title))
                (len (keep_key_words max_words (str_split title) [])))
      as [Hgt | Hle];
    cbn [andb]; unfold len in *.
  - split; [lia|]. destruct Hcov as [H4 | Hcov]; [lia|].
    specialize (Hall Hcov). lia.
  - split; lia.
  - split; lia.
  - split; lia.
Qed.

(** C7, as the specification words it, fails in both halves: with
    [max_words = 3] a title with two key words and three stop words gives
    four tokens; a title of two punctuation-only tokens gives none, and a
    title that repeats one stop word gives one. *)
Lemma shorten_title_bounds_counterexample :
  ~ at_most_max_words "the of deep learning for" 3
  /\ ~ at_least_three_or_all "!!! ???" 6
  /\ ~ at_least_three_or_all "the the the" 6.
Proof.
  split; [|split].
  - unfold at_most_max_words. vm_compute. intros H. apply H. reflexivity.
  - unfold at_least_three_or_all. vm_compute. intros H.
    assert (H0 : 2 <= 0) by (apply H; lia). lia.
  - unfold at_least_three_or_all. vm_compute. intros H.
    assert (H0 : 3 <= 1) by (apply H; lia). lia.
Qed.

(* ================================================================= *)
(** ** Running the effect monad: inversion principles *)

Section Running.
Context {E : Externals}.

Lemma extends_refl (s : state) : extends s s [].
Proof. unfold extends. rewrite app_nil_r. reflexivity. Qed.

Lemma extends_trans (s1 s2 s3 : state) (t1 t2 : list event) :
  extends s1 s2 t1 -> extends s2 s3 t2 -> extends s1 s3 (t1 ++ t2).
Proof. unfold extends. intros H1 H2. rewrite H2, H1, app_assoc. reflexivity. Qed.

Lemma ret_inv A (a : A) (s : state) r s' :
  ret a s = (r, s') -> r = Ret a /\ s' = s.
Proof. unfold ret. intros H; inversion H; auto. Qed.

Lemma raise_inv A (e : exn) (s : state) (r : outcome A) s' :
  raise e s = (r, s') -> r = Raise e /\ s' = s.
Proof. unfold raise. intros H; inversion H; auto. Qed.

Lemma bind_inv A B (m : M A) (k : A -> M B) (s : state) r s' :
  bind m k s = (r, s') ->
  (exists a s1, m s = (Ret a, s1) /\ k a s1 = (r, s'))
  \/ (exists e, m s = (Raise e, s') /\ r = Raise e).
Proof.
  unfold bind. destruct (m s) as [[a | e] s1]; intros H.
  - left. exists a, s1. auto.
  - right. exists e. inversion H; auto.
Qed.

Lemma try_except_inv A (body : M A) catches (handler : M A) (s : state) r s' :
  try_except body catches handler s = (r, s') ->
  (exists a, body s = (Ret a, s') /\ r = Ret a)
  \/ (exists e, body s = (Raise e, s') /\ catches e = false /\ r = Raise e)
  \/ (exists e s1, body s = (Raise e, s1) /\ catches e = true /\ handler s1 = (r, s')).
Proof.
  unfold try_except. destruct (body s) as [[a | e] s1]; intros H.
  - left. exists a. inversion H; auto.
  - destruct (catches e) eqn:Hc.
    + right; right. exists e, s1. auto.
    + right; left. exists e. inversion H; auto.
Qed.

Lemma emit_inv (e : event) (s : state) r s' :
  emit e s = (r, s') ->
  r = Ret tt /\ s' = {| world := world s; trace := trace s ++ [e] |}.
Proof. unfold emit. intros H; inversion H; auto. Qed.

Lemma read_inv A (f : World -> A) (s : state) r s' :
  read f s = (r, s') -> r = Ret (f (world s)) /\ s' = s.
Proof. unfold read. intros H; inversion H; auto. Qed.

Lemma act_inv A (f : World -> A * World) (s : state) r s' :
  act f s = (r, s') ->
  exists a w, f (world s) = (a, w) /\ r = Ret a
              /\ s' = {| world := w; trace := trace s |}.
Proof.
  unfold act. destruct (f (world s)) as [a w] eqn:Hf. intros H.
  exists a, w. inversion H; auto.
Qed.

Lemma subprocess_run_eq (argv : list str) (check : bool) (s : state) :
  subprocess_run argv check s =
  (completion argv check (fst (bridge argv (world s))),
   {| world := snd (bridge argv (world s));
      trace := trace s ++ [Subprocess argv (fst (bridge argv (world s)))] |}).
Proof.
  destruct s as [w0 tr].
  unfold subprocess_run, bridge, completion, start_error.
  destruct (has_nul argv).
  - reflexivity.
  - cbv [bind act emit ret raise world trace].
    destruct (ext_subprocess argv w0) as [[p|] w]; cbn [fst snd]; [|reflexivity].
    destruct (check && negb (returncode p =? 0)%Z); reflexivity.
Qed.

Lemma subprocess_run_inv (argv : list str) (check : bool) (s : state) r s' :
  subprocess_run argv check s = (r, s') ->
  exists result w,
    bridge argv (world s) = (result, w)
    /\ s' = {| world := w; trace := trace s ++ [Subprocess argv result] |}
    /\ r = completion argv check result.
Proof.
  rewrite subprocess_run_eq. intros H.
  exists (fst (bridge argv (world s))), (snd (bridge argv (world s))).
  inversion H; subst. split; [apply surjective_pairing | split; reflexivity].
Qed.

(** A call that started no process is no [CalledProcessError]. *)
Lemma start_error_not_called (argv : list str) :
  is_CalledProcessError (start_error argv) = false.
Proof. unfold start_error. destruct (has_nul argv); reflexivity. Qed.

(** A call whose arguments are given holds no NUL character. *)
Lemma start_error_can (argv : list str) :
  has_nul argv = false -> start_error argv = OSError.
Proof. unfold start_error. intros ->. reflexivity. Qed.

End Running.

(** One step back through a run: the hypothesis that a computation ended in
    a given result is replaced by what its parts did. *)
Ltac invert_step :=
  match goal with
  | H : ret _ _ = (_, _) |- _ =>
      apply ret_inv in H; destruct H as [? ?]
  | H : raise _ _ = (_, _) |- _ =>
      apply raise_inv in H; destruct H as [? ?]
  | H : emit _ _ = (_, _) |- _ =>
      apply emit_inv in H; destruct H as [? ?]
  | H : read _ _ = (_, _) |- _ =>
      apply read_inv in H; destruct H as [? ?]
  | H : act _ _ = (_, _) |- _ =>
      apply act_inv in H; destruct H as (? & ? & ? & ? & ?)
  | H : subprocess_run _ _ _ = (_, _) |- _ =>
      apply subprocess_run_inv in H; destruct H as (? & ? & ? & ? & ?)
  | H : bind _ _ _ = (_, _) |- _ =>
      apply bind_inv in H;
      destruct H as [(? & ? & ? & H) | (? & H & ?)]; cbv beta in H
  | H : try_except _ _ _ _ = (_, _) |- _ =>
      apply try_except_inv in H;
      destruct H as [(? & H & ?) | [(? & H & ? & ?) | (? & ? & H & ? & ?)]]
  | H : (if ?b then _ else _) _ = (_, _) |- _ =>
      destruct b eqn:?
  | H : Ret _ = Ret _ |- _ => inversion H; clear H
  | H : Raise _ = Raise _ |- _ => inversion H; clear H
  | H : Ret _ = Raise _ |- _ => discriminate H
  | H : Raise _ = Ret _ |- _ => discriminate H
  | H : is_CalledProcessError (start_error _) = true |- _ =>
      rewrite start_error_not_called in H; discriminate H
  | H : completion _ _ ?r = _ |- _ =>
      unfold completion in H; destruct r; cbn [andb] in H
  | H : _ = completion _ _ ?r |- _ =>
      unfold completion in H; destruct r; cbn [andb] in H
  | H : context [if negb (returncode ?p =? 0)%Z then _ else _] |- _ =>
      destruct (returncode p =? 0)%Z eqn:?; cbn [negb] in H
  end.

(** The calls whose arguments are all given can fail to start only for
    want of the bridge. *)
Ltac known_start_errors :=
  repeat match goal with
  | |- context [start_error ?a] => rewrite (@start_error_can a eq_refl)
  | H : context [start_error ?a] |- _ => rewrite (@start_error_can a eq_refl) in H
  end.

Ltac invert_run :=
  repeat (invert_step; subst; cbn [world trace] in * ); known_start_errors.

(* ================================================================= *)
(** ** The remote filing engine: [ensure_directory] *)

(** The events of a run that was inverted, read off the final trace. *)
Ltac trace_of_run :=
  eexists; split;
  [ unfold extends; cbn [trace]; rewrite <- ?app_assoc; cbn [app]; reflexivity | ].


Section Filing.
Context {E : Externals}.










(** What [upload_paper] needs of [ensure_directory]: it only lists and
    creates. *)
Lemma ensure_directory_summary (classification : str) (s : state) r s' :
  ensure_directory classification s = (r, s') ->
  exists t, extends s s' t
  /\ calls "put" t = [] /\ calls "mv" t = []
  /\ filter is_analyze t = [] /\ filter is_oracle t = []
  /\ (r = Ret true \/ r = Ret false \/ r = Raise OSError
      \/ r = Raise (ValueError "embedded null byte")).
Proof.
  intros H. unfold ensure_directory in H.
  invert_run; try discriminate; trace_of_run; repeat split; auto;
    unfold start_error; destruct (has_nul _); auto.
Qed.

End Filing.

(* ================================================================= *)
(** ** The classifier adapter: what it returns and when it raises *)

Section Classifier.
Context {E : Externals}.

(** The adapter in closed form: it raises for missing credentials and for a
    document that cannot be read, and otherwise asks the oracle once and
    returns. *)
Lemma analyze_paper_with_claude_eq (paper_path : str) (s : state) :
  analyze_paper_with_claude paper_path s =
  let s1 := {| world := world s; trace := trace s ++ [Analyze paper_path] |} in
  if negb (truthy_opt (ext_getenv "ANTHROPIC_API_KEY" (world s)))
  then (Raise (ValueError "Missing ANTHROPIC_API_KEY"), s1)
  else
    match payload_of paper_path (world s) with
    | None => (Raise OSError, s1)
    | Some payload =>
        (Ret (interpret paper_path (fst (ext_messages_create payload (world s)))),
         {| world := snd (ext_messages_create payload (world s));
            trace := (trace s ++ [Analyze paper_path]) ++ [Oracle payload] |})
    end.
Proof.
  unfold analyze_paper_with_claude, payload_of, interpret, fallback.
  destruct s as [w0 tr].
  cbv [bind try_except emit read act ret raise world trace].
  destruct (negb _); [reflexivity|].
  destruct (ext_extract_first_page paper_path w0) as [payload|];
    cbn [is_Exception].
  - destruct (ext_messages_create payload w0) as [[[|[text|] rest]|] w];
      cbn [fst snd is_Exception]; try reflexivity.
    destruct (ext_json_loads (str_strip text)) as [[members|]|];
      cbn [is_Exception]; try reflexivity.
    unfold getitem.
    destruct (dict_get _ members); cbv [ret raise]; cbn [is_Exception]; [|reflexivity].
    destruct (dict_get _ members); cbv [ret raise]; cbn [is_Exception]; reflexivity.
  - destruct (ext_read_file paper_path w0) as [payload|]; [|reflexivity].
    destruct (ext_messages_create payload w0) as [[[|[text|] rest]|] w];
      cbn [fst snd is_Exception]; try reflexivity.
    destruct (ext_json_loads (str_strip text)) as [[members|]|];
      cbn [is_Exception]; try reflexivity.
    unfold getitem.
    destruct (dict_get _ members); cbv [ret raise]; cbn [is_Exception]; [|reflexivity].
    destruct (dict_get _ members); cbv [ret raise]; cbn [is_Exception]; reflexivity.
Qed.

(** C2, as the code has it.  Without credentials the adapter raises
    [ValueError] to its caller.  With credentials and a document that can
    be read it returns and does not raise: the fallback when the oracle
    call raises, when the message has no block and when its first block is
    text that is not a JSON object with both members; two empty strings when
    the first block is not text; and what the oracle answered otherwise. *)
Theorem analyze_paper_with_claude_falls_back (paper_path : str) (s : state) :
  let r := fst (analyze_paper_with_claude paper_path s) in
  (truthy_opt (ext_getenv "ANTHROPIC_API_KEY" (world s)) = false ->
   r = Raise (ValueError "Missing ANTHROPIC_API_KEY"))
  /\ (truthy_opt (ext_getenv "ANTHROPIC_API_KEY" (world s)) = true ->
      forall payload, payload_of paper_path (world s) = Some payload ->
      let answer := fst (ext_messages_create payload (world s)) in
      (exists v, r = Ret v)
      /\ (unusable answer -> r = Ret (fallback paper_path))
      /\ (forall rest, answer = Some (OtherBlock :: rest) -> r = Ret ([], []))
      /\ (forall text rest members c t,
            answer = Some (TextBlock text :: rest) ->
            ext_json_loads (str_strip text) = Some (JObject members) ->
            dict_get "classification" members = Some c ->
            dict_get "title" members = Some t ->
            r = Ret (c, t))).
Proof.
  cbv zeta. rewrite analyze_paper_with_claude_eq. cbv zeta. split.
  - intros ->. reflexivity.
  - intros -> payload ->. cbn [negb fst].
    split; [eexists; reflexivity|].
    split; [|split].
    + intros [-> | [-> | (text & rest & -> & Hbad)]]; try reflexivity.
      unfold interpret.
      destruct Hbad as [-> | [-> | (members & -> & Hmiss)]]; try reflexivity.
      destruct Hmiss as [-> | ->]; [reflexivity|].
      destruct (dict_get "classification" members); reflexivity.
    + intros rest ->. reflexivity.
    + intros text rest members c t -> Hj Hc Ht. unfold interpret.
      rewrite Hj, Hc, Ht. reflexivity.
Qed.

End Classifier.

Lemma analyze_paper_with_claude_falls_back_witness :
  fst (@analyze_paper_with_claude sim_externals "/home/u/survey.v2.pdf"
         (sim_init sim_oracle_down))
  = Ret ("Uncategorized" : str, "survey.v2" : str).
Proof.
  apply (proj1 (proj2 (proj2 (@analyze_paper_with_claude_falls_back sim_externals
           "/home/u/survey.v2.pdf" (sim_init sim_oracle_down)) eq_refl [] eq_refl))).
  left. reflexivity.
Defined.

(** C2, as the specification words it, fails: without credentials the
    adapter raises to its caller, and so does [upload_paper]; and a message
    whose first block is not text gives two empty strings, not the
    fallback. *)
Lemma classifier_raises_without_credentials :
  fst (sim_run (analyze_paper_with_claude "paper.pdf") sim_no_key)
    = Raise (ValueError "Missing ANTHROPIC_API_KEY")
  /\ fst (sim_run (upload_paper (Some ("paper.pdf" : str)) None None None false)
            sim_no_key)
     = Raise (ValueError "Missing ANTHROPIC_API_KEY")
  /\ fst (sim_run (analyze_paper_with_claude "paper.pdf") sim_other_block)
     = Ret ([], [])
  /\ fallback "paper.pdf" = ("Uncategorized" : str, "paper" : str).
Proof. repeat split; vm_compute; reflexivity. Qed.

(* ================================================================= *)
(** ** The remote filing engine: [upload_paper] *)

Section Upload.
Context {E : Externals}.

(** A dry run of the [try] statement calls nothing and returns [True]. *)
Lemma upload_transfer_dry (paper_path classification output_file_name : str) (s : state) :
  upload_transfer paper_path classification output_file_name true s = (Ret true, s).
Proof.
  unfold upload_transfer. cbv [bind try_except ret raise negb].
  destruct (str_eqb _ _); reflexivity.
Qed.

(** A live run in closed form. *)
Lemma upload_transfer_live (paper_path classification output_file_name : str) (s : state) :
  upload_transfer paper_path classification output_file_name false s =
  let put_call := put_argv paper_path classification in
  let mv_call := mv_argv classification (path_name paper_path) output_file_name in
  let put := bridge put_call (world s) in
  let mv := bridge mv_call (snd put) in
  let t1 := trace s ++ [Subprocess put_call (fst put)] in
  let t2 := t1 ++ [Subprocess mv_call (fst mv)] in
  match fst put with
  | None => (Raise (start_error put_call), {| world := snd put; trace := t1 |})
  | Some result =>
      if negb (returncode result =? 0)%Z
      then (Ret false, {| world := snd put; trace := t1 |})
      else if str_eqb (path_name paper_path) output_file_name
      then (Ret true, {| world := snd put; trace := t1 |})
      else
        match fst mv with
        | None => (Raise (start_error mv_call), {| world := snd mv; trace := t2 |})
        | Some moved =>
            (Ret (returncode moved =? 0)%Z, {| world := snd mv; trace := t2 |})
        end
  end.
Proof.
  destruct s as [w tr].
  unfold upload_transfer.
  cbv [bind try_except ret raise negb]. cbv zeta.
  rewrite subprocess_run_eq. cbn [world trace]. unfold completion at 1.
  destruct (bridge (put_argv paper_path classification) w) as [[result|] w1];
    cbn [fst snd andb].
  2:{ rewrite start_error_not_called. reflexivity. }
  destruct (returncode result =? 0)%Z; [|reflexivity].
  destruct (str_eqb (path_name paper_path) output_file_name); [reflexivity|].
  rewrite subprocess_run_eq. cbn [world trace]. unfold completion.
  destruct (bridge _ w1) as [[moved|] w2]; cbn [fst snd andb].
  2:{ rewrite start_error_not_called. reflexivity. }
  destruct (returncode moved =? 0)%Z; reflexivity.
Qed.

(** [upload_paper] is its two halves, one after the other. *)
Lemma upload_paper_eq (paper_path : str) (title classification output_file_name : option str)
    (dry_run : bool) (s : state) :
  upload_paper (Some paper_path) title classification output_file_name dry_run s =
  match upload_prepare paper_path title classification output_file_name s with
  | (Ret (Some names), s1) =>
      upload_transfer paper_path (fst names) (snd names) dry_run s1
  | (Ret None, s1) => (Ret false, s1)
  | (Raise e, s1) => (Raise e, s1)
  end.
Proof.
  unfold upload_paper, upload_prepare, upload_transfer, put_argv, mv_argv.
  cbv [bind read ret].
  destruct (ext_path_exists paper_path (world s)); cbn [negb]; [|reflexivity].
  destruct (negb (truthy_opt title) || negb (truthy_opt classification)).
  - destruct (analyze_paper_with_claude paper_path s) as [[ct|e] s1]; [|reflexivity].
    destruct (ensure_directory _ s1) as [[[|]|e] s2]; reflexivity.
  - destruct (ensure_directory _ s) as [[[|]|e] s2]; reflexivity.
Qed.

Lemma calls_app (command : str) (t1 t2 : list event) :
  calls command (t1 ++ t2) = calls command t1 ++ calls command t2.
Proof. apply filter_app. Qed.

Lemma no_argvs_no_calls (command : str) (t : list event) :
  argvs t = [] -> calls command t = [].
Proof.
  induction t as [|e t IH]; [reflexivity|].
  destruct e; cbn; try discriminate; assumption.
Qed.

Lemma analyze_paper_with_claude_summary (paper_path : str) (s : state) r s' :
  analyze_paper_with_claude paper_path s = (r, s') ->
  exists t, extends s s' t
  /\ argvs t = []
  /\ hd_error t = Some (Analyze paper_path)
  /\ (forall e, r = Raise e ->
        e = ValueError "Missing ANTHROPIC_API_KEY" \/ e = OSError).
Proof.
  rewrite analyze_paper_with_claude_eq. cbv zeta.
  destruct (negb _).
  - intros H; inversion H; subst. trace_of_run.
    repeat split; intros e He; inversion He; auto.
  - destruct (payload_of paper_path (world s)) as [payload|];
      intros H; inversion H; subst; trace_of_run;
      repeat split; intros e He; inversion He; auto.
Qed.

(** Before the [try] statement nothing is put or moved, and the only
    exceptions are the adapter's and the bridge's failure to start. *)
Lemma upload_prepare_summary (paper_path : str)
    (title classification output_file_name : option str) (s : state) r s1 :
  upload_prepare paper_path title classification output_file_name s = (r, s1) ->
  exists t, extends s s1 t
  /\ calls "put" t = [] /\ calls "mv" t = []
  /\ (forall e, r = Raise e ->
        e = ValueError "Missing ANTHROPIC_API_KEY" \/ e = OSError
        \/ e = ValueError "embedded null byte").
Proof.
  unfold upload_prepare. intros H.
  apply bind_inv in H. destruct H as [(found & s0 & Hr & H) | (e & Hr & _)];
    apply read_inv in Hr; destruct Hr as [Hf Hs0]; [|discriminate Hf].
  inversion Hf; subst found s0. clear Hf.
  destruct (negb (ext_path_exists paper_path (world s))).
  { apply ret_inv in H. destruct H; subst. exists []. split; [apply extends_refl|].
    repeat split; intros e He; discriminate He. }
  apply bind_inv in H. destruct H as [(tc & s2 & Htc & H) | (e & Htc & Hr)].
  - assert (Ht : exists t, extends s s2 t /\ calls "put" t = [] /\ calls "mv" t = []).
    { destruct (negb (truthy_opt title) || negb (truthy_opt classification)).
      - apply bind_inv in Htc. destruct Htc as [(ct & s3 & Ha & Hret) | (e & Ha & Hr)];
          [|discriminate Hr].
        apply ret_inv in Hret. destruct Hret as [_ ->].
        apply analyze_paper_with_claude_summary in Ha.
        destruct Ha as (t & Hext & Hargv & _).
        exists t. split; [assumption|].
        split; apply no_argvs_no_calls; assumption.
      - apply ret_inv in Htc. destruct Htc as [_ ->].
        exists []. split; [apply extends_refl | split; reflexivity]. }
    destruct Ht as (t & Hext & Hput & Hmv).
    apply bind_inv in H. destruct H as [(ok & s3 & Hed & H) | (e & Hed & Hr)];
      apply ensure_directory_summary in Hed;
      destruct Hed as (t' & Hext' & Hput' & Hmv' & _ & _ & Hres).
    + assert (Hs : s1 = s3 /\ exists v, r = Ret v).
      { destruct (negb ok); apply ret_inv in H; destruct H; subst; eauto. }
      destruct Hs as [-> [v ->]].
      exists (t ++ t'). split; [eapply extends_trans; eassumption|].
      rewrite !calls_app, Hput, Hput', Hmv, Hmv'.
      repeat split; intros e He; discriminate He.
    + exists (t ++ t'). split; [eapply extends_trans; eassumption|].
      rewrite !calls_app, Hput, Hput', Hmv, Hmv'. subst r.
      repeat split. intros e0 He. inversion He; subst e0.
      destruct Hres as [Hres | [Hres | [Hres | Hres]]]; inversion Hres; auto.
  - subst r.
    destruct (negb (truthy_opt title) || negb (truthy_opt classification)).
    + apply bind_inv in Htc. destruct Htc as [(ct & s3 & Ha & Hret) | (e0 & Ha & Hr)].
      * apply ret_inv in Hret. destruct Hret as [Hret _]. discriminate Hret.
      * inversion Hr; subst e0.
        apply analyze_paper_with_claude_summary in Ha.
        destruct Ha as (t & Hext & Hargv & _ & Hraise).
        exists t. split; [assumption|].
        repeat split; try (apply no_argvs_no_calls; assumption).
        intros e1 He. inversion He; subst e1.
        destruct (Hraise e eq_refl) as [-> | ->]; auto.
    + apply ret_inv in Htc. destruct Htc as [Hret _]. discriminate Hret.
Qed.

(** C5, as the code has it.  A dry run of [upload_paper] puts nothing and
    moves nothing, while it lists and creates directories as a live run
    does.  The live run does what the dry run does and then only puts and
    moves.  When the live run returns [True] so does the dry run; the two
    differ only when the dry run returns [True] and a put or a move of the
    live run fails. *)
Theorem upload_paper_dry_run (paper_path : str)
    (title classification output_file_name : option str) (s : state) :
  let dry := upload_paper (Some paper_path) title classification output_file_name true s in
  let live := upload_paper (Some paper_path) title classification output_file_name false s in
  exists t t', extends s (snd dry) t /\ extends (snd dry) (snd live) t'
  /\ calls "put" t = [] /\ calls "mv" t = []
  /\ Forall (fun e => is_call "put" e || is_call "mv" e = true) t'
  /\ (fst live = Ret true -> fst dry = Ret true)
  /\ (fst dry = fst live
      \/ (fst dry = Ret true /\ exists e, In e t' /\ failed_call e)).
Proof.
  cbv zeta. rewrite !upload_paper_eq.
  destruct (upload_prepare paper_path title classification output_file_name s)
    as [[[names|]|e] s1] eqn:Hp;
    apply upload_prepare_summary in Hp; destruct Hp as (t & Hext & Hput & Hmv & _);
    exists t.
  - rewrite upload_transfer_dry, upload_transfer_live. cbv zeta. cbn [fst snd].
    destruct (bridge (put_argv paper_path (fst names)) (world s1))
      as [[result|] w1]; cbn [fst snd].
    + destruct (returncode result =? 0)%Z eqn:Hrc; cbn [negb].
      * destruct (str_eqb (path_name paper_path) (snd names)).
        -- eexists. split; [assumption|].
           split; [unfold extends; cbn [trace]; reflexivity|].
           split; [assumption|]. split; [assumption|].
           split; [repeat constructor|]. split; [reflexivity|]. left; reflexivity.
        -- destruct (bridge _ w1) as [[moved|] w2]; cbn [fst snd].
           ++ eexists. split; [assumption|].
              split; [unfold extends; cbn [trace]; rewrite <- app_assoc; reflexivity|].
              split; [assumption|]. split; [assumption|].
              split; [repeat constructor|]. split; [reflexivity|].
              destruct (returncode moved =? 0)%Z eqn:Hmoved; [left; reflexivity|].
              right. split; [reflexivity|]. eexists. split; [right; left; reflexivity|].
              cbn. apply Z.eqb_neq. assumption.
           ++ eexists. split; [assumption|].
              split; [unfold extends; cbn [trace]; rewrite <- app_assoc; reflexivity|].
              split; [assumption|]. split; [assumption|].
              split; [repeat constructor|]. split; [reflexivity|].
              right. split; [reflexivity|]. eexists. split; [right; left; reflexivity|].
              exact I.
      * eexists. split; [assumption|].
        split; [unfold extends; cbn [trace]; reflexivity|].
        split; [assumption|]. split; [assumption|].
        split; [repeat constructor|]. split; [reflexivity|].
        right. split; [reflexivity|]. eexists. split; [left; reflexivity|].
        cbn. apply Z.eqb_neq. assumption.
    + eexists. split; [assumption|].
      split; [unfold extends; cbn [trace]; reflexivity|].
      split; [assumption|]. split; [assumption|].
      split; [repeat constructor|]. split; [reflexivity|].
      right. split; [reflexivity|]. eexists. split; [left; reflexivity|]. exact I.
  - exists []. cbn [fst snd]. split; [assumption|]. split; [apply extends_refl|].
    split; [assumption|]. split; [assumption|].
    split; [constructor|]. split; [discriminate|]. left; reflexivity.
  - exists []. cbn [fst snd]. split; [assumption|]. split; [apply extends_refl|].
    split; [assumption|]. split; [assumption|].
    split; [constructor|]. split; [discriminate|]. left; reflexivity.
Qed.

Lemma str_eqb_false (a b : str) : str_eqb a b = false <-> a <> b.
Proof.
  split.
  - intros H Heq. apply str_eqb_spec in Heq. congruence.
  - intros H. destruct (str_eqb a b) eqn:Heq; [|reflexivity].
    apply str_eqb_spec in Heq. contradiction.
Qed.

(** C6, as the code has it.  Once the directories are there, a live run
    puts the file; it then moves the uploaded entry exactly when the put
    ended with status zero and the name of the local file differs from the
    file name wanted, the two compared whole, extensions included.  The
    move is between the two names with every [.pdf] taken out. *)
Theorem upload_paper_renames_when_names_differ (paper_path : str)
    (title classification output_file_name : option str) (s : state)
    (names : str * str) (s1 : state) :
  upload_prepare paper_path title classification output_file_name s
    = (Ret (Some names), s1) ->
  let live := upload_paper (Some paper_path) title classification output_file_name false s in
  let original_name := path_name paper_path in
  exists put t,
    extends s1 (snd live) (Subprocess (put_argv paper_path (fst names)) put :: t)
    /\ ((exists result, put = Some result /\ returncode result = 0%Z)
        /\ original_name <> snd names ->
        exists moved,
          t = [Subprocess (mv_argv (fst names) original_name (snd names)) moved])
    /\ (~ ((exists result, put = Some result /\ returncode result = 0%Z)
           /\ original_name <> snd names) ->
        t = []).
Proof.
  intros Hp. cbv zeta. rewrite upload_paper_eq, Hp, upload_transfer_live. cbv zeta.
  destruct (bridge (put_argv paper_path (fst names)) (world s1))
    as [[result|] w1]; cbn [fst snd].
  - destruct (returncode result =? 0)%Z eqn:Hrc; cbn [negb].
    + apply Z.eqb_eq in Hrc.
      destruct (str_eqb (path_name paper_path) (snd names)) eqn:Hname.
      * apply str_eqb_spec in Hname.
        exists (Some result), []. split; [unfold extends; reflexivity|].
        split; [intros [_ Hne]; contradiction | reflexivity].
      * apply str_eqb_false in Hname.
        destruct (bridge _ w1) as [[moved|] w2]; cbn [fst snd].
        -- exists (Some result), [Subprocess (mv_argv (fst names) (path_name paper_path) (snd names)) (Some moved)].
           split; [unfold extends; cbn [trace]; rewrite <- app_assoc; reflexivity|].
           split; [intros _; eexists; reflexivity|].
           intros Hno. exfalso. apply Hno. split; [eauto | assumption].
        -- exists (Some result), [Subprocess (mv_argv (fst names) (path_name paper_path) (snd names)) None].
           split; [unfold extends; cbn [trace]; rewrite <- app_assoc; reflexivity|].
           split; [intros _; eexists; reflexivity|].
           intros Hno. exfalso. apply Hno. split; [eauto | assumption].
    + apply Z.eqb_neq in Hrc.
      exists (Some result), []. split; [unfold extends; reflexivity|].
      split; [|reflexivity].
      intros [[q [Hq Hz]] _]. inversion Hq; subst q. contradiction.
  - exists None, []. split; [unfold extends; reflexivity|].
    split; [|reflexivity].
    intros [[q [Hq _]] _]. discriminate Hq.
Qed.

End Upload.

Lemma upload_paper_renames_when_names_differ_witness :
  @upload_prepare sim_externals "notes" (Some ("notes" : str))
      (Some ("Physics" : str)) None (sim_init sim_notes)
    = (Ret (Some ("Physics" : str, "notes.pdf" : str)),
       snd (@upload_prepare sim_externals "notes" (Some ("notes" : str))
              (Some ("Physics" : str)) None (sim_init sim_notes)))
  /\ exists put t,
       extends
         (snd (@upload_prepare sim_externals "notes" (Some ("notes" : str))
                 (Some ("Physics" : str)) None (sim_init sim_notes)))
         (snd (@upload_paper sim_externals (Some ("notes" : str))
                 (Some ("notes" : str)) (Some ("Physics" : str)) None false
                 (sim_init sim_notes)))
         (Subprocess (put_argv "notes" "Physics") put :: t)
       /\ ((exists result, put = Some result /\ returncode result = 0%Z)
           /\ path_name "notes" <> "notes.pdf" ->
           exists moved,
             t = [Subprocess (mv_argv "Physics" (path_name "notes") "notes.pdf") moved])
       /\ (~ ((exists result, put = Some result /\ returncode result = 0%Z)
              /\ path_name "notes" <> "notes.pdf") ->
           t = []).
Proof.
  split; [vm_compute; reflexivity|].
  apply (@upload_paper_renames_when_names_differ sim_externals "notes"
           (Some ("notes" : str)) (Some ("Physics" : str)) None (sim_init sim_notes)
           ("Physics" : str, "notes.pdf" : str)).
  vm_compute; reflexivity.
Defined.

(** C6, as the specification words it, fails: the names [notes] and
    [notes.pdf] agree once their extension is taken off, whichever way it
    is taken off, and the entry is moved all the same, onto itself. *)
Lemma rename_despite_equal_stripped_names :
  str_replace ".pdf" "" (path_name "notes") = str_replace ".pdf" "" "notes.pdf"
  /\ path_stem "notes" = path_stem "notes.pdf"
  /\ generate_formatted_filename "notes" = "notes.pdf"
  /\ fst (sim_run
            (upload_paper (Some ("notes" : str)) (Some ("notes" : str))
               (Some ("Physics" : str)) None false) sim_notes) = Ret true
  /\ argvs (trace (snd (sim_run
            (upload_paper (Some ("notes" : str)) (Some ("notes" : str))
               (Some ("Physics" : str)) None false) sim_notes)))
     = [ [rmapi; "ls" : str; "/" : str];
         [rmapi; "mkdir" : str; "/papers" : str];
         [rmapi; "ls" : str; "/papers" : str];
         [rmapi; "mkdir" : str; "/papers/Physics" : str];
         [rmapi; "put" : str; "notes" : str; "/papers/Physics/" : str];
         [rmapi; "mv" : str; "/papers/Physics/notes" : str;
          "/papers/Physics/notes" : str] ].
Proof. repeat split; vm_compute; reflexivity. Qed.

(** C5, as the specification words it, fails: where the put fails the dry
    run returns [True] and the live run [False], from the same remote
    store; and the dry run has created [/papers]. *)
Lemma dry_run_differs_from_live_run :
  fst (sim_run
         (upload_paper (Some ("paper.pdf" : str)) None None None true) sim_put_fails)
    = Ret true
  /\ fst (sim_run
            (upload_paper (Some ("paper.pdf" : str)) None None None false) sim_put_fails)
     = Ret false
  /\ argvs (trace (snd (sim_run
            (upload_paper (Some ("paper.pdf" : str)) None None None true) sim_put_fails)))
     = [ [rmapi; "ls" : str; "/" : str];
         [rmapi; "mkdir" : str; "/papers" : str];
         [rmapi; "ls" : str; "/papers" : str];
         [rmapi; "mkdir" : str; "/papers/Physics" : str] ].
Proof. repeat split; vm_compute; reflexivity. Qed.

(* ================================================================= *)
(** ** The intake dispatcher *)

Section Dispatcher.
Context {E : Externals}.

(** [get_metadata] asks once, changes nothing and never raises. *)
Lemma get_metadata_returns (document_id : str) (s : state) :
  exists v,
    get_metadata document_id s
    = (Ret v, {| world := world s; trace := trace s ++ [Query (api_url document_id)] |}).
Proof.
  destruct s as [w tr]. unfold get_metadata, api_url.
  cbv [bind try_except emit read ret raise world trace].
  destruct (ext_arxiv_query _ w) as [[[[[[text|]|] category]|]]|];
    cbn [feed_entry title_elem is_Exception]; eexists; reflexivity.
Qed.

(** [download_paper] never raises either. *)
Lemma download_paper_returns (document_id : str) (s : state) :
  exists v s', download_paper document_id None s = (Ret v, s')
    /\ exists url path, extends s s' [Download url path].
Proof.
  destruct s as [w tr]. unfold download_paper.
  cbv [bind emit act ret world trace].
  destruct (ext_urlretrieve _ _ w) as [[|] w']; do 2 eexists;
    (split; [reflexivity | do 2 eexists; unfold extends; reflexivity]).
Qed.

Lemma upload_paper_raises (paper_path : option str)
    (title classification output_file_name : option str) (dry_run : bool)
    (s : state) e s' :
  upload_paper paper_path title classification output_file_name dry_run s
    = (Raise e, s') ->
  may_escape e.
Proof.
  unfold may_escape. destruct paper_path as [paper_path|].
  - rewrite upload_paper_eq.
    destruct (upload_prepare _ _ _ _ s) as [[[names|]|e0] s1] eqn:Hp.
    + destruct dry_run.
      * rewrite upload_transfer_dry. discriminate.
      * rewrite upload_transfer_live. cbv zeta.
        destruct (fst (bridge _ (world s1))) as [result|].
        -- destruct (negb _); [discriminate|].
           destruct (str_eqb _ _); [discriminate|].
           destruct (fst (bridge _ _)); [discriminate|].
           intros H; inversion H. unfold start_error. destruct (has_nul _); auto.
        -- intros H; inversion H. unfold start_error. destruct (has_nul _); auto.
    + discriminate.
    + apply upload_prepare_summary in Hp. destruct Hp as (_ & _ & _ & _ & Hraise).
      intros H; inversion H; subst. right. apply Hraise. reflexivity.
  - unfold upload_paper, raise. intros H; inversion H; auto.
Qed.

(** The remote-identifier path in closed form. *)
Lemma handle_arxiv_paper_eq (handler : str) (dry_run : bool) (s : state) :
  handle_arxiv_paper handler dry_run s =
  match get_metadata handler s with
  | (Ret tc, s1) =>
      if negb (truthy_opt (fst tc)) then (Ret (Some false), s1)
      else
        match download_paper handler None s1 with
        | (Ret output_path, s2) =>
            match upload_paper output_path (fst tc) (snd tc) None dry_run s2 with
            | (Ret _, s3) => (Ret None, s3)
            | (Raise e, s3) => (Raise e, s3)
            end
        | (Raise e, s2) => (Raise e, s2)
        end
  | (Raise e, s1) => (Raise e, s1)
  end.
Proof.
  unfold handle_arxiv_paper. cbv [bind ret].
  destruct (get_metadata handler s) as [[tc|e] s1]; [|reflexivity].
  destruct (negb (truthy_opt (fst tc))); [reflexivity|].
  destruct (download_paper handler None s1) as [[output_path|e] s2]; [|reflexivity].
  destruct (upload_paper _ _ _ _ _ s2) as [[ok|e] s3]; reflexivity.
Qed.

(** It returns [False], or nothing, or lets an exception of [upload_paper]
    pass: it never returns [True]. *)
Lemma handle_arxiv_paper_result (handler : str) (dry_run : bool) (s : state) :
  let r := fst (handle_arxiv_paper handler dry_run s) in
  r = Ret (Some false) \/ r = Ret None \/ exists e, r = Raise e /\ may_escape e.
Proof.
  cbv zeta. rewrite handle_arxiv_paper_eq.
  destruct (get_metadata_returns handler s) as [tc ->].
  destruct (negb (truthy_opt (fst tc))); [left; reflexivity|].
  destruct (download_paper_returns handler
              {| world := world s; trace := trace s ++ [Query (api_url handler)] |})
    as (output_path & s2 & -> & _).
  destruct (upload_paper _ _ _ _ _ s2) as [[ok|e] s3] eqn:Hu.
  - right; left; reflexivity.
  - right; right. exists e. split; [reflexivity|].
    eapply upload_paper_raises; eassumption.
Qed.

Lemma parse_id_truthy (paper handler : str) :
  parse_id paper = Some handler -> truthy paper = true.
Proof. destruct paper; [discriminate | reflexivity]. Qed.

(** [main] on an input that is an identifier. *)
Lemma main_remote_eq (paper handler : str) (dry_run : bool) (s : state) :
  parse_id paper = Some handler ->
  main (Some paper) dry_run s =
  match handle_arxiv_paper handler dry_run s with
  | (Ret success, s') =>
      (Raise (SystemExit (if truthy_result success then 0 else 1)%Z), s')
  | (Raise e, s') => (Raise e, s')
  end.
Proof.
  intros Hid. unfold main. cbn [truthy_opt value].
  rewrite (@parse_id_truthy paper handler Hid).
  unfold ArxivFetcher. rewrite Hid.
  pose proof (handle_arxiv_paper_result handler dry_run s) as Hr. cbv zeta in Hr.
  cbv [bind try_except ret sys_exit raise].
  destruct (handle_arxiv_paper handler dry_run s) as [[success|e] s1]; cbn [fst] in Hr.
  - reflexivity.
  - destruct Hr as [Hr | [Hr | (e0 & Hr & Hesc)]]; try discriminate Hr.
    inversion Hr; subst e0.
    destruct Hesc as [-> | [-> | [-> | ->]]]; reflexivity.
Qed.

(** [main] on an input that is no identifier: the local-file path. *)
Lemma main_local_eq (paper : str) (dry_run : bool) (s : state) :
  parse_id paper = None -> truthy paper = true ->
  main (Some paper) dry_run s =
  match upload_paper (Some paper) None None None dry_run s with
  | (Ret ok, s') => (Raise (SystemExit (if ok then 0 else 1)%Z), s')
  | (Raise e, s') => (Raise e, s')
  end.
Proof.
  intros Hid Ht. unfold main. cbn [truthy_opt value]. rewrite Ht.
  unfold ArxivFetcher. rewrite Hid.
  cbv [bind try_except ret sys_exit raise is_InvalidArxivId].
  destruct (upload_paper _ _ _ _ _ s) as [[ok|e] s1]; reflexivity.
Qed.

(** C1: the code does not do what the specification says.  On every input that
    resolves to an identifier the process exits with status 1, whatever the
    download and the upload did: [handle_arxiv_paper] drops the result of
    [upload_paper] and returns nothing, and [main] reads that as failure. *)
Theorem main_remote_identifier_exits_with_1 (paper handler : str) (dry_run : bool)
    (s : state) :
  parse_id paper = Some handler ->
  exit_code (fst (main (Some paper) dry_run s)) = 1%Z.
Proof.
  intros Hid. rewrite (@main_remote_eq paper handler dry_run s Hid).
  pose proof (handle_arxiv_paper_result handler dry_run s) as Hr. cbv zeta in Hr.
  destruct (handle_arxiv_paper handler dry_run s) as [[success|e] s1]; cbn [fst] in *.
  - destruct Hr as [Hr | [Hr | (e0 & Hr & _)]]; inversion Hr; reflexivity.
  - destruct Hr as [Hr | [Hr | (e0 & Hr & Hesc)]]; try discriminate Hr.
    inversion Hr; subst e0. destruct Hesc as [-> | [-> | [-> | ->]]]; reflexivity.
Qed.

(** X19.  On the local-file path the exit status tells what [upload_paper]
    did: it is 0 exactly when [upload_paper] returned [True], and 1 when it
    returned [False] or raised. *)
Lemma main_local_exit_code (paper : str) (dry_run : bool) (s : state) :
  parse_id paper = None -> truthy paper = true ->
  (exit_code (fst (main (Some paper) dry_run s)) = 0%Z
   <-> fst (upload_paper (Some paper) None None None dry_run s) = Ret true)
  /\ (exit_code (fst (main (Some paper) dry_run s)) = 0
      \/ exit_code (fst (main (Some paper) dry_run s)) = 1)%Z.
Proof.
  intros Hid Ht. rewrite (@main_local_eq paper dry_run s Hid Ht).
  pose proof (@upload_paper_raises (Some paper) None None None dry_run s) as Hraise.
  destruct (upload_paper _ _ _ _ _ s) as [[[|]|e] s1]; cbn [fst exit_code].
  - split; [split; reflexivity | left; reflexivity].
  - split; [split; discriminate | right; reflexivity].
  - destruct (Hraise e s1 eq_refl) as [-> | [-> | [-> | ->]]];
      (split; [split; discriminate | right; reflexivity]).
Qed.

(** C3, as the code has it.  When the input resolves to an identifier and
    the metadata has no title, the run ends there with status 1: the state
    it leaves is the one the metadata fetch left, so nothing was
    downloaded, classified, listed or put, for a dry run and a live run
    alike. *)
Theorem main_aborts_without_title (paper handler : str) (dry_run : bool) (s : state)
    (title category : option str) (s1 : state) :
  parse_id paper = Some handler ->
  get_metadata handler s = (Ret (title, category), s1) ->
  truthy_opt title = false ->
  main (Some paper) dry_run s = (Raise (SystemExit 1), s1)
  /\ extends s s1 [Query (api_url handler)].
Proof.
  intros Hid Hm Ht. rewrite (@main_remote_eq paper handler dry_run s Hid), handle_arxiv_paper_eq, Hm.
  cbn [fst]. rewrite Ht. cbn [negb truthy_result]. split; [reflexivity|].
  destruct (get_metadata_returns handler s) as [v Hv]. rewrite Hv in Hm.
  inversion Hm; subst. unfold extends; reflexivity.
Qed.

(** With no category given, [upload_prepare] asks the adapter and takes its
    classification. *)
Lemma upload_prepare_classifies (paper_path : str) (title category output_file_name : option str)
    (s : state) :
  ext_path_exists paper_path (world s) = true ->
  truthy_opt category = false ->
  upload_prepare paper_path title category output_file_name s =
  match analyze_paper_with_claude paper_path s with
  | (Ret ct, s1) =>
      match ensure_directory (fst ct) s1 with
      | (Ret ok, s2) =>
          (Ret (if ok
                then Some (fst ct,
                           if truthy_opt output_file_name then value output_file_name
                           else generate_formatted_filename
                                  (if truthy_opt title then value title else snd ct))
                else None), s2)
      | (Raise e, s2) => (Raise e, s2)
      end
  | (Raise e, s1) => (Raise e, s1)
  end.
Proof.
  intros Hfound Hc. unfold upload_prepare. cbv [bind read ret].
  rewrite Hfound, Hc. cbn [negb]. rewrite orb_true_r.
  destruct (analyze_paper_with_claude paper_path s) as [[ct|e] s1]; [|reflexivity].
  cbn [fst snd].
  destruct (ensure_directory (fst ct) s1) as [[[|]|e] s2]; reflexivity.
Qed.

(** Each event of a trace that was read off is one of the filing calls. *)
Ltac files_under_all :=
  repeat (apply Forall_cons || apply Forall_nil); unfold files_under; eexists; eauto 7.

Lemma ensure_directory_events (paper_path classification output_file_name : str)
    (s : state) r s' :
  ensure_directory classification s = (r, s') ->
  exists r1 t, extends s s' (Subprocess ls_root r1 :: t)
    /\ Forall (files_under paper_path classification output_file_name) t.
Proof.
  intros H. unfold ensure_directory in H.
  fold ls_root mkdir_papers ls_papers (mkdir_category classification) in H.
  invert_run; try discriminate; eexists; trace_of_run; files_under_all.
Qed.

Lemma upload_transfer_events (paper_path classification output_file_name : str)
    (dry_run : bool) (s : state) :
  exists t,
    extends s (snd (upload_transfer paper_path classification output_file_name dry_run s)) t
    /\ Forall (files_under paper_path classification output_file_name) t.
Proof.
  destruct dry_run.
  - rewrite upload_transfer_dry. exists []. split; [apply extends_refl | constructor].
  - rewrite upload_transfer_live. cbv zeta.
    destruct (bridge (put_argv paper_path classification) (world s))
      as [[result|] w1]; cbn [fst snd].
    + destruct (negb _); [trace_of_run; files_under_all|].
      destruct (str_eqb _ _); [trace_of_run; files_under_all|].
      destruct (bridge _ w1) as [[moved|] w2]; cbn [fst snd];
        trace_of_run; files_under_all.
    + trace_of_run; files_under_all.
Qed.

(** With no category given, [upload_paper] calls the adapter first; when
    the adapter can ask the oracle, every later bridge call is about the
    classification that the adapter made of the answer. *)
Lemma upload_paper_classified (paper_path : str) (title category : option str)
    (dry_run : bool) (s : state) :
  ext_path_exists paper_path (world s) = true ->
  truthy_opt category = false ->
  let final := snd (upload_paper (Some paper_path) title category None dry_run s) in
  (exists t, extends s final (Analyze paper_path :: t))
  /\ (forall payload,
        truthy_opt (ext_getenv "ANTHROPIC_API_KEY" (world s)) = true ->
        payload_of paper_path (world s) = Some payload ->
        let ct := interpret paper_path (fst (ext_messages_create payload (world s))) in
        exists r1 t,
          extends s final
            (Analyze paper_path :: Oracle payload :: Subprocess ls_root r1 :: t)
          /\ Forall (files_under paper_path (fst ct)
                       (generate_formatted_filename
                          (if truthy_opt title then value title else snd ct))) t).
Proof.
  intros Hfound Hc. cbv zeta.
  rewrite upload_paper_eq, (@upload_prepare_classifies paper_path title category None s Hfound Hc).
  rewrite analyze_paper_with_claude_eq. cbv zeta. cbn [truthy_opt].
  destruct (truthy_opt (ext_getenv "ANTHROPIC_API_KEY" (world s))); cbn [negb].
  2:{ split; [exists []; unfold extends; reflexivity | discriminate]. }
  destruct (payload_of paper_path (world s)) as [payload|].
  2:{ split; [exists []; unfold extends; reflexivity | discriminate]. }
  set (ct := interpret paper_path (fst (ext_messages_create payload (world s)))).
  set (sa := {| world := snd (ext_messages_create payload (world s));
                trace := (trace s ++ [Analyze paper_path]) ++ [Oracle payload] |}).
  set (name := generate_formatted_filename (if truthy_opt title then value title else snd ct)).
  assert (Ha : extends s sa [Analyze paper_path; Oracle payload]).
  { unfold extends, sa. cbn [trace]. rewrite <- app_assoc. reflexivity. }
  destruct (ensure_directory (fst ct) sa) as [[ok|e] s2] eqn:Hed;
    apply (@ensure_directory_events paper_path (fst ct) name) in Hed;
    destruct Hed as (r1 & t & Hext & Hall).
  - destruct ok.
    + cbn [fst snd].
      destruct (upload_transfer_events paper_path (fst ct) name dry_run s2)
        as (t' & Hext' & Hall').
      pose proof (extends_trans Ha (extends_trans Hext Hext')) as Hfinal.
      cbn [app] in Hfinal.
      split; [eexists; exact Hfinal|].
      intros payload' _ Hpayload. inversion Hpayload; subst payload'.
      exists r1, (t ++ t'). split; [exact Hfinal | apply Forall_app; split; assumption].
    + pose proof (extends_trans Ha Hext) as Hfinal. cbn [app] in Hfinal.
      split; [eexists; exact Hfinal|].
      intros payload' _ Hpayload. inversion Hpayload; subst payload'.
      exists r1, t. split; assumption.
  - pose proof (extends_trans Ha Hext) as Hfinal. cbn [app] in Hfinal.
    split; [eexists; exact Hfinal|].
    intros payload' _ Hpayload. inversion Hpayload; subst payload'.
    exists r1, t. split; assumption.
Qed.

(** C4, as the code has it.  In the remote-identifier path, a title
    without a category has [upload_paper] call the classifier adapter on the
    downloaded file before anything else.  With credentials and a readable
    file the oracle is asked, and every bridge call after the listing of the
    root is about [/papers] or about the classification that the adapter
    made of the oracle's answer; the title of the metadata gives the file
    name. *)
Theorem remote_path_asks_the_classifier (handler : str) (dry_run : bool) (s : state)
    (title : str) (category : option str) (s1 : state)
    (paper_path : str) (s2 : state) :
  get_metadata handler s = (Ret (Some title, category), s1) ->
  truthy title = true ->
  truthy_opt category = false ->
  download_paper handler None s1 = (Ret (Some paper_path), s2) ->
  ext_path_exists paper_path (world s2) = true ->
  let final := snd (handle_arxiv_paper handler dry_run s) in
  (exists t, extends s2 final (Analyze paper_path :: t))
  /\ (forall payload,
        truthy_opt (ext_getenv "ANTHROPIC_API_KEY" (world s2)) = true ->
        payload_of paper_path (world s2) = Some payload ->
        let found :=
          fst (interpret paper_path (fst (ext_messages_create payload (world s2)))) in
        exists r1 t,
          extends s2 final
            (Analyze paper_path :: Oracle payload :: Subprocess ls_root r1 :: t)
          /\ Forall (files_under paper_path found (generate_formatted_filename title)) t).
Proof.
  intros Hm Ht Hc Hd Hfound. cbv zeta.
  rewrite handle_arxiv_paper_eq, Hm. cbn [fst snd truthy_opt]. rewrite Ht. cbn [negb].
  rewrite Hd.
  pose proof (@upload_paper_classified paper_path (Some title) category dry_run s2
                Hfound Hc) as H.
  cbv zeta in H. cbn [truthy_opt value] in H. rewrite Ht in H.
  destruct (upload_paper (Some paper_path) (Some title) category None dry_run s2)
    as [[ok|e] s3]; exact H.
Qed.

End Dispatcher.

(* ================================================================= *)
(** ** The pipeline run on the simulated world *)

Lemma main_remote_identifier_exits_with_1_witness :
  parse_id "2301.12345" = Some ("2301.12345" : str)
  /\ exit_code (fst (@main sim_externals (Some ("2301.12345" : str)) false
                       (sim_init sim0))) = 1%Z.
Proof.
  split; [reflexivity|].
  apply (@main_remote_identifier_exits_with_1 sim_externals
           "2301.12345" "2301.12345" false (sim_init sim0)).
  reflexivity.
Defined.

(** The failing input of C1: the identifier resolves, the metadata has a
    title and a category, the download succeeds and [upload_paper] returns
    [True] after a put and a move that both ended with status zero; the
    process exits with status 1. *)
Example successful_remote_run_exits_with_1 :
  fst (sim_run (main (Some ("2301.12345" : str)) false) sim0) = Raise (SystemExit 1)
  /\ fst (sim_run (handle_arxiv_paper "2301.12345" false) sim0) = Ret None
  /\ fst (@upload_paper sim_externals (Some ("/tmp/arxiv_2301.12345.pdf" : str))
            (Some ("Attention Is All You Need" : str))
            (Some ("ComputerScience" : str)) None false
            (snd (sim_run (download_paper "2301.12345" None) sim0))) = Ret true
  /\ map (fun e => match e with
                   | Subprocess argv (Some result) => Some (argv, returncode result)
                   | _ => None
                   end)
         (calls "put" (trace (snd (sim_run (main (Some ("2301.12345" : str)) false) sim0)))
          ++ calls "mv" (trace (snd (sim_run (main (Some ("2301.12345" : str)) false) sim0))))
     = [ Some ([rmapi; "put" : str; "/tmp/arxiv_2301.12345.pdf" : str;
                "/papers/ComputerScience/" : str], 0%Z);
         Some ([rmapi; "mv" : str; "/papers/ComputerScience/arxiv_2301.12345" : str;
                "/papers/ComputerScience/Attention Is All You Need" : str], 0%Z) ].
Proof. repeat split; vm_compute; reflexivity. Qed.

Lemma main_aborts_without_title_witness :
  parse_id "2301.12345" = Some ("2301.12345" : str)
  /\ @main sim_externals (Some ("2301.12345" : str)) false (sim_init sim_no_metadata)
     = (Raise (SystemExit 1),
        snd (@get_metadata sim_externals "2301.12345" (sim_init sim_no_metadata))).
Proof.
  split; [reflexivity|].
  apply (@main_aborts_without_title sim_externals "2301.12345" "2301.12345" false
           (sim_init sim_no_metadata) None None
           (snd (@get_metadata sim_externals "2301.12345" (sim_init sim_no_metadata))));
    reflexivity.
Defined.

(** C3, as the specification words it, fails: without a title the run ends
    with status 1 after the metadata query and nothing else, although the
    input names a local file that [upload_paper] would have classified and
    uploaded. *)
Lemma no_fallback_without_title :
  sim_run (main (Some ("2301.12345" : str)) false) sim_no_metadata
    = (Raise (SystemExit 1),
       @Build_state sim_externals sim_no_metadata
         [Query "http://export.arxiv.org/api/query?id_list=2301.12345"])
  /\ fst (sim_run (upload_paper (Some ("2301.12345" : str)) None None None false)
            sim_no_metadata) = Ret true
  /\ filter is_analyze
       (trace (snd (sim_run (upload_paper (Some ("2301.12345" : str)) None None None false)
                      sim_no_metadata)))
     = [Analyze "2301.12345"].
Proof. repeat split; vm_compute; reflexivity. Qed.

Lemma remote_path_asks_the_classifier_witness :
  exists t,
    extends
      (snd (@download_paper sim_externals "2301.12345" None
              (snd (@get_metadata sim_externals "2301.12345" (sim_init sim_no_category)))))
      (snd (@handle_arxiv_paper sim_externals "2301.12345" false (sim_init sim_no_category)))
      (Analyze "/tmp/arxiv_2301.12345.pdf" :: t).
Proof.
  apply (proj1 (@remote_path_asks_the_classifier sim_externals "2301.12345" false
           (sim_init sim_no_category) "Attention Is All You Need" None
           (snd (@get_metadata sim_externals "2301.12345" (sim_init sim_no_category)))
           "/tmp/arxiv_2301.12345.pdf"
           (snd (@download_paper sim_externals "2301.12345" None
              (snd (@get_metadata sim_externals "2301.12345" (sim_init sim_no_category)))))
           eq_refl eq_refl eq_refl eq_refl eq_refl)).
Defined.

(** C4, as the specification words it, fails: with a title and no category
    the adapter is called, the oracle is asked, and the document goes under
    the category of the oracle's answer, not under [Uncategorized]. *)
Lemma remote_path_files_under_the_oracle_category :
  filter is_analyze
    (trace (snd (sim_run (main (Some ("2301.12345" : str)) false) sim_no_category)))
    = [Analyze "/tmp/arxiv_2301.12345.pdf"]
  /\ filter is_oracle
       (trace (snd (sim_run (main (Some ("2301.12345" : str)) false) sim_no_category)))
     = [Oracle []]
  /\ argvs (trace (snd (sim_run (main (Some ("2301.12345" : str)) false) sim_no_category)))
     = [ [rmapi; "ls" : str; "/" : str];
         [rmapi; "mkdir" : str; "/papers" : str];
         [rmapi; "ls" : str; "/papers" : str];
         [rmapi; "mkdir" : str; "/papers/Physics" : str];
         [rmapi; "put" : str; "/tmp/arxiv_2301.12345.pdf" : str;
          "/papers/Physics/" : str];
         [rmapi; "mv" : str; "/papers/Physics/arxiv_2301.12345" : str;
          "/papers/Physics/Attention Is All You Need" : str] ].
Proof. repeat split; vm_compute; reflexivity. Qed.


(** Scenario D of the specification: [/papers/Physics] is listed, and
    nothing is created. *)
Example ensure_directory_scenario_D :
  fst (sim_run (ensure_directory "Physics") sim_physics) = Ret true
  /\ argvs (trace (snd (sim_run (ensure_directory "Physics") sim_physics)))
     = [ [rmapi; "ls" : str; "/" : str]; [rmapi; "ls" : str; "/papers" : str] ].
Proof. split; vm_compute; reflexivity. Qed.

(** The accepted limitation of the substring test: a classification that
    is part of the name of another entry passes for present. *)
Example ensure_directory_substring :
  argvs (trace (snd (sim_run (ensure_directory "Phys") sim_physics)))
  = [ [rmapi; "ls" : str; "/" : str]; [rmapi; "ls" : str; "/papers" : str] ].
Proof. vm_compute; reflexivity. Qed.

(** Scenario A of the specification. *)
Example scenario_A_metadata :
  fst (sim_run (get_metadata "2301.12345") sim0)
  = Ret (Some ("Attention Is All You Need" : str), Some ("ComputerScience" : str)).
Proof. vm_compute; reflexivity. Qed.

(** Scenario E of the specification. *)
Example scenario_E :
  parse_id "not-an-id-or-path" = None
  /\ sim_run (main (Some ("not-an-id-or-path" : str)) false) sim0
     = (Raise (SystemExit 1), sim_init sim0).
Proof. split; vm_compute; reflexivity. Qed.

(* ================================================================= *)
(** ** The identifier resolver: [parse_id] *)

Arguments isdigit : simpl never.

Lemma take_digits_spec (n : nat) (s ds rest : str) :
  take_digits n s = Some (ds, rest) ->
  s = ds ++ rest /\ digits ds /\ List.length ds = n.
Proof.
  revert s ds rest. induction n as [|n IH]; intros s ds rest; cbn [take_digits].
  - intros H; inversion H; subst. repeat split. constructor.
  - destruct s as [|c s]; [discriminate|].
    destruct (isdigit c) eqn:Hc; [|discriminate].
    destruct (take_digits n s) as [[ds' rest']|] eqn:Ht; [|discriminate].
    intros H; inversion H; subst.
    destruct (IH _ _ _ Ht) as (-> & Hd & Hl).
    repeat split; [constructor; assumption | cbn; congruence].
Qed.

Lemma take_digits_complete (n : nat) (ds rest : str) :
  digits ds -> List.length ds = n -> take_digits n (ds ++ rest) = Some (ds, rest).
Proof.
  intros Hds <-.
  induction Hds as [|c ds Hc Hds IH]; cbn [List.length app take_digits].
  - reflexivity.
  - rewrite Hc, IH. reflexivity.
Qed.

Lemma span_digits_spec (s ds rest : str) :
  span_digits s = (ds, rest) -> s = ds ++ rest /\ digits ds.
Proof.
  revert ds rest. induction s as [|c s IH]; intros ds rest; cbn [span_digits].
  - intros H; inversion H; subst. split; [reflexivity | constructor].
  - destruct (isdigit c) eqn:Hc.
    + destruct (span_digits s) as [ds' rest'] eqn:Hs.
      intros H; inversion H; subst.
      destruct (IH _ _ eq_refl) as [-> Hd]. split; [reflexivity | constructor; assumption].
    + intros H; inversion H; subst. split; [reflexivity | constructor].
Qed.

Lemma span_digits_all (ds : str) : digits ds -> span_digits ds = (ds, []).
Proof.
  induction 1 as [|c ds Hc Hds IH]; cbn [span_digits]; [reflexivity|].
  rewrite Hc, IH. reflexivity.
Qed.

(** What [match_id] matches is an identifier at the head of the text. *)
Lemma match_id_spec (s g rest : str) :
  match_id s = Some (g, rest) -> s = g ++ rest /\ is_arxiv_id g.
Proof.
  unfold match_id.
  destruct (take_digits 4 s) as [[ym [|c s1]]|] eqn:Hym; try discriminate.
  destruct (Ascii.eqb c ".") eqn:Hdot; [|discriminate].
  apply Ascii.eqb_eq in Hdot. subst c.
  destruct (take_digits 4 s1) as [[num s2]|] eqn:Hnum; [|discriminate].
  apply take_digits_spec in Hym. destruct Hym as (-> & Hymd & Hyml).
  apply take_digits_spec in Hnum. destruct Hnum as (-> & Hnumd & Hnuml).
  set (fifth := match take_digits 1 s2 with
                | Some (d, rest0) => (d, rest0)
                | None => ([], s2)
                end).
  assert (Hfifth : s2 = fst fifth ++ snd fifth /\ digits (fst fifth)
                   /\ (List.length (fst fifth) = 0 \/ List.length (fst fifth) = 1)).
  { unfold fifth. destruct (take_digits 1 s2) as [[d rest0]|] eqn:H5.
    - apply take_digits_spec in H5. destruct H5 as (-> & Hd & Hl). cbn. auto.
    - cbn. repeat split; [constructor | auto]. }
  destruct fifth as [d5 s3]. cbn [fst snd] in Hfifth.
  destruct Hfifth as (-> & Hd5 & Hl5).
  set (ver := match s3 with
              | v :: s' =>
                  if Ascii.eqb v "v" then
                    match span_digits s' with
                    | ([], _) => ([], s3)
                    | (ds, rest0) => (v :: ds, rest0)
                    end
                  else ([], s3)
              | [] => ([], s3)
              end).
  assert (Hver : s3 = fst ver ++ snd ver
                 /\ (fst ver = []
                     \/ exists ds, fst ver = "v"%char :: ds /\ ds <> [] /\ digits ds)).
  { unfold ver. destruct s3 as [|v s']; [cbn; auto|].
    destruct (Ascii.eqb v "v") eqn:Hv; [|cbn; auto].
    apply Ascii.eqb_eq in Hv. subst v.
    destruct (span_digits s') as [[|d ds] rest0] eqn:Hs; [cbn; auto|].
    apply span_digits_spec in Hs. destruct Hs as [-> Hds]. cbn [fst snd].
    split; [reflexivity|]. right. exists (d :: ds). repeat split; [discriminate | assumption]. }
  destruct ver as [version s4]. cbn [fst snd] in Hver. destruct Hver as (-> & Hversion).
  intros H; inversion H; subst g rest. clear H. split.
  - cbn [list_ascii_of_string app]. rewrite <- !app_assoc. cbn [app]. rewrite <- !app_assoc.
    reflexivity.
  - exists ym, (num ++ d5), version. split; [rewrite <- app_assoc; reflexivity|].
    split; [assumption|]. split; [assumption|].
    split; [apply Forall_app; split; assumption|].
    split; [rewrite length_app; lia | assumption].
Qed.

(** An identifier alone is matched whole. *)
Lemma match_id_complete (g : str) : is_arxiv_id g -> match_id g = Some (g, []).
Proof.
  intros (ym & num & version & -> & Hym & Hyml & Hnum & Hnuml & Hver).
  unfold match_id.
  rewrite (take_digits_complete _ Hym Hyml).
  cbn [list_ascii_of_string app]. rewrite Ascii.eqb_refl.
  assert (Hsplit : exists n4 d5, num = n4 ++ d5 /\ List.length n4 = 4 /\ digits n4
                                 /\ digits d5 /\ (d5 = [] \/ exists c, d5 = [c])).
  { destruct Hnuml as [Hl | Hl].
    - exists num, []. rewrite app_nil_r. repeat split; auto. constructor.
    - destruct num as [|a [|b [|c [|d [|e [|? ?]]]]]]; try discriminate Hl.
      exists [a; b; c; d], [e]. 
      unfold digits in *.
      repeat match goal with
             | H : Forall _ (_ :: _) |- _ => inversion H; clear H; subst
             end.
      repeat split; eauto; repeat constructor; assumption. }
  destruct Hsplit as (n4 & d5 & -> & Hl4 & Hn4 & Hd5 & Hd5s).
  rewrite <- app_assoc, (take_digits_complete _ Hn4 Hl4).
  assert (Hnodigit : forall t, version ++ t = version ++ t ->
            take_digits 1 version = None).
  { intros _ _. destruct Hver as [-> | (ds & -> & _ & _)]; reflexivity. }
  assert (Hfinal : (let (version0, s4) :=
                      match version with
                      | v :: s' =>
                          if Ascii.eqb v "v" then
                            match span_digits s' with
                            | ([], _) => ([], version)
                            | (ds, rest) => (v :: ds, rest)
                            end
                          else ([], version)
                      | [] => ([], version)
                      end in (version0, s4)) = (version, [])).
  { destruct Hver as [-> | (ds & -> & Hne & Hds)]; [reflexivity|].
    rewrite Ascii.eqb_refl, span_digits_all by assumption.
    destruct ds; [contradiction | reflexivity]. }
  destruct Hd5s as [-> | [c ->]].
  - cbn [app]. rewrite (Hnodigit [] eq_refl).
    destruct (match version with
              | v :: s' => _
              | [] => _
              end) as [version0 s4].
    inversion Hfinal; subst. cbn [app]. rewrite <- ?app_assoc. reflexivity.
  - inversion Hd5 as [|? ? Hc _]; subst. cbn [app take_digits]. rewrite Hc.
    destruct (match version with
              | v :: s' => _
              | [] => _
              end) as [version0 s4].
    inversion Hfinal; subst. cbn [app]. rewrite <- ?app_assoc. reflexivity.
Qed.

Lemma startswith_spec (p s : str) :
  startswith p s = true -> s = p ++ skipn (List.length p) s.
Proof.
  revert s. induction p as [|c p IH]; intros s; [reflexivity|].
  destruct s as [|d s]; cbn [startswith]; [discriminate|].
  intros H. apply andb_true_iff in H. destruct H as [Hc Hp].
  apply Ascii.eqb_eq in Hc. subst d. cbn [List.length skipn app].
  f_equal. apply IH, Hp.
Qed.

Lemma strip_prefix_spec (p s s' : str) : strip_prefix p s = Some s' -> s = p ++ s'.
Proof.
  unfold strip_prefix. destruct (startswith p s) eqn:H; [|discriminate].
  intros Heq; inversion Heq; subst. apply startswith_spec, H.
Qed.

Section Matchers.
Variable A : Type.
Variable R : str -> A -> Prop.
Hypothesis R_mono : forall q s a, R s a -> R (q ++ s) a.

Lemma literal_yields (p : str) (rest : str -> option A) :
  yields R rest -> yields R (literal p rest).
Proof.
  intros Hrest s a. unfold literal.
  destruct (strip_prefix p s) as [s'|] eqn:Hp; [|discriminate].
  apply strip_prefix_spec in Hp. subst s. intros H. apply R_mono, Hrest, H.
Qed.

Lemma optional_yields (p : str -> option str) (rest : str -> option A) :
  yields is_suffix p -> yields R rest -> yields R (optional p rest).
Proof.
  intros Hp Hrest s a. unfold optional.
  destruct (p s) as [s'|] eqn:Hps; [|apply Hrest].
  destruct (rest s') as [a'|] eqn:Hr; [|apply Hrest].
  intros H; inversion H; subst a'. destruct (Hp _ _ Hps) as [q ->].
  apply R_mono, Hrest, Hr.
Qed.

End Matchers.

Lemma re_search_spec (m : str -> option str) (s g : str) :
  re_search m s = Some g -> exists pre t, s = pre ++ t /\ m t = Some g.
Proof.
  induction s as [|c s IH]; cbn [re_search].
  - destruct (m []) eqn:Hm; [|discriminate].
    intros H; inversion H; subst. exists [], []. auto.
  - destruct (m (c :: s)) eqn:Hm.
    + intros H; inversion H; subst. exists [], (c :: s). auto.
    + intros H. destruct (IH H) as (pre & t & -> & Ht). exists (c :: pre), t. auto.
Qed.

Lemma re_search_finds (m : str -> option str) (pre t g : str) :
  m t = Some g -> exists g', re_search m (pre ++ t) = Some g'.
Proof.
  intros Ht. induction pre as [|c pre IH]; cbn [app].
  - exists g. destruct t; cbn [re_search]; rewrite Ht; reflexivity.
  - cbn [re_search]. destruct (m (c :: pre ++ t)); [eauto | exact IH].
Qed.

Lemma re_search_skip (m : str -> option str) (c : ascii) (t : str) :
  m (c :: t) = None -> re_search m (c :: t) = re_search m t.
Proof. intros H. cbn [re_search]. rewrite H. reflexivity. Qed.

Lemma re_search_here (m : str -> option str) (s g : str) :
  m s = Some g -> re_search m s = Some g.
Proof. intros H. destruct s; cbn [re_search]; rewrite H; reflexivity. Qed.

Lemma finds_id_mono (q s g : str) : finds_id s g -> finds_id (q ++ s) g.
Proof.
  intros (Hid & pre & post & ->). split; [assumption|].
  exists (q ++ pre), post. rewrite app_assoc. reflexivity.
Qed.

Lemma is_suffix_mono (q s s' : str) : is_suffix s s' -> is_suffix (q ++ s) s'.
Proof. intros [q' ->]. exists (q ++ q'). apply app_assoc. Qed.

Lemma group_id_yields : yields finds_id group_id.
Proof.
  intros s g. unfold group_id.
  destruct (match_id s) as [[g' rest]|] eqn:H; [|discriminate].
  intros Heq; inversion Heq; subst. apply match_id_spec in H.
  destruct H as [-> Hid]. split; [assumption | exists [], rest; reflexivity].
Qed.

Lemma strip_prefix_yields (p : str) : yields is_suffix (strip_prefix p).
Proof. intros s s' H. exists p. apply strip_prefix_spec, H. Qed.

Lemma pattern_url_yields : yields finds_id pattern_url.
Proof.
  unfold pattern_url.
  apply (@optional_yields _ _ finds_id_mono).
  - intros s s'.
    apply (@literal_yields _ _ is_suffix_mono "http").
    apply (@optional_yields _ _ is_suffix_mono); apply strip_prefix_yields.
  - apply (@optional_yields _ _ finds_id_mono); [apply strip_prefix_yields|].
    apply (@literal_yields _ _ finds_id_mono).
    assert (Hform : forall p, yields finds_id (literal p (literal "/" group_id))).
    { intros p. apply (@literal_yields _ _ finds_id_mono).
      apply (@literal_yields _ _ finds_id_mono). apply group_id_yields. }
    intros s g.
    destruct (literal "abs" (literal "/" group_id) s) as [g'|] eqn:Habs.
    + intros H; inversion H; subst. apply (Hform "abs" _ _ Habs).
    + apply (Hform "pdf").
Qed.

Lemma pattern_prefixed_yields : yields finds_id pattern_prefixed.
Proof.
  unfold pattern_prefixed.
  apply (@optional_yields _ _ finds_id_mono);
    [apply strip_prefix_yields | apply group_id_yields].
Qed.

Lemma pattern_bare_yields : yields finds_id pattern_bare.
Proof.
  intros s g. unfold pattern_bare.
  destruct (match_id s) as [[g' rest]|] eqn:H; [|discriminate].
  apply match_id_spec in H. destruct H as [-> Hid].
  destruct rest as [|c [|? ?]]; try discriminate.
  - intros Heq; inversion Heq; subst. split; [assumption | exists [], []; reflexivity].
  - destruct (Ascii.eqb c "010"); [|discriminate].
    intros Heq; inversion Heq; subst. split; [assumption | exists [], [c]; reflexivity].
Qed.

Lemma parse_id_finds (input_str g : str) :
  parse_id input_str = Some g -> finds_id (str_lower input_str) g.
Proof.
  unfold parse_id.
  destruct (re_search pattern_url (str_lower input_str)) as [g1|] eqn:H1.
  { intros H; inversion H; subst. apply re_search_spec in H1.
    destruct H1 as (pre & t & -> & Ht). apply finds_id_mono, pattern_url_yields, Ht. }
  destruct (re_search pattern_prefixed (str_lower input_str)) as [g2|] eqn:H2.
  { intros H; inversion H; subst. apply re_search_spec in H2.
    destruct H2 as (pre & t & -> & Ht). apply finds_id_mono, pattern_prefixed_yields, Ht. }
  apply pattern_bare_yields.
Qed.

(** X1.  What [parse_id] returns has the shape of an identifier and occurs
    in the input put in lower case. *)
Theorem parse_id_sound (input_str g : str) :
  parse_id input_str = Some g ->
  is_arxiv_id g /\ occurs_in g (str_lower input_str).
Proof. exact (@parse_id_finds input_str g). Qed.

Lemma parse_id_sound_witness :
  parse_id "arXiv:2301.12345v2" = Some ("2301.12345v2" : str)
  /\ is_arxiv_id "2301.12345v2"
  /\ occurs_in "2301.12345v2" (str_lower "arXiv:2301.12345v2").
Proof.
  split; [reflexivity|].
  apply (@parse_id_sound "arXiv:2301.12345v2" "2301.12345v2"). reflexivity.
Defined.

Lemma optional_finds (A : Type) (p : str -> option str) (rest : str -> option A)
    (s : str) (a : A) :
  rest s = Some a -> exists a', optional p rest s = Some a'.
Proof.
  intros H. unfold optional. destruct (p s) as [s'|]; [|eauto].
  destruct (rest s'); eauto.
Qed.

Lemma match_id_core (ym num post : str) :
  digits ym -> List.length ym = 4 -> digits num -> List.length num = 4 ->
  exists g rest, match_id (ym ++ "." ++ num ++ post) = Some (g, rest).
Proof.
  intros Hym Hyml Hnum Hnuml. unfold match_id.
  rewrite (take_digits_complete _ Hym Hyml).
  cbn [list_ascii_of_string app]. rewrite Ascii.eqb_refl.
  rewrite (take_digits_complete _ Hnum Hnuml).
  destruct (match take_digits 1 post with
            | Some (d, rest) => (d, rest)
            | None => ([], post)
            end) as [fifth s3].
  destruct (match s3 with
            | v :: s' => _
            | [] => _
            end) as [version s4].
  eauto.
Qed.

Lemma digits_firstn (n : nat) (s : str) : digits s -> digits (firstn n s).
Proof.
  intros H. revert n. induction H as [|c s Hc Hs IH]; intros [|n]; cbn [firstn].
  - constructor.
  - constructor.
  - constructor.
  - constructor; [assumption | apply IH].
Qed.

(** X3.  [parse_id] fails exactly on the inputs that, put in lower case,
    hold four digits, a dot and four digits nowhere: the third pattern
    never decides, and a local path that holds such a run counts as an
    identifier. *)
Theorem parse_id_none_iff (input_str : str) :
  parse_id input_str = None <-> ~ holds_id_core (str_lower input_str).
Proof.
  split.
  - intros Hnone (pre & ym & num & post & Heq & Hym & Hyml & Hnum & Hnuml).
    destruct (match_id_core post Hym Hyml Hnum Hnuml) as (g & rest & Hm).
    assert (Hg : group_id (ym ++ "." ++ num ++ post) = Some g)
      by (unfold group_id; rewrite Hm; reflexivity).
    destruct (optional_finds (strip_prefix "arxiv:") group_id _ Hg) as [g1 Hg1].
    destruct (@re_search_finds pattern_prefixed pre _ g1 Hg1) as [g2 Hg2].
    unfold parse_id in Hnone. rewrite Heq in Hnone.
    destruct (re_search pattern_url _); [discriminate|].
    rewrite Hg2 in Hnone. discriminate.
  - intros Hno. destruct (parse_id input_str) as [g|] eqn:Hp; [|reflexivity].
    exfalso. apply Hno. apply parse_id_finds in Hp.
    destruct Hp as [(ym & num & version & -> & Hym & Hyml & Hnum & Hnuml & _)
                    (pre & post & Heq)].
    exists pre, ym, (firstn 4 num), (skipn 4 num ++ version ++ post).
    split.
    + rewrite Heq. rewrite <- (firstn_skipn 4 num) at 1.
      cbn [list_ascii_of_string app]. rewrite <- !app_assoc. cbn [app].
      rewrite <- !app_assoc. reflexivity.
    + split; [assumption|]. split; [assumption|].
      split; [apply digits_firstn; assumption|].
      rewrite length_firstn. lia.
Qed.

Lemma lower_char_idempotent (c : ascii) : lower_char (lower_char c) = lower_char c.
Proof. destruct c as [[] [] [] [] [] [] [] []]; vm_compute; reflexivity. Qed.

Lemma str_lower_idempotent (s : str) : str_lower (str_lower s) = str_lower s.
Proof.
  unfold str_lower. rewrite map_map. apply map_ext. apply lower_char_idempotent.
Qed.

Lemma lower_char_digit (c : ascii) : isdigit c = true -> lower_char c = c.
Proof. destruct c as [[] [] [] [] [] [] [] []]; vm_compute; congruence. Qed.

Lemma str_lower_digits (s : str) : digits s -> str_lower s = s.
Proof.
  induction 1 as [|c s Hc Hs IH]; [reflexivity|].
  cbn [str_lower map]. rewrite (lower_char_digit _ Hc). f_equal. exact IH.
Qed.

Lemma str_lower_app (a b : str) : str_lower (a ++ b) = str_lower a ++ str_lower b.
Proof. apply map_app. Qed.

Lemma str_lower_id (g : str) : is_arxiv_id g -> str_lower g = g.
Proof.
  intros (ym & num & version & -> & Hym & _ & Hnum & _ & Hver).
  rewrite !str_lower_app, (str_lower_digits Hym), (str_lower_digits Hnum).
  destruct Hver as [-> | (ds & -> & _ & Hds)]; [reflexivity|].
  change (str_lower ("v"%char :: ds)) with ("v"%char :: str_lower ds).
  rewrite (str_lower_digits Hds). reflexivity.
Qed.

Lemma id_chars (g : str) : is_arxiv_id g -> Forall id_char g.
Proof.
  intros (ym & num & version & -> & Hym & _ & Hnum & _ & Hver).
  assert (Hd : forall s, digits s -> Forall id_char s).
  { intros s Hs. eapply Forall_impl; [|exact Hs]. intros c Hc. left; exact Hc. }
  apply Forall_app. split; [auto|]. cbn [list_ascii_of_string app].
  constructor; [right; left; reflexivity|].
  apply Forall_app. split; [auto|].
  destruct Hver as [-> | (ds & -> & _ & Hds)]; [constructor|].
  constructor; [right; right; reflexivity | auto].
Qed.

Lemma pattern_url_id_char (c : ascii) (t : str) : id_char c -> pattern_url (c :: t) = None.
Proof.
  intros Hc.
  assert (Hh : Ascii.eqb "h" c = false /\ Ascii.eqb "w" c = false /\ Ascii.eqb "a" c = false).
  { destruct Hc as [Hc | [-> | ->]]; [|repeat split; reflexivity ..].
    repeat split; apply Ascii.eqb_neq; intros <-; discriminate Hc. }
  destruct Hh as (Hh & Hw & Ha).
  unfold pattern_url, optional, literal, strip_prefix.
  cbn [list_ascii_of_string startswith]. rewrite Hh, Hw, Ha. reflexivity.
Qed.

Lemma re_search_url_id_chars (t : str) : Forall id_char t -> re_search pattern_url t = None.
Proof.
  induction 1 as [|c t Hc Ht IH]; [reflexivity|].
  rewrite re_search_skip by (apply pattern_url_id_char, Hc). exact IH.
Qed.

Arguments group_id : simpl never.

Lemma parse_id_prefixed (prefix g : str) :
  In (str_lower prefix) accepted_prefixes -> is_arxiv_id g ->
  parse_id (prefix ++ g) = Some g.
Proof.
  intros Hin Hid.
  assert (Hg : group_id g = Some g)
    by (unfold group_id; rewrite (match_id_complete Hid); reflexivity).
  assert (Hnone := re_search_url_id_chars (id_chars Hid)).
  unfold parse_id. rewrite str_lower_app, (str_lower_id Hid).
  unfold accepted_prefixes in Hin. cbn [In] in Hin.
  repeat (destruct Hin as [<- | Hin]); try contradiction.
  1:{ cbn [app]. rewrite Hnone.
      rewrite (@re_search_here pattern_prefixed g g); [reflexivity|].
      unfold pattern_prefixed, optional.
      destruct (strip_prefix "arxiv:" g) as [s'|] eqn:Hs; [|exact Hg].
      exfalso. apply strip_prefix_spec in Hs. pose proof (id_chars Hid) as Hc.
      rewrite Hs in Hc. inversion Hc as [|? ? Ha _].
      destruct Ha as [Ha | [Ha | Ha]]; discriminate Ha. }
  1:{ cbn [list_ascii_of_string app].
      do 6 (rewrite re_search_skip by reflexivity). rewrite Hnone.
      rewrite (@re_search_here pattern_prefixed _ g); [reflexivity|].
      unfold pattern_prefixed, optional, strip_prefix.
      cbn. rewrite Hg. reflexivity. }
  all: rewrite (@re_search_here pattern_url _ g); [reflexivity|];
    unfold pattern_url, optional, literal, strip_prefix; cbn; rewrite Hg; reflexivity.
Qed.




(** X4.  An identifier that [parse_id] returned is returned again when it
    is parsed itself: the result is in normal form. *)
Theorem parse_id_idempotent (input_str g : str) :
  parse_id input_str = Some g -> parse_id g = Some g.
Proof.
  intros H. apply parse_id_finds in H. destruct H as [Hid _].
  apply (@parse_id_prefixed [] g); [left; reflexivity | exact Hid].
Qed.

Lemma parse_id_idempotent_witness :
  parse_id "https://arxiv.org/pdf/2301.12345v2" = Some ("2301.12345v2" : str)
  /\ parse_id "2301.12345v2" = Some ("2301.12345v2" : str).
Proof.
  split; [reflexivity|].
  apply (@parse_id_idempotent "https://arxiv.org/pdf/2301.12345v2" "2301.12345v2").
  reflexivity.
Defined.

(* ================================================================= *)
(** ** The identifier resolver: [get_metadata] and [download_paper] *)

Section Metadata.
Context {E : Externals}.

(** [get_metadata] in closed form: it asks once, changes nothing and
    returns. *)
Lemma get_metadata_eq (document_id : str) (s : state) :
  get_metadata document_id s =
  (Ret match queried_entry document_id (world s) with
       | Some entry =>
           match title_elem entry with
           | Some (Some text) => (Some (normalize_title text), entry_category entry)
           | Some None => (None, None)
           | None => (None, entry_category entry)
           end
       | None => (None, None)
       end,
   {| world := world s; trace := trace s ++ [Query (api_url document_id)] |}).
Proof.
  destruct s as [w tr]. unfold get_metadata, queried_entry, api_url, normalize_title,
    entry_category.
  cbv [bind try_except emit read ret raise world trace].
  destruct (ext_arxiv_query _ w) as [[[[[[text|]|] category]|]]|];
    cbn [feed_entry title_elem primary_category is_Exception truthy_opt value];
    try reflexivity.
  destruct (truthy (str_strip text)); reflexivity.
Qed.

(** X5.  [get_metadata] never raises and changes nothing: it leaves one
    query in the trace, and it returns no title and no category when the
    query fails, when the feed has no entry and when the title element has
    no text. *)
Theorem get_metadata_never_raises (document_id : str) (s : state) :
  exists title category,
    get_metadata document_id s
    = (Ret (title, category),
       {| world := world s; trace := trace s ++ [Query (api_url document_id)] |})
    /\ (queried_entry document_id (world s) = None -> title = None /\ category = None)
    /\ (forall entry, queried_entry document_id (world s) = Some entry ->
          title_elem entry = Some None -> title = None /\ category = None)
    /\ (forall entry, queried_entry document_id (world s) = Some entry ->
          title_elem entry <> Some None -> category = entry_category entry).
Proof.
  rewrite get_metadata_eq.
  destruct (queried_entry document_id (world s)) as [entry|].
  - destruct (title_elem entry) as [[text|]|] eqn:Ht; do 2 eexists;
      (split; [reflexivity|]); (split; [discriminate|]);
      (split; intros e He; inversion He; subst e; rewrite Ht; intros H;
       try discriminate H; try contradiction; auto).
  - do 2 eexists. split; [reflexivity|]. split; [auto|].
    split; intros e He; discriminate He.
Qed.

Lemma normalize_title_fixed (text : str) :
  str_join " " (str_split (normalize_title text)) = normalize_title text
  /\ str_strip (normalize_title text) = normalize_title text.
Proof.
  unfold normalize_title. destruct (truthy (str_strip text)) eqn:Ht.
  - pose proof (split_words (str_strip text)) as Hw.
    rewrite (split_join Hw), (strip_join Hw). split; reflexivity.
  - destruct (str_strip text); [split; reflexivity | discriminate Ht].
Qed.

(** X6.  A title that [get_metadata] returns is in one line: it has no
    whitespace at its ends, and between its words single spaces only. *)
Theorem get_metadata_title_normalized (document_id : str) (s : state)
    (title : str) (category : option str) (s' : state) :
  get_metadata document_id s = (Ret (Some title, category), s') ->
  str_join " " (str_split title) = title /\ str_strip title = title.
Proof.
  rewrite get_metadata_eq. intros H. inversion H as [[Hv Hs]]. clear H Hs.
  destruct (queried_entry document_id (world s)) as [entry|]; [|discriminate].
  destruct (title_elem entry) as [[text|]|]; try discriminate.
  inversion Hv; subst. apply normalize_title_fixed.
Qed.

Lemma split_on_head (sep : ascii) (w cur rest : str) :
  Forall (fun c => c <> sep) w ->
  split_on sep cur (w ++ sep :: rest) = rev (rev w ++ cur) :: split_on sep [] rest.
Proof.
  revert cur. induction w as [|c w IH]; intros cur Hw; cbn [app split_on rev].
  - rewrite Ascii.eqb_refl. reflexivity.
  - inversion Hw as [|? ? Hc Hw']; subst.
    destruct (Ascii.eqb c sep) eqn:Heq; [apply Ascii.eqb_eq in Heq; contradiction|].
    rewrite IH by assumption. cbn [rev]. rewrite <- app_assoc. reflexivity.
Qed.

Lemma split_on_whole (sep : ascii) (w cur : str) :
  Forall (fun c => c <> sep) w -> split_on sep cur w = [rev (rev w ++ cur)].
Proof.
  revert cur. induction w as [|c w IH]; intros cur Hw; cbn [app split_on rev].
  - reflexivity.
  - inversion Hw as [|? ? Hc Hw']; subst.
    destruct (Ascii.eqb c sep) eqn:Heq; [apply Ascii.eqb_eq in Heq; contradiction|].
    rewrite IH by assumption. cbn [rev]. rewrite <- app_assoc. reflexivity.
Qed.

Lemma category_map_keys (k v : str) :
  In (k, v) category_map ->
  dict_get k category_map = Some v /\ Forall (fun c => c <> "."%char) k.
Proof.
  unfold category_map. cbn [In]. intros H.
  repeat (destruct H as [H | H];
          [inversion H; subst; split; [reflexivity | repeat constructor; discriminate]|]).
  destruct H.
Qed.

(** X7.  The subject of the metadata decides the category by its part
    before the first dot alone: a term that starts with a key of the table,
    alone or followed by a dot and anything, gives the name the table has
    for the key. *)
Theorem get_metadata_known_subject (document_id : str) (s : state) (entry : Entry)
    (k v term : str) :
  queried_entry document_id (world s) = Some entry ->
  title_elem entry <> Some None ->
  primary_category entry = Some (Some term) ->
  In (k, v) category_map ->
  (term = k \/ exists sub, term = k ++ "." ++ sub) ->
  exists title s', get_metadata document_id s = (Ret (title, Some v), s').
Proof.
  intros Hq Ht Hc Hin Hterm. rewrite get_metadata_eq, Hq.
  destruct (category_map_keys Hin) as [Hget Hk].
  assert (Hcat : entry_category entry = Some v).
  { unfold entry_category. rewrite Hc. cbn [value].
    assert (Hhd : hd [] (split_on "." [] term) = k).
    { destruct Hterm as [-> | [sub ->]].
      - rewrite (split_on_whole [] Hk). cbn [hd]. rewrite app_nil_r. apply rev_involutive.
      - cbn [list_ascii_of_string app]. rewrite (split_on_head [] sub Hk).
        cbn [hd]. rewrite app_nil_r. apply rev_involutive. }
    cbv zeta. rewrite Hhd, Hget. reflexivity. }
  destruct (title_elem entry) as [[text|]|]; [| contradiction |];
    rewrite Hcat; do 2 eexists; reflexivity.
Qed.

Lemma split_on_fields (sep : ascii) (s cur : str) :
  Forall (fun c => c <> sep) cur ->
  Forall (Forall (fun c => c <> sep)) (split_on sep cur s).
Proof.
  revert cur. induction s as [|c s IH]; intros cur Hcur; cbn [split_on].
  - constructor; [apply Forall_rev; assumption | constructor].
  - destruct (Ascii.eqb c sep) eqn:Heq.
    + constructor; [apply Forall_rev; assumption | apply IH; constructor].
    + apply IH. constructor; [|assumption].
      intros ->. rewrite Ascii.eqb_refl in Heq. discriminate.
Qed.

Lemma replace_from_deletes (c : ascii) (s : str) :
  replace_from [c] [] 0 s = filter (fun x => negb (Ascii.eqb c x)) s.
Proof.
  induction s as [|x s IH]; [reflexivity|].
  cbn [replace_from startswith List.length Nat.sub filter].
  destruct (Ascii.eqb c x); cbn [andb negb app]; rewrite IH; reflexivity.
Qed.

Lemma replace_hyphen (s : str) :
  str_replace "-" "" s = filter (fun x => negb (Ascii.eqb "-" x)) s.
Proof. exact (replace_from_deletes "-" s). Qed.

Lemma category_map_values (k v : str) :
  dict_get k category_map = Some v ->
  Forall (fun c => c <> "."%char /\ c <> "-"%char) v.
Proof.
  unfold category_map. cbn [dict_get].
  repeat (destruct (str_eqb _ k);
          [intros H; inversion H; subst; repeat constructor; discriminate|]).
  discriminate.
Qed.

(** X8.  A category that [get_metadata] returns holds no dot and no
    hyphen, whether the table gave it or the subject went through with its
    hyphens taken out. *)
Theorem get_metadata_category_chars (document_id : str) (s : state)
    (title : option str) (category : str) (s' : state) :
  get_metadata document_id s = (Ret (title, Some category), s') ->
  Forall (fun c => c <> "."%char /\ c <> "-"%char) category.
Proof.
  rewrite get_metadata_eq. intros H. inversion H as [[Hv Hs]]. clear H Hs.
  assert (Hcat : forall entry, entry_category entry = Some category ->
                 Forall (fun c => c <> "."%char /\ c <> "-"%char) category).
  { intros entry. unfold entry_category.
    destruct (primary_category entry) as [term|]; [|discriminate]. cbv zeta.
    destruct (dict_get _ category_map) as [name|] eqn:Hget.
    - intros Heq; inversion Heq; subst. eapply category_map_values, Hget.
    - intros [= <-]. rewrite replace_from_deletes.
      pose proof (@split_on_fields "." (value term) [] (Forall_nil _)) as Hf.
      assert (Hhd : Forall (fun c => c <> "."%char) (hd [] (split_on "." [] (value term)))).
      { destruct (split_on "." [] (value term)); [constructor|].
        inversion Hf; assumption. }
      apply Forall_forall. intros c Hc. apply filter_In in Hc. destruct Hc as [Hc Hne].
      rewrite Forall_forall in Hhd. split; [apply Hhd, Hc|].
      intros ->. discriminate Hne. }
  destruct (queried_entry document_id (world s)) as [entry|]; [|discriminate].
  destruct (title_elem entry) as [[text|]|]; try discriminate;
    inversion Hv; subst; eapply Hcat; eauto.
Qed.

Lemma replace_from_absent (c : ascii) (new s : str) :
  Forall (fun x => x <> c) s -> replace_from [c] new 0 s = s.
Proof.
  induction 1 as [|x s Hx Hs IH]; [reflexivity|].
  cbn [replace_from startswith List.length Nat.sub].
  destruct (Ascii.eqb c x) eqn:Heq; [apply Ascii.eqb_eq in Heq; congruence|].
  cbn [andb]. rewrite IH. reflexivity.
Qed.

Lemma id_no_slash (g : str) : is_arxiv_id g -> str_replace "/" "_" g = g.
Proof.
  intros Hid. apply (@replace_from_absent "/" "_" g).
  eapply Forall_impl; [|exact (id_chars Hid)].
  intros c [Hc | [Hc | Hc]] Hs; subst c; discriminate.
Qed.

Lemma id_truthy (g : str) : is_arxiv_id g -> truthy g = true.
Proof.
  intros (ym & num & version & -> & _ & Hl & _). destruct ym; [discriminate Hl | reflexivity].
Qed.

Lemma download_paper_id_eq (document_id : str) (s : state) :
  is_arxiv_id document_id ->
  let path := "/tmp/arxiv_" ++ document_id ++ ".pdf" in
  let url := "https://arxiv.org/pdf/" ++ document_id ++ ".pdf" in
  download_paper document_id None s
  = (Ret (if fst (ext_urlretrieve url (Some path) (world s)) then Some path else None),
     {| world := snd (ext_urlretrieve url (Some path) (world s));
        trace := trace s ++ [Download url (Some path)] |}).
Proof.
  intros Hid. destruct s as [w tr]. unfold download_paper.
  rewrite (id_no_slash Hid), (id_truthy Hid).
  cbv [bind emit act ret world trace truthy_opt negb andb].
  destruct (ext_urlretrieve _ _ w) as [[|] w']; reflexivity.
Qed.

(** X9.  For an identifier that [parse_id] gave, [download_paper] with no
    path given asks for the document at the address made of the identifier
    and saves it under [/tmp/arxiv_<identifier>.pdf]; it returns that path
    when the transfer succeeds and [None] when it fails, and never raises. *)
Theorem download_paper_of_parsed_id (input_str document_id : str) (s : state) :
  parse_id input_str = Some document_id ->
  let path := "/tmp/arxiv_" ++ document_id ++ ".pdf" in
  let url := "https://arxiv.org/pdf/" ++ document_id ++ ".pdf" in
  download_paper document_id None s
  = (Ret (if fst (ext_urlretrieve url (Some path) (world s)) then Some path else None),
     {| world := snd (ext_urlretrieve url (Some path) (world s));
        trace := trace s ++ [Download url (Some path)] |}).
Proof.
  intros H. apply parse_id_finds in H. destruct H as [Hid _].
  exact (download_paper_id_eq s Hid).
Qed.

End Metadata.

Lemma get_metadata_title_normalized_witness :
  @get_metadata sim_externals "2301.12345" (sim_init sim_two_line_title)
  = (Ret (Some ("Attention Is All You Need" : str), Some ("HighEnergyPhysics" : str)),
     snd (@get_metadata sim_externals "2301.12345" (sim_init sim_two_line_title)))
  /\ str_join " " (str_split "Attention Is All You Need") = "Attention Is All You Need"
  /\ str_strip "Attention Is All You Need" = "Attention Is All You Need".
Proof.
  split; [vm_compute; reflexivity|].
  apply (@get_metadata_title_normalized sim_externals "2301.12345"
           (sim_init sim_two_line_title) "Attention Is All You Need"
           (Some ("HighEnergyPhysics" : str))
           (snd (@get_metadata sim_externals "2301.12345" (sim_init sim_two_line_title)))).
  vm_compute; reflexivity.
Defined.

Lemma get_metadata_known_subject_witness :
  exists title s',
    @get_metadata sim_externals "2301.12345" (sim_init sim_two_line_title)
    = (Ret (title, Some ("HighEnergyPhysics" : str)), s').
Proof.
  apply (@get_metadata_known_subject sim_externals "2301.12345"
           (sim_init sim_two_line_title)
           {| title_elem := Some (Some ("  Attention Is" ++ newline ++ "   All You  Need " : str));
              primary_category := Some (Some ("hep-th" : str)) |}
           "hep-th" "HighEnergyPhysics" "hep-th").
  - reflexivity.
  - discriminate.
  - reflexivity.
  - cbn; auto 20.
  - left; reflexivity.
Defined.

Lemma get_metadata_category_chars_witness :
  @get_metadata sim_externals "2301.12345" (sim_init sim_unknown_subject)
  = (Ret (Some ("Untitled" : str), Some ("xray" : str)),
     snd (@get_metadata sim_externals "2301.12345" (sim_init sim_unknown_subject)))
  /\ Forall (fun c => c <> "."%char /\ c <> "-"%char) ("xray" : str).
Proof.
  split; [vm_compute; reflexivity|].
  apply (@get_metadata_category_chars sim_externals "2301.12345"
           (sim_init sim_unknown_subject) (Some ("Untitled" : str)) "xray"
           (snd (@get_metadata sim_externals "2301.12345" (sim_init sim_unknown_subject)))).
  vm_compute; reflexivity.
Defined.

Lemma download_paper_of_parsed_id_witness :
  parse_id "arXiv:2301.12345v2" = Some ("2301.12345v2" : str)
  /\ exists w',
      @download_paper sim_externals "2301.12345v2" None (sim_init sim_download_fails)
      = (Ret None,
         {| world := w';
            trace := [Download "https://arxiv.org/pdf/2301.12345v2.pdf"
                               (Some ("/tmp/arxiv_2301.12345v2.pdf" : str))] |}).
Proof.
  split; [reflexivity|]. eexists.
  rewrite (@download_paper_of_parsed_id sim_externals "arXiv:2301.12345v2" "2301.12345v2"
             (sim_init sim_download_fails)); [|reflexivity].
  vm_compute. reflexivity.
Defined.

(* ================================================================= *)
(** ** The filename normalizer and the title shortener: further properties *)

Lemma safe_char_not_space (c : ascii) : safe_char c -> isspace c = false.
Proof.
  intros [H | [-> | ->]]; [apply alnum_not_space, H | reflexivity | reflexivity].
Qed.

Lemma safe_char_filename_char (c : ascii) : safe_char c -> filename_char c = true.
Proof.
  unfold filename_char. intros [-> | [-> | ->]]; reflexivity.
Qed.

Lemma safe_word_is_word (w : str) : safe_word w -> is_word w.
Proof.
  intros [Hne Hc]. split; [assumption|].
  eapply Forall_impl; [|exact Hc]. apply safe_char_not_space.
Qed.

Lemma filename_char_safe (c : ascii) :
  filename_char c = true -> isspace c = false -> safe_char c.
Proof.
  unfold filename_char, safe_char. intros H Hs.
  destruct (isalnum c); [left; reflexivity|]. cbn [orb] in H.
  destruct (Ascii.eqb c " ") eqn:Hsp.
  - apply Ascii.eqb_eq in Hsp. subst c. discriminate Hs.
  - cbn [orb] in H. destruct (Ascii.eqb c "-") eqn:Hh.
    + apply Ascii.eqb_eq in Hh. auto.
    + cbn [orb] in H. apply Ascii.eqb_eq in H. auto.
Qed.

Lemma word_char_safe (c : ascii) :
  word_char c = true -> isspace c = false -> safe_char c.
Proof.
  unfold word_char, safe_char. intros H Hs. rewrite Hs in H.
  destruct (isalnum c); [left; reflexivity|]. cbn [orb] in H.
  destruct (Ascii.eqb c "_") eqn:Hu.
  - apply Ascii.eqb_eq in Hu. auto.
  - cbn [orb] in H. apply Ascii.eqb_eq in H. auto.
Qed.

Lemma words_safe (ws : list str) (f : ascii -> bool) :
  (forall c, f c = true -> isspace c = false -> safe_char c) ->
  Forall is_word ws -> Forall (Forall (fun c => f c = true)) ws ->
  Forall safe_word ws.
Proof.
  intros Hf Hw Hc. induction Hw as [|w ws [Hne Hns] Hws IH]; [constructor|].
  inversion Hc as [|? ? Hcw Hcs]; subst. constructor; [|auto].
  split; [assumption|]. unfold no_space in Hns.
  rewrite Forall_forall in *. intros c Hin. apply Hf; auto.
Qed.

Lemma safe_title_clean (title : str) : clean_title (safe_title_of title).
Proof.
  destruct (safe_title_words title) as [Hw Hc].
  eexists. split; [reflexivity|].
  eapply words_safe; [apply filename_char_safe | exact Hw | exact Hc].
Qed.

Lemma clean_title_fixed (title : str) :
  clean_title title -> safe_title_of title = title.
Proof.
  intros (ws & -> & Hws).
  assert (Hw : Forall is_word ws)
    by (eapply Forall_impl; [|exact Hws]; apply safe_word_is_word).
  assert (Hf : filter filename_char (str_join " " ws) = str_join " " ws).
  { apply filter_all.
    apply (@join_chars (fun c => filename_char c = true)); [reflexivity|].
    eapply Forall_impl; [|exact Hws]. intros w [_ Hc].
    eapply Forall_impl; [|exact Hc]. apply safe_char_filename_char. }
  unfold safe_title_of. rewrite Hf, strip_join, split_join by assumption. reflexivity.
Qed.

(** X10.  The name that [generate_formatted_filename] gives is a clean
    title followed by [.pdf]: words of letters, digits, hyphens and
    underscores with single spaces between them.  The titles that it
    leaves as they are, but for the extension, are exactly the clean ones. *)
Theorem generate_formatted_filename_clean (title : str) :
  (exists name, generate_formatted_filename title = name ++ ".pdf" /\ clean_title name)
  /\ (generate_formatted_filename title = title ++ ".pdf" <-> clean_title title).
Proof.
  rewrite generate_formatted_filename_eq. split.
  - exists (safe_title_of title). split; [reflexivity | apply safe_title_clean].
  - split.
    + intros H. apply app_inv_tail in H. rewrite <- H. apply safe_title_clean.
    + intros H. rewrite (clean_title_fixed H). reflexivity.
Qed.

(** The kept words are cleaned tokens of the title. *)
Lemma keep_key_words_from (max_words : Z) (words key_words : list str) (P : str -> Prop) :
  Forall P key_words -> Forall (fun w => P (clean w)) words ->
  Forall P (keep_key_words max_words words key_words).
Proof.
  revert key_words. induction words as [|word rest IH]; intros kw Hkw Hws;
    cbn [keep_key_words]; [assumption|].
  inversion Hws as [|? ? Hw Hrest]; subst.
  destruct (negb _ && _); [|apply IH; assumption].
  assert (Hkw' : Forall P (kw ++ [clean word]))
    by (apply Forall_app; split; [assumption | constructor; [assumption | constructor]]).
  destruct (_ >=? _)%Z; [assumption | apply IH; assumption].
Qed.

Lemma add_words_back_from (words key_words : list str) (P : str -> Prop) :
  Forall P key_words -> Forall (fun w => P (clean w)) words ->
  Forall P (add_words_back words key_words).
Proof.
  revert key_words. induction words as [|word rest IH]; intros kw Hkw Hws;
    cbn [add_words_back]; [assumption|].
  inversion Hws as [|? ? Hw Hrest]; subst.
  destruct (truthy _ && _); [|apply IH; assumption].
  assert (Hkw' : Forall P (kw ++ [clean word]))
    by (apply Forall_app; split; [assumption | constructor; [assumption | constructor]]).
  destruct (_ >=? _)%Z; [assumption | apply IH; assumption].
Qed.

Lemma shorten_key_words_from (title : str) (max_words : Z) (P : str -> Prop) :
  Forall (fun w => P (clean w)) (str_split title) ->
  Forall P (shorten_key_words title max_words).
Proof.
  intros H. unfold shorten_key_words.
  assert (Hk : Forall P (keep_key_words max_words (str_split title) []))
    by (apply keep_key_words_from; [constructor | assumption]).
  destruct (_ && _); [apply add_words_back_from; assumption | assumption].
Qed.

Lemma shorten_key_words_safe (title : str) (max_words : Z) :
  Forall safe_word (shorten_key_words title max_words).
Proof.
  eapply words_safe; [apply word_char_safe | apply shorten_key_words_words |].
  apply shorten_key_words_from.
  apply Forall_forall. intros w _. unfold clean.
  apply Forall_forall. intros c Hc. apply filter_In in Hc. tauto.
Qed.

(** X11.  A shortened title is a clean title: its words are tokens of the
    title with their punctuation taken out, and
    [generate_formatted_filename] adds the extension to it and changes
    nothing else. *)
Theorem shorten_title_then_filename (title : str) (max_words : Z) :
  let short_title := shorten_title_for_filename title max_words in
  Forall (fun w => exists word, In word (str_split title) /\ w = clean word)
         (str_split short_title)
  /\ generate_formatted_filename short_title = short_title ++ ".pdf".
Proof.
  cbv zeta. split.
  - rewrite shorten_tokens. apply shorten_key_words_from.
    apply Forall_forall. intros w Hw. exists w. split; [assumption | reflexivity].
  - rewrite generate_formatted_filename_eq. f_equal. apply clean_title_fixed.
    exists (shorten_key_words title max_words). split; [reflexivity|].
    apply shorten_key_words_safe.
Qed.

(** The first loop keeps the key words in their order, and stops once it
    has [max_words] of them, though not before it has added one. *)
Lemma keep_key_words_firstn (max_words : Z) (words key_words : list str) :
  keep_key_words max_words words key_words
  = key_words
    ++ firstn (Z.to_nat (Z.max 1 (max_words - len key_words)))
              (filter is_key_word (map clean words)).
Proof.
  revert key_words. induction words as [|word rest IH]; intros kw;
    cbn [keep_key_words map filter].
  - rewrite firstn_nil, app_nil_r. reflexivity.
  - fold (is_key_word (clean word)). destruct (is_key_word (clean word)); [|apply IH].
    rewrite Z.geb_leb.
    destruct (Z.leb_spec max_words (len (kw ++ [clean word]))) as [Hle | Hlt];
      rewrite len_snoc in *.
    + replace (Z.max 1 (max_words - len kw)) with 1%Z by lia.
      cbn [Z.to_nat Pos.to_nat Pos.iter_op firstn]. reflexivity.
    + rewrite IH, len_snoc, <- app_assoc. cbn [app]. f_equal.
      replace (Z.to_nat (Z.max 1 (max_words - len kw)))
        with (S (Z.to_nat (Z.max 1 (max_words - (len kw + 1))))) by lia.
      reflexivity.
Qed.

(** X12.  With room for three words or more and three key words or more in
    the title, the shortened title is the first [max_words] key words in
    their order, with single spaces between them: no stop word is put
    back. *)
Theorem shorten_title_keeps_first_key_words (title : str) (max_words : Z) :
  (3 <= max_words)%Z -> 3 <= List.length (key_words_of title) ->
  shorten_title_for_filename title max_words
  = str_join " " (firstn (Z.to_nat max_words) (key_words_of title)).
Proof.
  intros Hmw Hk. unfold shorten_title_for_filename, shorten_key_words. f_equal.
  rewrite keep_key_words_firstn. change (len []) with 0%Z. cbn [app].
  rewrite Z.sub_0_r. replace (Z.max 1 max_words) with max_words by lia.
  fold (key_words_of title).
  assert (Hlen : (3 <= len (firstn (Z.to_nat max_words) (key_words_of title)))%Z).
  { unfold len. rewrite length_firstn. lia. }
  destruct (Z.ltb_spec (len (firstn (Z.to_nat max_words) (key_words_of title))) 3);
    [lia | reflexivity].
Qed.

Lemma shorten_title_keeps_first_key_words_witness :
  (3 <= 3)%Z
  /\ 3 <= List.length (key_words_of "Attention: Is All You Need, for the Transformers!")
  /\ shorten_title_for_filename "Attention: Is All You Need, for the Transformers!" 3
     = "Attention Is All".
Proof.
  split; [lia|]. split; [vm_compute; lia|].
  rewrite (@shorten_title_keeps_first_key_words
             "Attention: Is All You Need, for the Transformers!" 3);
    [vm_compute; reflexivity | lia | vm_compute; lia].
Defined.

(* ================================================================= *)
(** ** The pipeline: further properties *)

Lemma digit_not_dot (c : ascii) : isdigit c = true -> c <> "."%char.
Proof. intros H ->. discriminate H. Qed.

Lemma digit_not_p (c : ascii) : isdigit c = true -> c <> "p"%char.
Proof. intros H ->. discriminate H. Qed.

Lemma digits_no_dot (ds : str) : digits ds -> Forall (fun c => c <> "."%char) ds.
Proof. intros H. eapply Forall_impl; [|exact H]. apply digit_not_dot. Qed.

Lemma id_no_separator (g : str) : is_arxiv_id g -> Forall (fun c => c <> "/"%char) g.
Proof.
  intros Hid. eapply Forall_impl; [|exact (id_chars Hid)].
  intros c [Hc | [Hc | Hc]] Hs; subst c; discriminate.
Qed.

Lemma id_has_dot (g : str) : is_arxiv_id g -> In "."%char g.
Proof.
  intros (ym & num & version & -> & _). apply in_or_app. right. left. reflexivity.
Qed.

(** The name of the downloaded file is the last component of its path. *)
Lemma path_name_download (g : str) :
  is_arxiv_id g -> path_name ("/tmp/arxiv_" ++ g ++ ".pdf") = "arxiv_" ++ g ++ ".pdf".
Proof.
  intros Hid. unfold path_name, path_parts.
  assert (Hname : Forall (fun c => c <> "/"%char) ("arxiv_" ++ g ++ ".pdf")).
  { apply Forall_app. split; [repeat constructor; discriminate|].
    apply Forall_app. split; [apply id_no_separator, Hid|].
    repeat constructor; discriminate. }
  change ("/tmp/arxiv_" ++ g ++ ".pdf")
    with ([] ++ "/"%char :: ("tmp" ++ "/"%char :: ("arxiv_" ++ g ++ ".pdf"))).
  rewrite split_on_head by constructor.
  rewrite split_on_head by (repeat constructor; discriminate).
  rewrite (split_on_whole [] Hname).
  rewrite !app_nil_r, !rev_involutive. reflexivity.
Qed.

Lemma replace_from_skip (old new a b : str) (c : ascii) :
  Forall (fun x => x <> c) a ->
  replace_from (c :: old) new 0 (a ++ b) = a ++ replace_from (c :: old) new 0 b.
Proof.
  induction 1 as [|x a Hx Ha IH]; [reflexivity|].
  cbn [app replace_from startswith].
  destruct (Ascii.eqb c x) eqn:Heq; [apply Ascii.eqb_eq in Heq; congruence|].
  cbn [andb]. rewrite IH. reflexivity.
Qed.

Lemma replace_from_dot (d : ascii) (rest : str) :
  d <> "p"%char ->
  replace_from [".";"p";"d";"f"]%char [] 0 ("."%char :: d :: rest)
  = "."%char :: replace_from [".";"p";"d";"f"]%char [] 0 (d :: rest).
Proof.
  intros Hd. cbn [replace_from startswith]. rewrite Ascii.eqb_refl. cbn [andb].
  destruct (Ascii.eqb "p" d) eqn:Hp; [apply Ascii.eqb_eq in Hp; congruence|].
  reflexivity.
Qed.

(** Taking [.pdf] out of the name of the downloaded file takes the
    extension off and nothing else. *)
Lemma replace_pdf_download (g : str) :
  is_arxiv_id g -> str_replace ".pdf" "" ("arxiv_" ++ g ++ ".pdf") = "arxiv_" ++ g.
Proof.
  intros (ym & num & version & -> & Hym & _ & Hnum & Hnl & Hver).
  unfold str_replace. cbn [list_ascii_of_string].
  assert (Hv : Forall (fun c => c <> "."%char) version).
  { destruct Hver as [-> | (ds & -> & _ & Hds)]; [constructor|].
    constructor; [discriminate | apply digits_no_dot, Hds]. }
  destruct num as [|d num]; [destruct Hnl as [Hnl | Hnl]; discriminate Hnl|].
  assert (Hd : d <> "p"%char) by (inversion Hnum; subst; apply digit_not_p; assumption).
  rewrite <- !app_assoc.
  rewrite replace_from_skip by (repeat constructor; discriminate).
  rewrite replace_from_skip by (apply digits_no_dot, Hym).
  set (rest := version ++ [".";"p";"d";"f"]%char).
  change (["."%char] ++ (d :: num) ++ rest) with ("."%char :: d :: (num ++ rest)).
  rewrite (replace_from_dot _ Hd).
  change (d :: num ++ rest) with ((d :: num) ++ rest).
  rewrite replace_from_skip by (apply digits_no_dot, Hnum).
  unfold rest. rewrite replace_from_skip by exact Hv.
  cbn [replace_from startswith Ascii.eqb Bool.eqb andb List.length Nat.sub app].
  rewrite app_nil_r. reflexivity.
Qed.

(** The name of the downloaded file is never the formatted name: the
    identifier has a dot and the formatted title has none. *)
Lemma download_name_differs (g title : str) :
  is_arxiv_id g ->
  str_eqb ("arxiv_" ++ g ++ ".pdf") (generate_formatted_filename title) = false.
Proof.
  intros Hid. apply str_eqb_false. rewrite generate_formatted_filename_eq.
  rewrite app_assoc. intros H. apply app_inv_tail in H.
  pose proof (safe_title_no_dot title) as Hdot. rewrite <- H in Hdot.
  rewrite Forall_forall in Hdot.
  apply (Hdot "."%char); [|reflexivity].
  apply in_or_app. right. apply id_has_dot, Hid.
Qed.

Section PipelineExtras.
Context {E : Externals}.


Lemma ensure_directory_outcome (classification : str) (s : state) r s' :
  ensure_directory classification s = (r, s') ->
  exists t, extends s s' t
  /\ match r with
     | Ret true => Forall completed_call t
     | Ret false => True
     | Raise e =>
         exists t0 argv, t = t0 ++ [Subprocess argv None] /\ e = start_error argv
     end.
Proof.
  intros H. unfold ensure_directory in H.
  invert_run; try discriminate; trace_of_run.
  all: try exact I.
  all: try (repeat (apply Forall_cons;
                    [cbn; first [left; reflexivity | right; apply Z.eqb_eq; assumption]|]);
            apply Forall_nil).
  all: match goal with
       | |- exists t0 argv, ?l = _ /\ _ =>
           let ev := eval cbn in (last l (Analyze [])) in
           match ev with
           | Subprocess ?a None =>
               exists (removelast l), a; split;
               [ reflexivity
               | first [reflexivity | symmetry; apply start_error_can; reflexivity] ]
           end
       end.
Qed.

(** [upload_prepare] in closed form. *)
Lemma upload_prepare_eq (paper_path : str) (title classification output_file_name : option str)
    (s : state) :
  upload_prepare paper_path title classification output_file_name s =
  let settle (tc : str * str) (s1 : state) :=
    match ensure_directory (snd tc) s1 with
    | (Ret true, s2) =>
        (Ret (Some (snd tc,
                    if truthy_opt output_file_name then value output_file_name
                    else generate_formatted_filename (fst tc))), s2)
    | (Ret false, s2) => (Ret None, s2)
    | (Raise e, s2) => (Raise e, s2)
    end in
  if negb (ext_path_exists paper_path (world s)) then (Ret None, s)
  else if negb (truthy_opt title) || negb (truthy_opt classification)
  then
    match analyze_paper_with_claude paper_path s with
    | (Ret ct, s1) =>
        settle (if truthy_opt title then value title else snd ct,
                if truthy_opt classification then value classification else fst ct) s1
    | (Raise e, s1) => (Raise e, s1)
    end
  else settle (value title, value classification) s.
Proof.
  unfold upload_prepare. cbv [bind read ret]. cbv zeta.
  destruct (negb (ext_path_exists paper_path (world s))); [reflexivity|].
  destruct (negb (truthy_opt title) || negb (truthy_opt classification)).
  - destruct (analyze_paper_with_claude paper_path s) as [[ct|e] s1]; [|reflexivity].
    cbn [fst snd]. destruct (ensure_directory _ s1) as [[[|]|e] s2]; reflexivity.
  - cbn [fst snd]. destruct (ensure_directory _ s) as [[[|]|e] s2]; reflexivity.
Qed.

(** X13.  The classifier adapter asks the oracle once, or not at all: when
    it raises, for missing credentials or a document that cannot be read,
    it has asked nothing and changed nothing; when it returns, it has sent
    one request, with the first page of the document, or with the whole
    document when the first page could not be taken.  It never calls the
    bridge. *)
Theorem analyze_paper_with_claude_one_request (paper_path : str) (s : state) r s' :
  analyze_paper_with_claude paper_path s = (r, s') ->
  (exists e, r = Raise e
     /\ s' = {| world := world s; trace := trace s ++ [Analyze paper_path] |}
     /\ (truthy_opt (ext_getenv "ANTHROPIC_API_KEY" (world s)) = false
         \/ (ext_extract_first_page paper_path (world s) = None
             /\ ext_read_file paper_path (world s) = None)))
  \/ (exists v payload, r = Ret v
     /\ truthy_opt (ext_getenv "ANTHROPIC_API_KEY" (world s)) = true
     /\ (ext_extract_first_page paper_path (world s) = Some payload
         \/ (ext_extract_first_page paper_path (world s) = None
             /\ ext_read_file paper_path (world s) = Some payload))
     /\ s' = {| world := snd (ext_messages_create payload (world s));
                trace := trace s ++ [Analyze paper_path; Oracle payload] |}).
Proof.
  rewrite analyze_paper_with_claude_eq. cbv zeta. unfold payload_of.
  destruct (truthy_opt (ext_getenv "ANTHROPIC_API_KEY" (world s))); cbn [negb].
  - destruct (ext_extract_first_page paper_path (world s)) as [page|].
    + intros H; inversion H; subst. right. eexists; exists page.
      rewrite <- app_assoc. cbn [app]. repeat split; auto.
    + destruct (ext_read_file paper_path (world s)) as [file|];
        intros H; inversion H; subst.
      * right. eexists; exists file. rewrite <- app_assoc. cbn [app].
        repeat split; auto.
      * left. eexists. repeat split; auto.
  - intros H; inversion H; subst. left. eexists. repeat split; auto.
Qed.






Lemma no_argvs_completed (t : list event) : argvs t = [] -> Forall completed_call t.
Proof.
  induction t as [|e t IH]; [constructor|].
  destruct e; cbn; try discriminate; intros H; constructor; auto; exact I.
Qed.

Lemma upload_prepare_ready (paper_path : str)
    (title classification output_file_name : option str) (s : state) names s1 :
  upload_prepare paper_path title classification output_file_name s
    = (Ret (Some names), s1) ->
  exists t, extends s s1 t /\ Forall completed_call t.
Proof.
  rewrite upload_prepare_eq. cbv zeta.
  destruct (negb (ext_path_exists paper_path (world s))); [discriminate|].
  destruct (negb (truthy_opt title) || negb (truthy_opt classification)).
  - destruct (analyze_paper_with_claude paper_path s) as [[ct|e] sa] eqn:Ha;
      [|discriminate].
    apply analyze_paper_with_claude_summary in Ha.
    destruct Ha as (ta & Hexta & Hargv & _).
    destruct (ensure_directory _ sa) as [[[|]|e] s2] eqn:Hed; try discriminate.
    apply ensure_directory_outcome in Hed. destruct Hed as (t & Hext & Hall).
    intros H; inversion H; subst. exists (ta ++ t).
    split; [exact (extends_trans Hexta Hext)|].
    apply Forall_app. split; [apply no_argvs_completed, Hargv | exact Hall].
  - destruct (ensure_directory _ s) as [[[|]|e] s2] eqn:Hed; try discriminate.
    apply ensure_directory_outcome in Hed. destruct Hed as (t & Hext & Hall).
    intros H; inversion H; subst. exists t. auto.
Qed.

(** X15.  A live run of [upload_paper] returns [True] only when the
    document was put: every bridge command of the run was started, every
    command other than a listing returned status 0, and among them is the
    put of the document into the directory of a classification. *)
Theorem upload_paper_true_means_put (paper_path : str)
    (title classification output_file_name : option str) (s s' : state) :
  upload_paper (Some paper_path) title classification output_file_name false s
    = (Ret true, s') ->
  exists t, extends s s' t /\ Forall completed_call t
    /\ exists found result,
         In (Subprocess (put_argv paper_path found) (Some result)) t
         /\ returncode result = 0%Z.
Proof.
  rewrite upload_paper_eq.
  destruct (upload_prepare _ _ _ _ s) as [[[names|]|e] s1] eqn:Hp; try discriminate.
  apply upload_prepare_ready in Hp. destruct Hp as (t & Hext & Hall).
  rewrite upload_transfer_live. cbv zeta.
  destruct (bridge (put_argv paper_path (fst names)) (world s1))
    as [[result|] w1]; cbn [fst snd]; [|discriminate].
  destruct (returncode result =? 0)%Z eqn:Hrc; cbn [negb]; [|discriminate].
  apply Z.eqb_eq in Hrc.
  destruct (str_eqb (path_name paper_path) (snd names)).
  - intros H; inversion H; subst. eexists. split.
    + unfold extends in *. cbn [trace]. rewrite Hext, <- app_assoc. reflexivity.
    + split.
      * apply Forall_app. split; [exact Hall|].
        constructor; [right; exact Hrc | constructor].
      * exists (fst names), result. split; [|exact Hrc].
        apply in_or_app. right. left. reflexivity.
  - destruct (bridge _ w1) as [[moved|] w2]; cbn [fst snd]; [|discriminate].
    destruct (returncode moved =? 0)%Z eqn:Hmv; [|discriminate].
    apply Z.eqb_eq in Hmv.
    intros H; inversion H; subst. eexists. split.
    + unfold extends in *. cbn [trace]. rewrite Hext, <- !app_assoc. reflexivity.
    + split.
      * apply Forall_app. split; [exact Hall|].
        constructor; [right; exact Hrc|].
        constructor; [right; exact Hmv | constructor].
      * exists (fst names), result. split; [|exact Hrc].
        apply in_or_app. right. left. reflexivity.
Qed.





(** X16.  A document that was downloaded for an identifier is always
    renamed in a live run that succeeds: its name holds the dot of the
    identifier, which no formatted name has.  The run ends with the put of
    the downloaded file and the move of [arxiv_<identifier>] to the title
    made safe, both with status 0, in the directory of the category when
    one was given. *)
Theorem remote_document_is_renamed (input_str document_id title : str)
    (category : option str) (s s' : state) :
  parse_id input_str = Some document_id ->
  truthy title = true ->
  upload_paper (Some ("/tmp/arxiv_" ++ document_id ++ ".pdf"))
    (Some title) category None false s = (Ret true, s') ->
  exists t found put moved,
    extends s s'
      (t ++ [Subprocess [rmapi; "put" : str; "/tmp/arxiv_" ++ document_id ++ ".pdf";
                         "/papers/" ++ found ++ "/"] (Some put);
             Subprocess [rmapi; "mv" : str;
                         "/papers/" ++ found ++ "/" ++ "arxiv_" ++ document_id;
                         "/papers/" ++ found ++ "/" ++ safe_title_of title]
                        (Some moved)])
    /\ returncode put = 0%Z /\ returncode moved = 0%Z
    /\ (truthy_opt category = true -> found = value category).
Proof.
  intros Hp Ht. apply parse_id_finds in Hp. destruct Hp as [Hid _].
  rewrite upload_paper_eq.
  destruct (upload_prepare _ _ _ _ s) as [[[names|]|e] s1] eqn:Hprep; try discriminate.
  pose proof (upload_prepare_summary _ _ _ _ _ Hprep) as (t & Hext & _).
  assert (Hnames : snd names = generate_formatted_filename title
                   /\ (truthy_opt category = true -> fst names = value category)).
  { rewrite upload_prepare_eq in Hprep. cbv zeta in Hprep.
    cbn [truthy_opt value] in Hprep. rewrite Ht in Hprep.
    destruct (negb (ext_path_exists _ (world s))); [discriminate|].
    cbn [negb orb] in Hprep.
    destruct (negb (truthy_opt category)) eqn:Hc.
    - destruct (analyze_paper_with_claude _ s) as [[ct|e] sa]; [|discriminate].
      cbn [fst snd] in Hprep.
      destruct (ensure_directory _ sa) as [[[|]|e] s2]; try discriminate.
      inversion Hprep; subst. cbn [fst snd]. split; [reflexivity|].
      apply negb_true_iff in Hc. rewrite Hc. discriminate.
    - cbn [fst snd] in Hprep.
      destruct (ensure_directory _ s) as [[[|]|e] s2]; try discriminate.
      inversion Hprep; subst. cbn [fst snd]. auto. }
  destruct Hnames as [Hname Hfound].
  rewrite upload_transfer_live. cbv zeta.
  rewrite (path_name_download Hid), Hname, (download_name_differs title Hid).
  unfold mv_argv. rewrite (replace_pdf_download Hid).
  rewrite generate_formatted_filename_eq, (replace_pdf_suffix (safe_title_no_dot title)).
  unfold put_argv.
  destruct (bridge _ (world s1)) as [[put|] w1]; cbn [fst snd]; [|discriminate].
  destruct (returncode put =? 0)%Z eqn:Hrc; cbn [negb]; [|discriminate].
  destruct (bridge _ w1) as [[moved|] w2]; cbn [fst snd]; [|discriminate].
  destruct (returncode moved =? 0)%Z eqn:Hmv; [|discriminate].
  apply Z.eqb_eq in Hrc, Hmv.
  intros H; inversion H; subst. exists t, (fst names), put, moved.
  split; [|auto].
  unfold extends in *. cbn [trace]. rewrite Hext, <- !app_assoc. reflexivity.
Qed.

(** X17.  When the metadata has a title and the download fails, the run
    ends with a [TypeError] that nothing catches: [upload_paper] is given
    no path.  The metadata was asked for and the download tried; the
    classifier and the bridge were not called. *)
Theorem main_download_failure (paper handler : str) (dry_run : bool) (s : state)
    (title : str) (category : option str) (s1 : state) :
  parse_id paper = Some handler ->
  get_metadata handler s = (Ret (Some title, category), s1) ->
  truthy title = true ->
  let path := "/tmp/arxiv_" ++ handler ++ ".pdf" in
  let url := "https://arxiv.org/pdf/" ++ handler ++ ".pdf" in
  fst (ext_urlretrieve url (Some path) (world s1)) = false ->
  main (Some paper) dry_run s
  = (Raise TypeError,
     {| world := snd (ext_urlretrieve url (Some path) (world s1));
        trace := trace s ++ [Query (api_url handler); Download url (Some path)] |}).
Proof.
  intros Hp Hm Ht path url Hd.
  rewrite (@main_remote_eq _ paper handler dry_run s Hp), handle_arxiv_paper_eq, Hm.
  cbn [fst snd truthy_opt]. rewrite Ht. cbn [negb].
  pose proof (parse_id_finds _ Hp) as [Hid _].
  rewrite (download_paper_id_eq s1 Hid). cbv zeta. fold path url. rewrite Hd.
  unfold upload_paper, raise.
  destruct (get_metadata_returns handler s) as [v Hv]. rewrite Hv in Hm.
  inversion Hm; subst. cbn [trace]. rewrite <- app_assoc. reflexivity.
Qed.

(** X18.  An argument that is no identifier and names no file ends the run
    with status 1 and nothing done: no query, no download, no call of the
    classifier or of the bridge. *)
Theorem main_missing_file (paper : str) (dry_run : bool) (s : state) :
  parse_id paper = None -> truthy paper = true ->
  ext_path_exists paper (world s) = false ->
  main (Some paper) dry_run s = (Raise (SystemExit 1), s).
Proof.
  intros Hp Ht Hfound. rewrite (@main_local_eq _ paper dry_run s Hp Ht).
  unfold upload_paper. cbv [bind read ret]. rewrite Hfound. reflexivity.
Qed.

End PipelineExtras.

Lemma analyze_paper_with_claude_one_request_witness :
  exists payload,
    trace (snd (@analyze_paper_with_claude sim_externals "notes" (sim_init sim_notes)))
    = [Analyze "notes"; Oracle payload].
Proof.
  destruct (@analyze_paper_with_claude_one_request sim_externals "notes"
              (sim_init sim_notes)
              (Ret ("Physics" : str, "Dark Matter Survey" : str))
              (snd (@analyze_paper_with_claude sim_externals "notes" (sim_init sim_notes))))
    as [(e & He & _) | (v & payload & _ & _ & _ & Hs)].
  - vm_compute; reflexivity.
  - discriminate He.
  - exists payload. rewrite Hs. reflexivity.
Defined.


Lemma upload_paper_true_means_put_witness :
  exists t,
    extends (sim_init sim_notes)
      (snd (@upload_paper sim_externals (Some ("notes" : str)) None None None false
              (sim_init sim_notes))) t
    /\ Forall completed_call t
    /\ exists found result,
         In (Subprocess (put_argv "notes" found) (Some result)) t
         /\ returncode result = 0%Z.
Proof.
  apply (@upload_paper_true_means_put sim_externals "notes" None None None
           (sim_init sim_notes)).
  vm_compute; reflexivity.
Defined.

Lemma remote_document_is_renamed_witness :
  parse_id "arXiv:2301.12345v2" = Some ("2301.12345v2" : str)
  /\ exists t found put moved,
       extends (sim_init sim_downloaded)
         (snd (@upload_paper sim_externals (Some ("/tmp/arxiv_2301.12345v2.pdf" : str))
                 (Some ("Attention Is All You Need" : str))
                 (Some ("ComputerScience" : str)) None false (sim_init sim_downloaded)))
         (t ++ [Subprocess [rmapi; "put" : str; "/tmp/arxiv_2301.12345v2.pdf" : str;
                            "/papers/" ++ found ++ "/"] (Some put);
                Subprocess [rmapi; "mv" : str;
                            "/papers/" ++ found ++ "/" ++ "arxiv_2301.12345v2";
                            "/papers/" ++ found ++ "/" ++ "Attention Is All You Need"]
                           (Some moved)])
       /\ returncode put = 0%Z /\ returncode moved = 0%Z
       /\ (truthy_opt (Some ("ComputerScience" : str)) = true
           -> found = "ComputerScience").
Proof.
  split; [reflexivity|].
  apply (@remote_document_is_renamed sim_externals "arXiv:2301.12345v2" "2301.12345v2"
           "Attention Is All You Need" (Some ("ComputerScience" : str))
           (sim_init sim_downloaded)); [reflexivity | reflexivity |].
  vm_compute; reflexivity.
Defined.

Lemma main_download_failure_witness :
  @main sim_externals (Some ("2301.12345" : str)) false (sim_init sim_download_fails)
  = (Raise TypeError,
     @Build_state sim_externals sim_download_fails
       [Query "http://export.arxiv.org/api/query?id_list=2301.12345";
        Download "https://arxiv.org/pdf/2301.12345.pdf"
                 (Some ("/tmp/arxiv_2301.12345.pdf" : str))]).
Proof.
  apply (@main_download_failure sim_externals "2301.12345" "2301.12345" false
           (sim_init sim_download_fails) "Attention Is All You Need"
           (Some ("ComputerScience" : str))
           (snd (@get_metadata sim_externals "2301.12345" (sim_init sim_download_fails))));
    vm_compute; reflexivity.
Defined.

Lemma main_missing_file_witness :
  @main sim_externals (Some ("missing.pdf" : str)) false (sim_init sim0)
  = (Raise (SystemExit 1), sim_init sim0).
Proof.
  apply (@main_missing_file sim_externals "missing.pdf" false (sim_init sim0));
    reflexivity.
Defined.

Lemma main_local_exit_code_witness :
  exit_code (fst (@main sim_externals (Some ("notes" : str)) false (sim_init sim_notes)))
  = 0%Z.
Proof.
  apply (proj1 (@main_local_exit_code sim_externals "notes" false (sim_init sim_notes)
                  eq_refl eq_refl)).
  vm_compute; reflexivity.
Defined.


(** A classification that holds a NUL character: the listings are made,
    [/papers] is created, and the call that would create the directory of
    the classification raises [ValueError] before a process is started. *)
Example upload_paper_nul_classification :
  fst (sim_run (upload_paper (Some ("notes" : str)) (Some ("T" : str))
                  (Some ("C" ++ ["000"%char])) None false) sim_notes)
  = Raise (ValueError "embedded null byte")
  /\ argvs (trace (snd (sim_run (upload_paper (Some ("notes" : str)) (Some ("T" : str))
                                   (Some ("C" ++ ["000"%char])) None false) sim_notes)))
     = [ [rmapi; "ls" : str; "/" : str];
         [rmapi; "mkdir" : str; "/papers" : str];
         [rmapi; "ls" : str; "/papers" : str];
         [rmapi; "mkdir" : str; "/papers/C" ++ ["000"%char]] ].
Proof. split; vm_compute; reflexivity. Qed.
